(** * Traycer Lite: the plan normalisation and fallback pipeline

    A shallow embedding of [src/core/PlanGenerator.ts], of the parts of
    [src/services/LLMService.ts] that feed it, and of the chat handler of
    [src/ui/SidebarProvider.ts], followed by the properties of the
    specification that concern them; then of the workspace analyser
    ([src/core/CodebaseAnalyzer.ts], [src/core/FileScanner.ts]), of the
    escaping of [src/ui/PlanView.ts] and of the timestamps of
    [media/sidebar.js], with further properties of all of these.

    Conventions of the embedding.
    - A JavaScript string is held as the [string] of the bytes of its UTF-8
      encoding.  Searching, splitting and joining are the same on bytes as
      on code units, and a text is cut at the places that a search found.
      The white space that [trim] strips and that [\s] matches is the white
      space of ECMAScript, the characters outside ASCII included.
      [toLowerCase] lowers the ASCII letters and the two characters outside
      ASCII whose lower case holds an ASCII letter; it leaves the other
      characters as they are.  The [length] of a string counts UTF-16 code
      units.  The one place where the sources cut a text at an index that
      they compute from its length, [cleanJson], is embedded on bytes, and
      its property is stated for a text that ends with ASCII characters.
    - A plan document travels through the code as an untyped object (the
      TypeScript interfaces are erased, and [JSON.parse] returns anything):
      it is a [value].  The records [PlanRequest], [ProjectContext],
      [ScannedFile] and [LLMConfig] are built by typed code only.
    - A number is a double, held as the exact decimal [m * 10^e] that it is
      equal to: [JSON.parse] and [+] round to the nearest double, ties to
      even.
    - The conversion of a value to a string or to a number throws a
      TypeError on an object that has an own property [toString], which in
      data read by [JSON.parse] is never a function, and on an array that
      holds one.
    - [new Date().toISOString()], [randomUUID()] and the engine's conversions
      between strings and non-integral numbers are supplied by a [Runtime];
      the calls made are counted in the machine state.
    - A [throw] is an outcome of the monad [M]; the state reached when the
      exception was raised is kept.
    - Calls to the [Logger] write to an output channel that nothing reads
      back; they are left out, and with them the clock readings that the
      [Logger] takes to stamp its lines and the notifications it raises.
      [ticks] counts the readings that the embedded code takes itself, and
      [clock rt k] is the reading number [k] among these. *)

From Stdlib Require Import String Ascii List ZArith Lia Bool Arith DecimalString.
From Stdlib Require Import Sorted Permutation.
Import ListNotations.
Open Scope string_scope.
Set Warnings "-register-all".

(* ===================================================================== *)
(** * Strings: the String methods used by the sources *)
(* ===================================================================== *)

Module Str.

Definition LF : string := String "010"%char "".
Definition DQ : string := String "034"%char "".
Definition BS : string := String "092"%char "".

(** [quoted s] is [s] between two double quotes. *)
Definition quoted (s : string) : string := DQ ++ s ++ DQ.

Fixpoint starts_with (p s : string) : bool :=
  match p, s with
  | EmptyString, _ => true
  | String a p', String b s' => Ascii.eqb a b && starts_with p' s'
  | String _ _, EmptyString => false
  end.

Fixpoint drop (n : nat) (s : string) : string :=
  match n, s with
  | S n', String _ s' => drop n' s'
  | _, _ => s
  end.

Fixpoint take (n : nat) (s : string) : string :=
  match n, s with
  | S n', String c s' => String c (take n' s')
  | _, _ => EmptyString
  end.

(** [s.indexOf(sep)] *)
Fixpoint index_of (sep s : string) : option nat :=
  match s with
  | EmptyString => if starts_with sep EmptyString then Some 0 else None
  | String _ s' =>
      if starts_with sep s then Some 0 else option_map S (index_of sep s')
  end.

(** [s.includes(sep)] *)
Definition includes (sep s : string) : bool :=
  match index_of sep s with Some _ => true | None => false end.

(** [s.split(sep)] for a non-empty separator: the pieces between the
    occurrences of [sep], found from left to right without overlap. *)
Fixpoint split_fuel (fuel : nat) (sep s : string) : list string :=
  match fuel with
  | 0 => [s]
  | S f =>
      match index_of sep s with
      | None => [s]
      | Some i => take i s :: split_fuel f sep (drop (i + String.length sep) s)
      end
  end.

Definition split (sep s : string) : list string := split_fuel (String.length s) sep s.

(** [pieces[k]] of a split that is known to have that piece. *)
Definition piece (k : nat) (pieces : list string) : string := nth k pieces "".

(** [parts.join(sep)] on strings *)
Fixpoint join (sep : string) (parts : list string) : string :=
  match parts with
  | [] => ""
  | [p] => p
  | p :: rest => p ++ sep ++ join sep rest
  end.

(** The pieces put one after the other. *)
Definition concat (parts : list string) : string := fold_right append "" parts.

(** The white space and the line terminators of ECMAScript, which [trim]
    strips and the class [\s] matches: in ASCII the space and the
    characters from TAB to CR. *)
Definition is_space (c : ascii) : bool :=
  let n := nat_of_ascii c in ((n =? 32) || ((9 <=? n) && (n <=? 13)))%nat.

Definition ascii_spaces : list string :=
  [ " "; String "009"%char ""; String "010"%char ""; String "011"%char "";
    String "012"%char ""; String "013"%char "" ].

Definition bytes2 (a b : ascii) : string := String a (String b "").
Definition bytes3 (a b c : ascii) : string := String a (String b (String c "")).

(** Outside ASCII, by their UTF-8 bytes: U+00A0, U+1680, U+2000 to U+200A,
    U+2028, U+2029, U+202F, U+205F, U+3000 and U+FEFF. *)
Definition wide_spaces : list string :=
  [ bytes2 "194" "160";
    bytes3 "225" "154" "128";
    bytes3 "226" "128" "128"; bytes3 "226" "128" "129"; bytes3 "226" "128" "130";
    bytes3 "226" "128" "131"; bytes3 "226" "128" "132"; bytes3 "226" "128" "133";
    bytes3 "226" "128" "134"; bytes3 "226" "128" "135"; bytes3 "226" "128" "136";
    bytes3 "226" "128" "137"; bytes3 "226" "128" "138";
    bytes3 "226" "128" "168"; bytes3 "226" "128" "169"; bytes3 "226" "128" "175";
    bytes3 "226" "129" "159";
    bytes3 "227" "128" "128";
    bytes3 "239" "187" "191" ].

Definition is_wide_space (s : string) : bool := existsb (String.eqb s) wide_spaces.

(** What follows the white-space character that [s] begins with, if it
    begins with one. *)
Definition space_prefix (s : string) : option string :=
  match s with
  | String a r1 =>
      if is_space a then Some r1
      else match r1 with
           | String b r2 =>
               if is_wide_space (bytes2 a b) then Some r2
               else match r2 with
                    | String c r3 => if is_wide_space (bytes3 a b c) then Some r3 else None
                    | EmptyString => None
                    end
           | EmptyString => None
           end
  | EmptyString => None
  end.

(** [s.trimStart()] *)
Fixpoint trim_start (s : string) : string :=
  match s with
  | String a r1 =>
      if is_space a then trim_start r1
      else match r1 with
           | String b r2 =>
               if is_wide_space (bytes2 a b) then trim_start r2
               else match r2 with
                    | String c r3 =>
                        if is_wide_space (bytes3 a b c) then trim_start r3 else s
                    | EmptyString => s
                    end
           | EmptyString => s
           end
  | EmptyString => EmptyString
  end.

(** [s] is made of white space only. *)
Definition blank (s : string) : bool :=
  match trim_start s with EmptyString => true | _ => false end.

(** [s.trimEnd()]: [s] up to the white space it ends with. *)
Fixpoint trim_end (s : string) : string :=
  match s with
  | EmptyString => EmptyString
  | String c s' => if blank s then EmptyString else String c (trim_end s')
  end.

(** [s.trim()] *)
Definition trim (s : string) : string := trim_start (trim_end s).

Definition is_empty (s : string) : bool :=
  match s with EmptyString => true | _ => false end.

(** [s.length]: the number of UTF-16 code units of the text that the bytes
    encode.  A character takes one unit, and two when it lies beyond U+FFFF,
    where its encoding starts with a byte from 240 on; the bytes from 128 to
    191 continue a character. *)
Definition units_of_byte (c : ascii) : nat :=
  let n := nat_of_ascii c in
  if (n <? 128)%nat then 1
  else if (n <? 192)%nat then 0
  else if (n <? 240)%nat then 1
  else 2.

Fixpoint code_units (s : string) : nat :=
  match s with
  | EmptyString => 0
  | String c s' => units_of_byte c + code_units s'
  end.

(** [s.replace(/"/g, '\\"')] *)
Fixpoint escape_quotes (s : string) : string :=
  match s with
  | EmptyString => EmptyString
  | String c s' =>
      if Ascii.eqb c "034"%char then BS ++ DQ ++ escape_quotes s'
      else String c (escape_quotes s')
  end.

Definition lower_char (c : ascii) : ascii :=
  let n := nat_of_ascii c in
  if ((65 <=? n) && (n <=? 90))%nat then ascii_of_nat (n + 32) else c.

(** The ASCII letters of [s] in lower case, the rest as it is: what the
    flag [i] of a regular expression without the flag [u] makes of a text
    that is matched against ASCII letters in lower case (a character
    outside ASCII is never folded onto an ASCII one). *)
Fixpoint fold_case (s : string) : string :=
  match s with
  | EmptyString => EmptyString
  | String c s' => String (lower_char c) (fold_case s')
  end.

(** U+0130, the capital I with a dot above, and U+212A, the Kelvin sign, by
    their UTF-8 bytes; U+0307 is the combining dot above. *)
Definition capital_I_dot : string := bytes2 "196" "176".
Definition kelvin_sign : string := bytes3 "226" "132" "170".
Definition combining_dot : string := bytes2 "204" "135".

(** [s.toLowerCase()].  The ASCII letters are lowered; U+212A becomes [k]
    and U+0130 becomes [i] followed by U+0307.  These two are the only
    characters outside ASCII whose lower-case form holds an ASCII
    character; the other characters outside ASCII are left as they are,
    which changes no comparison of the result with ASCII text, and the
    sources make no other use of it. *)
Fixpoint toLowerCase (s : string) : string :=
  match s with
  | EmptyString => EmptyString
  | String a r1 =>
      match r1 with
      | String b r2 =>
          if String.eqb (bytes2 a b) capital_I_dot
          then String "i"%char (combining_dot ++ toLowerCase r2)
          else match r2 with
               | String c r3 =>
                   if String.eqb (bytes3 a b c) kelvin_sign
                   then String "k"%char (toLowerCase r3)
                   else String (lower_char a) (toLowerCase r1)
               | EmptyString => String (lower_char a) (toLowerCase r1)
               end
      | EmptyString => String (lower_char a) (toLowerCase r1)
      end
  end.

(** The class [\w] of regular expressions. *)
Definition is_word_char (c : ascii) : bool :=
  let n := nat_of_ascii c in
  (((48 <=? n) && (n <=? 57)) || ((65 <=? n) && (n <=? 90))
   || ((97 <=? n) && (n <=? 122)) || (n =? 95))%nat.

Definition boundary_before (prev : option ascii) : bool :=
  match prev with None => true | Some c => negb (is_word_char c) end.

Definition boundary_after (rest : string) : bool :=
  match rest with EmptyString => true | String c _ => negb (is_word_char c) end.

(** [/\b(a1|a2|...)\b/.test(s)] where every alternative begins and ends
    with a word character: some alternative occurs in [s] between two word
    boundaries.  [prev] is the character before the position looked at. *)
Fixpoint test_words_from (alts : list string) (prev : option ascii) (s : string) : bool :=
  match s with
  | EmptyString => false
  | String c s' =>
      (boundary_before prev
       && existsb (fun w => starts_with w s && boundary_after (drop (String.length w) s)) alts)
      || test_words_from alts (Some c) s'
  end.

Definition test_words (alts : list string) (s : string) : bool :=
  test_words_from alts None s.

(** [/\b(a1|a2|...)\b/i.test(s)], the alternatives being in lower case. *)
Definition test_words_i (alts : list string) (s : string) : bool :=
  test_words alts (fold_case s).

(** Index of the last occurrence of a character. *)
Fixpoint last_index_of (c : ascii) (s : string) : option nat :=
  match s with
  | EmptyString => None
  | String a s' =>
      match last_index_of c s' with
      | Some j => Some (S j)
      | None => if Ascii.eqb a c then Some 0 else None
      end
  end.

(** [s.match(/\{[\s\S]*\}/)]: the span from the first opening brace to the
    last closing brace after it. *)
Definition match_braces (s : string) : option string :=
  match index_of "{" s with
  | None => None
  | Some i =>
      let rest := drop i s in
      match last_index_of "}"%char rest with
      | Some j => Some (take (S j) rest)
      | None => None
      end
  end.

(** Decimal rendering of an integer. *)
Definition of_Z (z : Z) : string := NilZero.string_of_int (Z.to_int z).

Definition of_nat (n : nat) : string := of_Z (Z.of_nat n).

(** [s.substring(a, b)]: both indices are clamped to the length of [s], and
    swapped when the first is the larger.  The indices count bytes: they
    are the indices of the source when the text that they leave out is
    ASCII. *)
Definition substring (a b : nat) (s : string) : string :=
  let a' := Nat.min a (String.length s) in
  let b' := Nat.min b (String.length s) in
  take (Nat.max a' b' - Nat.min a' b') (drop (Nat.min a' b') s).

End Str.

(* ===================================================================== *)
(** * The typed records of [src/types/index.ts] *)
(* ===================================================================== *)

(** [type PlanMode = 'plan' | 'phase'] *)
Inductive PlanMode := plan_mode | phase_mode.

Definition mode_text (m : PlanMode) : string :=
  match m with plan_mode => "plan" | phase_mode => "phase" end.

Definition is_phase (m : PlanMode) : bool :=
  match m with phase_mode => true | plan_mode => false end.

Record PlanRequest := {
  task : string;
  mode : PlanMode;
  hints : option (list string)
}.

Record ScannedFile := {
  path : string;
  language : string;
  size : Z
}.

Record ProjectContext := {
  rootPath : string;
  files : list ScannedFile;
  techStack : list string;
  summary : string
}.

(** [LLMConfig]; [provider] is read from the settings as a string and only
    cast to [LLMProvider]. *)
Record LLMConfig := {
  provider : string;
  apiKey : option string;
  baseUrl : option string;
  model : option string;
  temperature : option Z;
  maxTokens : option Z
}.

(* ===================================================================== *)
(** * JavaScript values and the operators the sources apply to them *)
(* ===================================================================== *)

Module Js.

(** A number is [NaN], an infinity, or a finite double, held as the exact
    decimal [m * 10^e] that it is equal to. *)
Inductive number := NaN | Infinity (negative : bool) | Dec (m e : Z).

Inductive value :=
| VUndefined
| VNull
| VBool (b : bool)
| VNum (n : number)
| VStr (s : string)
| VArr (items : list value)
| VObj (fields : list (string * value)).

(** An object: its own properties in insertion order, keys distinct. *)
Definition obj := list (string * value).

Definition num_of_nat (n : nat) : value := VNum (Dec (Z.of_nat n) 0).

Definition strings (l : list string) : value := VArr (map VStr l).

Fixpoint lookup (k : string) (o : obj) : option value :=
  match o with
  | [] => None
  | (k', v) :: rest => if String.eqb k k' then Some v else lookup k rest
  end.

(** [o[k] = v]: the property keeps its place when it exists, and is added
    last otherwise. *)
Fixpoint set_field (k : string) (v : value) (o : obj) : obj :=
  match o with
  | [] => [(k, v)]
  | (k', v') :: rest =>
      if String.eqb k k' then (k, v) :: rest else (k', v') :: set_field k v rest
  end.

(** [v.k] for a value that is neither [null] nor [undefined], and a key
    that names a data property: the plan keys of the sources, or [length]. *)
Definition field (v : value) (k : string) : value :=
  match v with
  | VObj o => match lookup k o with Some x => x | None => VUndefined end
  | VArr l => if String.eqb k "length" then num_of_nat (List.length l) else VUndefined
  | VStr s => if String.eqb k "length" then num_of_nat (Str.code_units s) else VUndefined
  | _ => VUndefined
  end.

Definition elements (v : value) : list value :=
  match v with VArr l => l | _ => [] end.

Definition nullish (v : value) : bool :=
  match v with VUndefined | VNull => true | _ => false end.

Definition is_zero (n : number) : bool :=
  match n with Dec m _ => Z.eqb m 0 | _ => false end.

(** ToBoolean *)
Definition truthy (v : value) : bool :=
  match v with
  | VUndefined | VNull => false
  | VBool b => b
  | VNum NaN => false
  | VNum n => negb (is_zero n)
  | VStr s => negb (Str.is_empty s)
  | VArr _ | VObj _ => true
  end.

(** [a || b] and [a ?? b] with a second operand that has no effect *)
Definition or_else (a b : value) : value := if truthy a then a else b.
Definition coalesce (a b : value) : value := if nullish a then b else a.

(** [v === 0] *)
Definition strict_eq_zero (v : value) : bool :=
  match v with VNum n => is_zero n | _ => false end.

Definition is_array (v : value) : bool :=
  match v with VArr _ => true | _ => false end.

(** ** Doubles *)

Definition pow10 (e : Z) : Z := Z.pow 10 e.
Definition pow2 (e : Z) : Z := Z.pow 2 e.

(** The quotient of two positive integers rounded to the nearest integer,
    a tie going to the even one. *)
Definition div_nearest_even (a b : Z) : Z :=
  let q := (a / b)%Z in
  let r := (a mod b)%Z in
  if (2 * r <? b)%Z then q
  else if (b <? 2 * r)%Z then (q + 1)%Z
  else if Z.even q then q else (q + 1)%Z.

(** The double nearest to [num / den], for positive [num] and [den], with
    the sign given.  [e] is the binary exponent of the quotient and [q] that
    of the last of the 53 bits kept, never below that of the least
    subnormal; [k] is the quotient in units of [2^q].  A result of
    magnitude [2^1024] or more is an infinity.  The result is written with
    the least power of ten that holds it. *)
Definition nearest_ratio (negative : bool) (num den : Z) : number :=
  let e0 := (Z.log2 num - Z.log2 den)%Z in
  let reached := if (0 <=? e0)%Z then (den * pow2 e0 <=? num)%Z
                 else (den <=? num * pow2 (- e0))%Z in
  let e := if reached then e0 else (e0 - 1)%Z in
  let q := Z.max (e - 52) (-1074) in
  let k := if (0 <=? q)%Z then div_nearest_even num (den * pow2 q)
           else div_nearest_even (num * pow2 (- q)) den in
  if (k =? 0)%Z then Dec 0 0
  else if (1024 <=? Z.log2 k + q)%Z then Infinity negative
  else if (0 <=? q)%Z then Dec ((if negative then - k else k) * pow2 q) 0
  else
    let g := Z.gcd k (pow2 (- q)) in
    let k' := (k / g)%Z in
    let q' := (q + Z.log2 g)%Z in
    Dec ((if negative then - k' else k') * Z.pow 5 (- q')) q'.

(** The double nearest to [m * 10^e].  An integer of magnitude [2^53] at
    most is a double. *)
Definition nearest_double (m e : Z) : number :=
  if (m =? 0)%Z then Dec 0 0
  else if (0 <=? e)%Z then
    if (Z.abs (m * pow10 e) <=? pow2 53)%Z then Dec (m * pow10 e) 0
    else nearest_ratio (m <? 0)%Z (Z.abs m * pow10 e) 1
  else nearest_ratio (m <? 0)%Z (Z.abs m) (pow10 (- e)).

(** ** The conversion to a primitive value *)

Definition has_own (k : string) (o : obj) : bool :=
  match lookup k o with Some _ => true | None => false end.

(** ToPrimitive returns.  An object calls its [toString]: the one of
    [Object.prototype], unless the object has an own property of that name,
    which in data that [JSON.parse] has read is not a function, and then
    neither [toString] nor [valueOf] yields a primitive value.  An array
    joins its elements, converting those that are neither [null] nor
    [undefined]. *)
Fixpoint printable (v : value) : bool :=
  match v with
  | VObj o => negb (has_own "toString" o)
  | VArr l => forallb (fun x => nullish x || printable x) l
  | _ => true
  end.

(** [items.join(sep)] returns. *)
Definition joinable (items : list value) : bool :=
  forallb (fun x => nullish x || printable x) items.

(** ** The engine *)

(** What the embedding takes from the engine and the host: the clock
    readings and the UUIDs in the order they are asked for, the rendering of
    a number that is not a small integer, and the reading of a string as a
    number. *)
Record Runtime := {
  clock : nat -> string;
  uuid : nat -> string;
  float_toString : Z -> Z -> string;
  string_toNumber : string -> number
}.

Section WithRuntime.

Variable rt : Runtime.

(** Number::toString; integers below [10^21] are printed in full. *)
Definition number_toString (n : number) : string :=
  match n with
  | NaN => "NaN"
  | Infinity negative => if negative then "-Infinity" else "Infinity"
  | Dec m e =>
      let whole :=
        if (0 <=? e)%Z then Some (m * pow10 e)%Z
        else if (m mod pow10 (- e) =? 0)%Z then Some (m / pow10 (- e))%Z
        else None in
      match whole with
      | Some z => if (Z.abs z <? pow10 21)%Z then Str.of_Z z else float_toString rt m e
      | None => float_toString rt m e
      end
  end.

(** The sum of two doubles: the double nearest to the exact sum. *)
Definition number_add (a b : number) : number :=
  match a, b with
  | Dec m1 e1, Dec m2 e2 =>
      let e := Z.min e1 e2 in
      nearest_double (m1 * pow10 (e1 - e) + m2 * pow10 (e2 - e)) e
  | Infinity s, Dec _ _ => Infinity s
  | Dec _ _, Infinity s => Infinity s
  | Infinity s1, Infinity s2 => if Bool.eqb s1 s2 then Infinity s1 else NaN
  | _, _ => NaN
  end.

(** [n > k] for an integer [k] *)
Definition number_gt (n : number) (k : Z) : bool :=
  match n with
  | NaN => false
  | Infinity negative => negb negative
  | Dec m e => if (0 <=? e)%Z then (k <? m * pow10 e)%Z else (k * pow10 (- e) <? m)%Z
  end.

(** ToString, as a template literal and [join] apply it, where it returns
    (see [printable]). *)
Fixpoint to_string (v : value) : string :=
  match v with
  | VUndefined => "undefined"
  | VNull => "null"
  | VBool true => "true"
  | VBool false => "false"
  | VNum n => number_toString n
  | VStr s => s
  | VArr l =>
      Str.join "," (map (fun x => if nullish x then "" else to_string x) l)
  | VObj _ => "[object Object]"
  end.

(** [items.join(sep)], where it returns (see [joinable]). *)
Definition join (sep : string) (items : list value) : string :=
  Str.join sep (map (fun x => if nullish x then "" else to_string x) items).

(** ToNumber, where it returns (see [printable]). *)
Definition to_number (v : value) : number :=
  match v with
  | VUndefined => NaN
  | VNull => Dec 0 0
  | VBool true => Dec 1 0
  | VBool false => Dec 0 0
  | VNum n => n
  | VStr s => string_toNumber rt s
  | VArr _ => string_toNumber rt (to_string v)
  | VObj _ => NaN
  end.

(** [v > k], where it returns. *)
Definition gt (v : value) (k : Z) : bool := number_gt (to_number v) k.

Definition to_primitive_is_string (v : value) : bool :=
  match v with VStr _ | VArr _ | VObj _ => true | _ => false end.

(** [a + b], where it returns. *)
Definition add (a b : value) : value :=
  if to_primitive_is_string a || to_primitive_is_string b
  then VStr (to_string a ++ to_string b)
  else VNum (number_add (to_number a) (to_number b)).

End WithRuntime.

End Js.

Export Js.

(* ===================================================================== *)
(** * [JSON.parse] and [JSON.stringify] *)
(* ===================================================================== *)

Module Json.

Definition is_ws (c : ascii) : bool :=
  let n := nat_of_ascii c in ((n =? 32) || (n =? 9) || (n =? 10) || (n =? 13))%nat.

Fixpoint skip_ws (s : string) : string :=
  match s with
  | String c s' => if is_ws c then skip_ws s' else s
  | EmptyString => EmptyString
  end.

Definition digit (c : ascii) : option Z :=
  let n := nat_of_ascii c in
  if ((48 <=? n) && (n <=? 57))%nat then Some (Z.of_nat (n - 48)) else None.

Definition hex_digit (c : ascii) : option nat :=
  let n := nat_of_ascii c in
  if ((48 <=? n) && (n <=? 57))%nat then Some (n - 48)
  else if ((65 <=? n) && (n <=? 70))%nat then Some (n - 55)
  else if ((97 <=? n) && (n <=? 102))%nat then Some (n - 87)
  else None.

(** A run of decimal digits read into [acc]; also the number of digits. *)
Fixpoint read_digits (s : string) (acc : Z) (count : nat) : Z * nat * string :=
  match s with
  | String c r =>
      match digit c with
      | Some d => read_digits r (10 * acc + d)%Z (S count)
      | None => (acc, count, s)
      end
  | EmptyString => (acc, count, s)
  end.

Definition read_exponent (m e : Z) (s : string) : option (number * string) :=
  match s with
  | String c r =>
      if Ascii.eqb c "e"%char || Ascii.eqb c "E"%char then
        let '(negative, r1) :=
          match r with
          | String sg r' =>
              if Ascii.eqb sg "-"%char then (true, r')
              else if Ascii.eqb sg "+"%char then (false, r')
              else (false, r)
          | EmptyString => (false, r)
          end in
        let '(x, k, r2) := read_digits r1 0%Z 0 in
        if (k =? 0)%nat then None
        else Some (Dec m (if negative then e - x else e + x)%Z, r2)
      else Some (Dec m e, s)
  | EmptyString => Some (Dec m e, s)
  end.

Definition read_fraction (m : Z) (s : string) : option (number * string) :=
  match s with
  | String c r =>
      if Ascii.eqb c "."%char then
        let '(m', k, r2) := read_digits r m 0 in
        if (k =? 0)%nat then None else read_exponent m' (- Z.of_nat k) r2
      else read_exponent m 0%Z s
  | EmptyString => read_exponent m 0%Z s
  end.

(** A JSON number: an optional minus sign, an integer part without a
    leading zero, an optional fraction, an optional exponent.  Its value is
    the double nearest to the decimal written. *)
Definition read_number (s : string) : option (number * string) :=
  let '(negative, s1) :=
    match s with
    | String c r => if Ascii.eqb c "-"%char then (true, r) else (false, s)
    | EmptyString => (false, s)
    end in
  let signed (res : option (number * string)) :=
    match res with
    | Some (Dec m e, r) => Some (nearest_double (if negative then - m else m)%Z e, r)
    | other => other
    end in
  match s1 with
  | String c r =>
      if Ascii.eqb c "0"%char then signed (read_fraction 0%Z r)
      else match digit c with
           | Some _ => let '(m, _, r') := read_digits s1 0%Z 0 in signed (read_fraction m r')
           | None => None
           end
  | EmptyString => None
  end.

(** The UTF-8 bytes of a code unit given by four hexadecimal digits. *)
Definition utf8 (cp : nat) : string :=
  if (cp <? 128)%nat then String (ascii_of_nat cp) ""
  else if (cp <? 2048)%nat then
    String (ascii_of_nat (192 + cp / 64)) (String (ascii_of_nat (128 + cp mod 64)) "")
  else
    String (ascii_of_nat (224 + cp / 4096))
      (String (ascii_of_nat (128 + (cp / 64) mod 64))
         (String (ascii_of_nat (128 + cp mod 64)) "")).

Definition simple_escape (c : ascii) : option ascii :=
  if Ascii.eqb c "034"%char then Some "034"%char
  else if Ascii.eqb c "092"%char then Some "092"%char
  else if Ascii.eqb c "/"%char then Some "/"%char
  else if Ascii.eqb c "b"%char then Some "008"%char
  else if Ascii.eqb c "f"%char then Some "012"%char
  else if Ascii.eqb c "n"%char then Some "010"%char
  else if Ascii.eqb c "r"%char then Some "013"%char
  else if Ascii.eqb c "t"%char then Some "009"%char
  else None.

(** The rest of a string literal after its opening quote: the text it
    denotes, and what follows the closing quote. *)
Fixpoint read_string (s : string) : option (string * string) :=
  match s with
  | EmptyString => None
  | String c r =>
      if Ascii.eqb c "034"%char then Some ("", r)
      else if Ascii.eqb c "092"%char then
        match r with
        | String e r' =>
            if Ascii.eqb e "u"%char then
              match r' with
              | String h1 (String h2 (String h3 (String h4 r''))) =>
                  match hex_digit h1, hex_digit h2, hex_digit h3, hex_digit h4 with
                  | Some a, Some b, Some c', Some d =>
                      match read_string r'' with
                      | Some (t, rest) =>
                          Some (utf8 (((a * 16 + b) * 16 + c') * 16 + d) ++ t, rest)
                      | None => None
                      end
                  | _, _, _, _ => None
                  end
              | _ => None
              end
            else
              match simple_escape e with
              | Some x =>
                  match read_string r' with
                  | Some (t, rest) => Some (String x t, rest)
                  | None => None
                  end
              | None => None
              end
        | EmptyString => None
        end
      else if (nat_of_ascii c <? 32)%nat then None
      else
        match read_string r with
        | Some (t, rest) => Some (String c t, rest)
        | None => None
        end
  end.

Definition read_literal (s : string) : option (value * string) :=
  if Str.starts_with "true" s then Some (VBool true, Str.drop 4 s)
  else if Str.starts_with "false" s then Some (VBool false, Str.drop 5 s)
  else if Str.starts_with "null" s then Some (VNull, Str.drop 4 s)
  else match read_number s with
       | Some (n, r) => Some (VNum n, r)
       | None => None
       end.

(** A value, the elements of an array after its first bracket, the members
    of an object after its first brace.  [fuel] bounds the depth of the
    calls; a later member replaces an earlier one of the same name. *)
Fixpoint read_value (fuel : nat) (s : string) : option (value * string) :=
  match fuel with
  | 0 => None
  | S f =>
      match skip_ws s with
      | EmptyString => None
      | String c r =>
          if Ascii.eqb c "{"%char then
            match skip_ws r with
            | String c' r' =>
                if Ascii.eqb c' "}"%char then Some (VObj [], r') else read_members f r []
            | EmptyString => None
            end
          else if Ascii.eqb c "["%char then
            match skip_ws r with
            | String c' r' =>
                if Ascii.eqb c' "]"%char then Some (VArr [], r') else read_elements f r []
            | EmptyString => None
            end
          else if Ascii.eqb c "034"%char then
            match read_string r with
            | Some (t, rest) => Some (VStr t, rest)
            | None => None
            end
          else read_literal (String c r)
      end
  end
with read_elements (fuel : nat) (s : string) (acc : list value) : option (value * string) :=
  match fuel with
  | 0 => None
  | S f =>
      match read_value f s with
      | None => None
      | Some (v, r) =>
          match skip_ws r with
          | String c r' =>
              if Ascii.eqb c ","%char then read_elements f r' (acc ++ [v])
              else if Ascii.eqb c "]"%char then Some (VArr (acc ++ [v]), r')
              else None
          | EmptyString => None
          end
      end
  end
with read_members (fuel : nat) (s : string) (acc : obj) : option (value * string) :=
  match fuel with
  | 0 => None
  | S f =>
      match skip_ws s with
      | String q r =>
          if Ascii.eqb q "034"%char then
            match read_string r with
            | None => None
            | Some (k, r1) =>
                match skip_ws r1 with
                | String c r2 =>
                    if Ascii.eqb c ":"%char then
                      match read_value f r2 with
                      | None => None
                      | Some (v, r3) =>
                          match skip_ws r3 with
                          | String c' r4 =>
                              if Ascii.eqb c' ","%char then read_members f r4 (set_field k v acc)
                              else if Ascii.eqb c' "}"%char then Some (VObj (set_field k v acc), r4)
                              else None
                          | EmptyString => None
                          end
                      end
                    else None
                | EmptyString => None
                end
            end
          else None
      | EmptyString => None
      end
  end.

(** [JSON.parse(s)]; [None] when it throws a SyntaxError. *)
Definition parse (s : string) : option value :=
  match read_value (2 * String.length s + 2) s with
  | Some (v, r) => if Str.is_empty (skip_ws r) then Some v else None
  | None => None
  end.

Definition hex_char (n : nat) : ascii :=
  if (n <? 10)%nat then ascii_of_nat (48 + n) else ascii_of_nat (87 + n).

(** QuoteJSONString *)
Fixpoint quote_body (s : string) : string :=
  match s with
  | EmptyString => EmptyString
  | String c r =>
      let n := nat_of_ascii c in
      (if (n =? 34)%nat then Str.BS ++ Str.DQ
       else if (n =? 92)%nat then Str.BS ++ Str.BS
       else if (n =? 8)%nat then Str.BS ++ "b"
       else if (n =? 12)%nat then Str.BS ++ "f"
       else if (n =? 10)%nat then Str.BS ++ "n"
       else if (n =? 13)%nat then Str.BS ++ "r"
       else if (n =? 9)%nat then Str.BS ++ "t"
       else if (n <? 32)%nat then
         Str.BS ++ "u00" ++ String (hex_char (n / 16)) (String (hex_char (n mod 16)) "")
       else String c "") ++ quote_body r
  end.

Definition quote (s : string) : string := Str.quoted (quote_body s).

Section Stringify.

Variable rt : Runtime.

(** The gap of the call: two spaces for [JSON.stringify(v, null, 2)], none
    for [JSON.stringify(v)]. *)
Variable gap : string.

Definition wrap (opening closing indent : string) (parts : list string) : string :=
  match parts with
  | [] => opening ++ closing
  | _ =>
      if Str.is_empty gap then opening ++ Str.join "," parts ++ closing
      else
        let inner := indent ++ gap in
        opening ++ Str.LF ++ inner
        ++ Str.join ("," ++ Str.LF ++ inner) parts
        ++ Str.LF ++ indent ++ closing
  end.

(** SerializeJSONProperty; [None] is [undefined]. *)
Fixpoint serialize (indent : string) (v : value) : option string :=
  match v with
  | VUndefined => None
  | VNull => Some "null"
  | VBool true => Some "true"
  | VBool false => Some "false"
  | VNum NaN => Some "null"
  | VNum (Infinity _) => Some "null"
  | VNum n => Some (number_toString rt n)
  | VStr s => Some (quote s)
  | VArr l =>
      Some (wrap "[" "]" indent
              (map (fun x => match serialize (indent ++ gap) x with
                             | Some t => t
                             | None => "null"
                             end) l))
  | VObj o =>
      Some (wrap "{" "}" indent
              (flat_map (fun kv => match serialize (indent ++ gap) (snd kv) with
                                   | Some t =>
                                       [quote (fst kv) ++ (if Str.is_empty gap then ":" else ": ") ++ t]
                                   | None => []
                                   end) o))
  end.

End Stringify.

(** [JSON.stringify(v)] and [JSON.stringify(v, null, 2)] of an object *)
Definition stringify (rt : Runtime) (v : value) : string :=
  match serialize rt "" "" v with Some t => t | None => "undefined" end.

Definition stringify_pretty (rt : Runtime) (v : value) : string :=
  match serialize rt "  " "" v with Some t => t | None => "undefined" end.

End Json.

(* ===================================================================== *)
(** * The machine state and the monad of effects *)
(* ===================================================================== *)

Inductive Role := user | assistant.

(** [interface ChatMessage]; [msg_plan] is [undefined] when absent. *)
Record ChatMessage := {
  msg_role : Role;
  msg_content : string;
  msg_timestamp : string;
  msg_plan : value
}.

(** The messages the sidebar posts to its webview. *)
Inductive Posted :=
| PostAddMessage (message : ChatMessage)
| PostTyping (isTyping : bool)
| PostChatCleared.

(** The number of clock readings and of UUIDs taken so far, and the fields
    of the sidebar provider: [_conversationHistory], [_currentPlan],
    [_projectContext], and what was posted to the webview. *)
Record Machine := {
  ticks : nat;
  draws : nat;
  conversationHistory : list ChatMessage;
  currentPlan : value;
  projectContext : option ProjectContext;
  posted : list Posted
}.

Record exn := { ename : string; message : string }.

Definition Error (msg : string) : exn := {| ename := "Error"; message := msg |}.
Definition TypeError (msg : string) : exn := {| ename := "TypeError"; message := msg |}.
Definition SyntaxError (msg : string) : exn := {| ename := "SyntaxError"; message := msg |}.

Inductive outcome (A : Type) :=
| Ret (a : A) (w : Machine)
| Throw (e : exn) (w : Machine).

Arguments Ret {A} a w.
Arguments Throw {A} e w.

Definition M (A : Type) : Type := Machine -> outcome A.

Definition ret {A} (a : A) : M A := fun w => Ret a w.

Definition bind {A B} (m : M A) (k : A -> M B) : M B :=
  fun w => match m w with
           | Ret a w' => k a w'
           | Throw e w' => Throw e w'
           end.

Definition throw {A} (e : exn) : M A := fun w => Throw e w.

(** [try { m } catch (e) { handler e }] *)
Definition try_catch {A} (m : M A) (handler : exn -> M A) : M A :=
  fun w => match m w with
           | Ret a w' => Ret a w'
           | Throw e w' => handler e w'
           end.

Declare Scope js_scope.
Delimit Scope js_scope with js.
Notation "x <- m ;; k" := (bind m (fun x => k))
  (at level 61, m at next level, right associativity) : js_scope.
Notation "m ;;; k" := (bind m (fun _ => k))
  (at level 61, right associativity) : js_scope.
Open Scope js_scope.

Fixpoint mapM {A B} (f : A -> M B) (l : list A) : M (list B) :=
  match l with
  | [] => ret []
  | x :: rest => y <- f x ;; ys <- mapM f rest ;; ret (y :: ys)
  end.

(** [mapiM f i l]: as [mapM], the callback also receiving the index, which
    starts at [i]. *)
Fixpoint mapiM {A B} (f : nat -> A -> M B) (i : nat) (l : list A) : M (list B) :=
  match l with
  | [] => ret []
  | x :: rest => y <- f i x ;; ys <- mapiM f (S i) rest ;; ret (y :: ys)
  end.

Fixpoint foldM {A B} (f : B -> A -> M B) (acc : B) (l : list A) : M B :=
  match l with
  | [] => ret acc
  | x :: rest => acc' <- f acc x ;; foldM f acc' rest
  end.

Section Effects.

Variable rt : Runtime.

(** [new Date().toISOString()] *)
Definition now : M string :=
  fun w => Ret (clock rt (ticks w))
               {| ticks := S (ticks w); draws := draws w;
                  conversationHistory := conversationHistory w;
                  currentPlan := currentPlan w;
                  projectContext := projectContext w;
                  posted := posted w |}.

(** [randomUUID()] *)
Definition randomUUID : M string :=
  fun w => Ret (uuid rt (draws w))
               {| ticks := ticks w; draws := S (draws w);
                  conversationHistory := conversationHistory w;
                  currentPlan := currentPlan w;
                  projectContext := projectContext w;
                  posted := posted w |}.

(** [v.k]; the message of the TypeError is V8's. *)
Definition get (v : value) (k : string) : M value :=
  match v with
  | VUndefined =>
      throw (TypeError ("Cannot read properties of undefined (reading '" ++ k ++ "')"))
  | VNull =>
      throw (TypeError ("Cannot read properties of null (reading '" ++ k ++ "')"))
  | _ => ret (field v k)
  end.

(** The TypeError of a conversion to a primitive value; the message is
    V8's. *)
Definition unprintable : exn := TypeError "Cannot convert object to primitive value".

(** ToString, as a template literal applies it. *)
Definition ToString (v : value) : M string :=
  if printable v then ret (to_string rt v) else throw unprintable.

(** [v > k] *)
Definition greater (v : value) (k : Z) : M bool :=
  if printable v then ret (gt rt v k) else throw unprintable.

(** [a + b] *)
Definition plus (a b : value) : M value :=
  if printable a && printable b then ret (add rt a b) else throw unprintable.

(** [items.join(sep)] *)
Definition array_join (sep : string) (items : list value) : M string :=
  if joinable items then ret (Js.join rt sep items) else throw unprintable.

(** What calling a method of [Array.prototype] on [v] does when [v] is not
    an array; [callee] is the text of the expression called. *)
Definition not_an_array {A} (method callee : string) (v : value) : M A :=
  match v with
  | VUndefined =>
      throw (TypeError ("Cannot read properties of undefined (reading '" ++ method ++ "')"))
  | VNull =>
      throw (TypeError ("Cannot read properties of null (reading '" ++ method ++ "')"))
  | _ => throw (TypeError (callee ++ "." ++ method ++ " is not a function"))
  end.

(** [v.map(f)] *)
Definition array_map (callee : string) (v : value) (f : value -> M value) : M value :=
  match v with
  | VArr l => l' <- mapM f l ;; ret (VArr l')
  | _ => not_an_array "map" callee v
  end.

(** [v.map((x, i) => f i x)] *)
Definition array_mapi (callee : string) (v : value) (f : nat -> value -> M value) : M value :=
  match v with
  | VArr l => l' <- mapiM f 0 l ;; ret (VArr l')
  | _ => not_an_array "map" callee v
  end.

(** [v.reduce((acc, x) => f acc x, init)] *)
Definition array_reduce (callee : string) (v : value) (f : value -> value -> M value)
    (init : value) : M value :=
  match v with
  | VArr l => foldM f init l
  | _ => not_an_array "reduce" callee v
  end.

Fixpoint chars (s : string) : list value :=
  match s with
  | EmptyString => []
  | String c s' => VStr (String c "") :: chars s'
  end.

(** [for (const x of v) acc = body acc x]: arrays and strings are iterable. *)
Definition for_of {B} (callee : string) (v : value) (body : B -> value -> M B) (acc : B) : M B :=
  match v with
  | VArr l => foldM body acc l
  | VStr s => foldM body acc (chars s)
  | _ => throw (TypeError (callee ++ " is not iterable"))
  end.

(** [JSON.parse(s)] *)
Definition JSON_parse (s : string) : M value :=
  match Json.parse s with
  | Some v => ret v
  | None => throw (SyntaxError "Unexpected token in JSON")
  end.

End Effects.

(* ===================================================================== *)
(** * [src/services/LLMService.ts] *)
(* ===================================================================== *)

Module LLMService.

(** The service: its configuration, and whether [initializeGemini] left it
    with a model and a chat session. *)
Record t := {
  config : LLMConfig;
  session_ready : bool
}.

(** What [model.generateContent] answers to one request. *)
Inductive GeminiReply :=
| RequestRejected (reason : string)
    (** [generateContent], or awaiting [result.response], rejects *)
| NoCandidates
    (** no response, or no candidate in it *)
| Candidate (finishReason : option string) (text : option string).
    (** the first candidate; [text] is [None] when [response.text()] throws *)

Definition blocked (finishReason : option string) : bool :=
  match finishReason with
  | Some r => negb (Str.is_empty r) && negb (String.eqb r "STOP")
  | None => false
  end.

Definition finish_text (finishReason : option string) : string :=
  match finishReason with Some r => r | None => "undefined" end.

(** The removal of Markdown fences in [sendMessage]. *)
Definition strip_fences (text : string) : string :=
  if Str.includes "```json" text then
    Str.trim (Str.piece 0 (Str.split "```" (Str.piece 1 (Str.split "```json" text))))
  else if Str.includes "```" text then
    Str.trim (Str.piece 1 (Str.split "```" text))
  else text.

(** [cleanJson]; a private method that nothing calls.  The two indices
    count bytes, as [Str.substring] does; they are the indices of the source
    when the three characters that end the trimmed text are ASCII
    characters. *)
Definition cleanJson (text : string) : string :=
  let trimmed := Str.trim text in
  if Str.starts_with "```json" trimmed
  then Str.substring 7 (String.length trimmed - 3) trimmed
  else trimmed.

Section WithRuntime.

Variable rt : Runtime.

(** The direct parse of the cleaned text, then the parse of its first
    brace-to-last-brace span. *)
Definition recover_json (text : string) : M string :=
  try_catch
    (_ <- JSON_parse text ;; ret text)
    (fun firstError =>
       match Str.match_braces text with
       | Some m =>
           try_catch
             (_ <- JSON_parse m ;; ret m)
             (fun innerErr => throw (Error "Gemini response contains malformed JSON"))
       | None => throw (Error "Gemini response is not valid JSON")
       end).

(** The [try] block of [sendMessage]. *)
Definition structured_text (reply : GeminiReply) : M string :=
  match reply with
  | RequestRejected reason => throw (Error reason)
  | NoCandidates => throw (Error "Gemini response blocked or missing candidates")
  | Candidate finishReason text =>
      if blocked finishReason then
        throw (Error ("Gemini response blocked: " ++ finish_text finishReason))
      else
        match text with
        | None => throw (Error "Failed to extract text from Gemini response")
        | Some t =>
            let text := Str.trim t in
            if Str.is_empty text then throw (Error "Gemini response missing content")
            else recover_json (strip_fences text)
        end
  end.

Definition sendMessage (svc : t) (reply : GeminiReply) (prompt : string) : M string :=
  if negb (session_ready svc) then
    throw (Error "Gemini chat session not initialized. Check API key and provider configuration.")
  else
    try_catch (structured_text reply)
      (fun error => throw (Error "Failed to generate content with Gemini")).

(** The [try] block of [sendConversationalMessage]. *)
Definition conversational_text (reply : GeminiReply) : M string :=
  match reply with
  | RequestRejected reason => throw (Error reason)
  | NoCandidates => throw (Error "Gemini response blocked or missing candidates")
  | Candidate finishReason text =>
      if blocked finishReason then
        throw (Error ("Gemini response blocked: " ++ finish_text finishReason))
      else
        match text with
        | None => throw (Error "Failed to extract text from Gemini response")
        | Some t =>
            let text := Str.trim t in
            if Str.is_empty text then throw (Error "Gemini response missing content")
            else ret text
        end
  end.

Definition sendConversationalMessage (svc : t) (reply : GeminiReply) (prompt : string)
    : M string :=
  if negb (session_ready svc) then
    throw (Error "Gemini chat session not initialized. Check API key and provider configuration.")
  else
    try_catch (conversational_text reply)
      (fun error => throw (Error "Failed to generate conversational response with Gemini")).

Definition invokeOpenAI (prompt : string) : M string :=
  ret (Json.stringify rt (VObj [("message", VStr "OpenAI not yet implemented")])).

Definition invokeAnthropic (prompt : string) : M string :=
  ret (Json.stringify rt (VObj [("message", VStr "Anthropic not yet implemented")])).

Definition heuristicPlan (request : PlanRequest) (context : ProjectContext) : M obj :=
  now_ <- now rt ;;
  ret [ ("task", VStr (task request));
        ("mode", VStr (mode_text (mode request)));
        ("summary", VStr ("Heuristic plan for " ++ Str.quoted (task request)
                          ++ " (provider not configured or LLM failed)."));
        ("generatedAt", VStr now_);
        ("phases", VArr [
           VObj [ ("id", VStr "fallback-phase");
                  ("title", VStr "Fallback Plan");
                  ("summary", VStr "This is a heuristic plan generated without LLM assistance.");
                  ("steps", VArr [
                     VObj [ ("id", VStr "step-1");
                            ("title", VStr "Analyze project context");
                            ("description", VStr ("Review project files under "
                                                  ++ rootPath context ++ "."));
                            ("references", strings (techStack context));
                            ("reasoning", VStr "This plan was generated heuristically to provide minimal guidance.");
                            ("estimatedEffort", VStr "Low") ];
                     VObj [ ("id", VStr "step-2");
                            ("title", VStr "Refine requirements");
                            ("description", VStr "Manually define objectives and constraints for the next planning attempt.");
                            ("references", VArr []);
                            ("estimatedEffort", VStr "Medium") ] ]) ] ]);
        ("rawPlan", VStr (Json.stringify_pretty rt (VObj [
           ("note", VStr "Fallback plan generated due to missing or failed LLM response");
           ("mode", VStr (mode_text (mode request)));
           ("contextSummary", VStr (summary context)) ]))) ].

(** What [generatePlan] resolves to: a string, or a [PlanResult] object. *)
Inductive Response :=
| Text (raw : string)
| Structured (plan : obj).

(** [!apiKey] *)
Definition no_key (key : option string) : bool :=
  match key with Some k => Str.is_empty k | None => true end.

Definition generatePlan (svc : t) (reply : GeminiReply)
    (request : PlanRequest) (context : ProjectContext) (prompt : string) : M Response :=
  let apiKey_ := apiKey (config svc) in
  let provider_ := provider (config svc) in
  if no_key apiKey_ || String.eqb provider_ "mock" then
    p <- heuristicPlan request context ;; ret (Structured p)
  else
    try_catch
      (if String.eqb provider_ "openai" then
         s <- invokeOpenAI prompt ;; ret (Text s)
       else if String.eqb provider_ "anthropic" then
         s <- invokeAnthropic prompt ;; ret (Text s)
       else if String.eqb provider_ "gemini" then
         s <- sendMessage svc reply prompt ;; ret (Text s)
       else
         p <- heuristicPlan request context ;; ret (Structured p))
      (fun error => p <- heuristicPlan request context ;; ret (Structured p)).

End WithRuntime.

End LLMService.

(* ===================================================================== *)
(** * [src/core/PlanGenerator.ts] *)
(* ===================================================================== *)

Module PlanGenerator.

Import Str.

(** [list.slice(start, stop)] and [list.slice(start)] *)
Definition slice {A} (start stop : nat) (l : list A) : list A :=
  firstn (stop - start) (skipn start l).

Definition slice_from {A} (start : nat) (l : list A) : list A := skipn start l.

(** [Math.ceil(n / 3)] *)
Definition ceil_third (n : nat) : nat := (n + 2) / 3.

(** The template of [buildPlanPrompt] up to the clock reading. *)
Definition prompt_before (request : PlanRequest) (context : ProjectContext)
    (files : list ScannedFile) : string :=
  let escapedTask := escape_quotes (task request) in
  join LF [
    "You are Traycer, an expert software planning assistant. Generate a detailed implementation plan for the following task.";
    "";
    "Task: " ++ task request;
    "";
    "Project Context:";
    summary context;
    "";
    "Technology Stack:";
    join ", " (techStack context);
    "";
    "Relevant Files:";
    join LF (map (fun f => "- " ++ path f ++ " (" ++ language f ++ ")") files);
    "";
    "CRITICAL: You must respond with ONLY valid JSON. No explanations, no markdown, no code blocks.";
    "";
    "Generate a plan using this exact JSON structure:";
    "{";
    "    " ++ quoted "task" ++ ": " ++ quoted escapedTask ++ ",";
    "    " ++ quoted "mode" ++ ": " ++ quoted (mode_text (mode request)) ++ ",";
    "    " ++ quoted "summary" ++ ": " ++ quoted "Brief overview of the approach (2-3 sentences)" ++ ",";
    "    " ++ quoted "generatedAt" ++ ": " ++ DQ ].

(** The template after the clock reading. *)
Definition prompt_after : string :=
  join LF [
    DQ ++ ",";
    "    " ++ quoted "phases" ++ ": [";
    "        {";
    "            " ++ quoted "id" ++ ": " ++ quoted "phase-analysis" ++ ",";
    "            " ++ quoted "title" ++ ": " ++ quoted "Analysis Phase" ++ ",";
    "            " ++ quoted "summary" ++ ": " ++ quoted "What will be analyzed and why" ++ ",";
    "            " ++ quoted "steps" ++ ": [";
    "                {";
    "                    " ++ quoted "id" ++ ": " ++ quoted "step-1" ++ ",";
    "                    " ++ quoted "title" ++ ": " ++ quoted "Step Title" ++ ",";
    "                    " ++ quoted "description" ++ ": " ++ quoted "Detailed step description" ++ ",";
    "                    " ++ quoted "references" ++ ": [" ++ quoted "file/paths/involved" ++ "],";
    "                    " ++ quoted "reasoning" ++ ": " ++ quoted "Why this step is necessary" ++ ",";
    "                    " ++ quoted "estimatedEffort" ++ ": " ++ quoted "Low";
    "                }";
    "            ]";
    "        }";
    "    ]";
    "}";
    "";
    "Requirements:";
    "1. Include at least 3 phases: Analysis, Implementation, and Validation";
    "2. Each phase should have 2-4 steps";
    "3. Reference actual files from the workspace in the " ++ quoted "references" ++ " array";
    "4. Provide clear reasoning for each step";
    "5. Use proper JSON string escaping (escape quotes and newlines)";
    "6. estimatedEffort must be one of: " ++ quoted "Low" ++ ", " ++ quoted "Medium" ++ ", " ++ quoted "High";
    "7. keep each point small. Do not write large paragraphs.";
    "";
    "IMPORTANT: Return ONLY the JSON object. Do not wrap it in markdown code blocks or include any other text." ].

Definition createSinglePhase (files : list ScannedFile) : value :=
  VObj [
    ("id", VStr "phase-1");
    ("title", VStr "Implementation");
    ("summary", VStr "Execute the task with focused steps covering analysis, implementation, and validation.");
    ("steps", VArr (
       List.map (fun '(index, file) =>
         VObj [
           ("id", VStr ("step-" ++ of_nat (index + 1)));
           ("title", VStr ("Review " ++ path file));
           ("description", VStr ("Inspect " ++ path file ++ " (" ++ language file
                                 ++ ") for necessary updates related to the task."));
           ("references", VArr [VStr (path file)]);
           ("reasoning", VStr "Prioritise high-signal files derived from workspace scan.") ])
         (combine (seq 0 (List.length files)) files)
       ++ [ VObj [
           ("id", VStr "step-testing");
           ("title", VStr "Validate changes");
           ("description", VStr "Run existing tests and linting to ensure the implementation is stable.");
           ("references", VArr [VStr "package.json"]);
           ("reasoning", VStr "Guarantees the task outcome meets project quality standards.") ] ])) ].

(** The three slices of [createPhasedPlan]. *)
Definition analysisFiles (files : list ScannedFile) : list ScannedFile :=
  slice 0 (Nat.max 2 (ceil_third (List.length files))) files.

Definition implementationFiles (files : list ScannedFile) : list ScannedFile :=
  slice (List.length (analysisFiles files)) (List.length (analysisFiles files) * 2) files.

Definition verificationFiles (files : list ScannedFile) : list ScannedFile :=
  slice_from (List.length (analysisFiles files) * 2) files.

(** [files.map((file, index) => step)] for the steps made from files. *)
Definition file_steps (prefix verb : string) (describe : string -> string)
    (why : string) (files : list ScannedFile) : list value :=
  List.map (fun '(index, file) =>
    VObj [
      ("id", VStr (prefix ++ of_nat (index + 1)));
      ("title", VStr (verb ++ path file));
      ("description", VStr (describe (path file)));
      ("references", VArr [VStr (path file)]);
      ("reasoning", VStr why) ])
    (combine (seq 0 (List.length files)) files).

Definition createPhasedPlan (files : list ScannedFile) : list value :=
  [ VObj [
      ("id", VStr "phase-analysis");
      ("title", VStr "Analysis & Discovery");
      ("summary", VStr "Understand current implementation details and dependencies.");
      ("steps", VArr (
         file_steps "analysis-" "Investigate "
           (fun p => "Document the responsibilities of " ++ p
                     ++ " and capture edge-cases relevant to the task.")
           "Identify scope before editing to avoid regression."
           (analysisFiles files))) ];
    VObj [
      ("id", VStr "phase-implementation");
      ("title", VStr "Implementation");
      ("summary", VStr "Apply code changes guided by findings from the analysis phase.");
      ("steps", VArr (
         file_steps "implementation-" "Update "
           (fun p => "Perform necessary modifications in " ++ p
                     ++ " to address the task requirements.")
           "Implement solution incrementally across impacted files."
           (implementationFiles files)
         ++ [ VObj [
           ("id", VStr "implementation-cross-cutting");
           ("title", VStr "Share learnings across modules");
           ("description", VStr "Propagate shared updates (types, utilities) discovered during implementation.");
           ("references", VArr []);
           ("reasoning", VStr "Capture shared follow-up tasks uncovered during implementation.") ] ])) ];
    VObj [
      ("id", VStr "phase-validation");
      ("title", VStr "Validation & Verification");
      ("summary", VStr "Ensure the solution meets requirements and quality gates.");
      ("steps", VArr (
         file_steps "validation-" "Review "
           (fun p => "Cross-check " ++ p ++ " for alignment with the new implementation plan.")
           "Ensure downstream consumers align with the updated behaviour."
           (verificationFiles files)
         ++ [ VObj [
           ("id", VStr "validation-testing");
           ("title", VStr "Execute test & lint suite");
           ("description", VStr "Run automated tests, linting, and manual smoke tests as applicable.");
           ("references", VArr [VStr "package.json"]);
           ("reasoning", VStr "Maintain quality gates to catch regressions early.") ] ])) ] ].

Definition typeof_object (v : value) : bool :=
  match v with VNull | VArr _ | VObj _ => true | _ => false end.

Definition as_object (v : value) : option obj :=
  match v with VObj o => Some o | _ => None end.

Section WithRuntime.

Variable rt : Runtime.

Definition buildPlanPrompt (request : PlanRequest) (context : ProjectContext)
    (files : list ScannedFile) : M string :=
  generatedAt <- now rt ;;
  ret (prompt_before request context files ++ generatedAt ++ prompt_after).

(** The body of the inner loop of [toMarkdown]. *)
Definition step_markdown (md : string) (step : value) : M string :=
  title <- get step "title" ;;
  title <- ToString rt title ;;
  let md := md ++ "### " ++ title ++ LF in
  description <- get step "description" ;;
  description <- ToString rt description ;;
  let md := md ++ description ++ LF ++ LF in
  references <- get step "references" ;;
  count <- get references "length" ;;
  some <- greater rt count 0 ;;
  md <- (if (some : bool) then
           lines <- array_map "step.references" references
                      (fun ref => ref <- ToString rt ref ;; ret (VStr ("- " ++ ref))) ;;
           lines <- array_join rt LF (elements lines) ;;
           ret (md ++ "References:" ++ LF ++ lines ++ LF ++ LF)
         else ret md) ;;
  reasoning <- get step "reasoning" ;;
  if truthy reasoning then
    reasoning <- ToString rt reasoning ;;
    ret (md ++ "Reasoning: " ++ reasoning ++ LF ++ LF)
  else ret md.

(** The body of the outer loop of [toMarkdown]. *)
Definition phase_markdown (md : string) (phase : value) : M string :=
  title <- get phase "title" ;;
  title <- ToString rt title ;;
  summary_ <- get phase "summary" ;;
  summary_ <- ToString rt summary_ ;;
  let md := md ++ "## " ++ title ++ LF ++ summary_ ++ LF ++ LF in
  steps <- get phase "steps" ;;
  count <- get steps "length" ;;
  some <- greater rt count 0 ;;
  if (some : bool) then for_of "phase.steps" steps step_markdown md else ret md.

Definition toMarkdown (plan : value) : M string :=
  task_ <- get plan "task" ;;
  task_ <- ToString rt task_ ;;
  let md := "# Implementation Plan: " ++ task_ ++ LF ++ LF in
  summary_ <- get plan "summary" ;;
  md <- (if truthy summary_ then
           summary_ <- ToString rt summary_ ;;
           ret (md ++ "## Overview" ++ LF ++ summary_ ++ LF ++ LF)
         else ret md) ;;
  phases <- get plan "phases" ;;
  for_of "plan.phases" phases phase_markdown md.

Definition tryParsePlan (raw : string) : M (option obj) :=
  try_catch
    (parsed <- JSON_parse raw ;;
     if truthy parsed && typeof_object parsed && is_array (field parsed "phases")
     then ret (as_object parsed)
     else ret None)
    (fun error => ret None).

(** The callback of the inner [map] of [ensurePhaseStructure]. *)
Definition ensureStepStructure (step : value) : M value :=
  id0 <- get step "id" ;;
  id <- (if nullish id0 then u <- randomUUID rt ;; ret (VStr u) else ret id0) ;;
  title <- get step "title" ;;
  description <- get step "description" ;;
  references <- get step "references" ;;
  reasoning <- get step "reasoning" ;;
  estimatedEffort <- get step "estimatedEffort" ;;
  ret (VObj [
    ("id", id);
    ("title", coalesce title (VStr "Untitled Step"));
    ("description", coalesce description (VStr ""));
    ("references", coalesce references (VArr []));
    ("reasoning", reasoning);
    ("estimatedEffort", estimatedEffort) ]).

Definition ensurePhaseStructure (phase : value) : M value :=
  id0 <- get phase "id" ;;
  id <- (if nullish id0 then u <- randomUUID rt ;; ret (VStr u) else ret id0) ;;
  title <- get phase "title" ;;
  summary_ <- get phase "summary" ;;
  steps0 <- get phase "steps" ;;
  steps <- array_map "(phase.steps ?? [])" (coalesce steps0 (VArr [])) ensureStepStructure ;;
  ret (VObj [
    ("id", id);
    ("title", coalesce title (VStr "Untitled Phase"));
    ("summary", coalesce summary_ (VStr ""));
    ("steps", steps) ]).

Definition createFallbackPlan (request : PlanRequest) (context : ProjectContext) : M obj :=
  let files_ := slice 0 10 (files context) in
  let phases := if is_phase (mode request) then createPhasedPlan files_
                else [createSinglePhase files_] in
  generatedAt <- now rt ;;
  ret [
    ("task", VStr (task request));
    ("mode", VStr (mode_text (mode request)));
    ("summary", VStr (summary context));
    ("generatedAt", VStr generatedAt);
    ("phases", VArr phases) ].

Definition normalisePlan (response : LLMService.Response) (request : PlanRequest)
    (context : ProjectContext) : M obj :=
  plan <- match response with
          | LLMService.Text raw => tryParsePlan raw
          | LLMService.Structured p => ret (Some p)
          end ;;
  match plan with
  | None => createFallbackPlan request context
  | Some p =>
      let phases0 := field (VObj p) "phases" in
      p <- (if negb (truthy phases0) || strict_eq_zero (field phases0 "length") then
              fallback <- createFallbackPlan request context ;;
              ret (set_field "phases" (field (VObj fallback) "phases") p)
            else ret p) ;;
      let plan := VObj p in
      generatedAt <- (if truthy (field plan "generatedAt") then ret (field plan "generatedAt")
                      else t <- now rt ;; ret (VStr t)) ;;
      phases <- array_map "plan.phases" (field plan "phases") ensurePhaseStructure ;;
      ret [
        ("task", or_else (field plan "task") (VStr (task request)));
        ("mode", or_else (field plan "mode") (VStr (mode_text (mode request))));
        ("summary", or_else (field plan "summary") (VStr (summary context)));
        ("generatedAt", generatedAt);
        ("phases", phases);
        ("rawPlan", field plan "rawPlan") ]
  end.

(** [generatePlan]; [svc] is the injected service and [reply] what the
    provider answers if it is asked. *)
Definition generatePlan (svc : LLMService.t) (reply : LLMService.GeminiReply)
    (request : PlanRequest) (context : ProjectContext) : M obj :=
  let relevantFiles := slice 0 10 (files context) in
  prompt <- buildPlanPrompt request context relevantFiles ;;
  llmResponse <- LLMService.generatePlan rt svc reply request context prompt ;;
  plan <- normalisePlan llmResponse request context ;;
  if nullish (field (VObj plan) "rawPlan") then
    md <- toMarkdown (VObj plan) ;;
    ret (set_field "rawPlan" (VStr md) plan)
  else ret plan.

End WithRuntime.

End PlanGenerator.

(* ===================================================================== *)
(** * [src/ui/SidebarProvider.ts]: the chat handler *)
(* ===================================================================== *)

Module SidebarProvider.

Import Str.

Definition modification_verbs : list string :=
  ["modify"; "change"; "update"; "edit"; "revise"; "refine"; "adjust"; "improve";
   "add"; "remove"; "reduce"; "increase"; "expand"; "simplify"].

Definition plan_nouns : list string := ["plan"; "phase"; "step"; "detail"].

Definition creation_verbs : list string :=
  ["create"; "generate"; "make"; "new"; "build"; "implement"; "develop"].

(** The alternatives of [detailed|multi[-\s]?phase|phases], one for each
    character of the class [\s]. *)
Definition phase_words : list string :=
  ["detailed"; "multiphase"; "multi-phase"]
  ++ map (fun space => "multi" ++ space ++ "phase") (ascii_spaces ++ wide_spaces)
  ++ ["phases"].

Definition quick_words : list string := ["quick"; "simple"; "fast"].

(** The two tests of [generateResponse] on the lower-cased message. *)
Definition isModification (userMessage : string) : bool :=
  let lowerMessage := toLowerCase userMessage in
  test_words_i modification_verbs lowerMessage && test_words_i plan_nouns lowerMessage.

Definition mentions_creation (userMessage : string) : bool :=
  test_words_i creation_verbs (toLowerCase userMessage).

(** [list.slice(-n)] *)
Definition last_n {A} (n : nat) (l : list A) : list A :=
  skipn (List.length l - n) l.

Definition read {A} (f : Machine -> A) : M A := fun w => Ret (f w) w.

Definition push_history (m : ChatMessage) : M unit :=
  fun w => Ret tt {| ticks := ticks w; draws := draws w;
                     conversationHistory := conversationHistory w ++ [m];
                     currentPlan := currentPlan w;
                     projectContext := projectContext w;
                     posted := posted w |}.

(** [this._view?.webview.postMessage(p)]; the view exists whenever the
    handler runs, since the handler is called from the view's own listener. *)
Definition post (p : Posted) : M unit :=
  fun w => Ret tt {| ticks := ticks w; draws := draws w;
                     conversationHistory := conversationHistory w;
                     currentPlan := currentPlan w;
                     projectContext := projectContext w;
                     posted := posted w ++ [p] |}.

Definition set_currentPlan (v : value) : M unit :=
  fun w => Ret tt {| ticks := ticks w; draws := draws w;
                     conversationHistory := conversationHistory w;
                     currentPlan := v;
                     projectContext := projectContext w;
                     posted := posted w |}.

Definition set_projectContext (c : option ProjectContext) : M unit :=
  fun w => Ret tt {| ticks := ticks w; draws := draws w;
                     conversationHistory := conversationHistory w;
                     currentPlan := currentPlan w;
                     projectContext := c;
                     posted := posted w |}.

(** The [clearChat] message. *)
Definition clearChat : M unit :=
  fun w => Ret tt {| ticks := ticks w; draws := draws w;
                     conversationHistory := [];
                     currentPlan := VUndefined;
                     projectContext := None;
                     posted := posted w ++ [PostChatCleared] |}.

(** [analyzeWorkspace()]; [scan] is [None] when no folder is open. *)
Definition analyzeWorkspace (scan : option ProjectContext) : M ProjectContext :=
  match scan with
  | Some c => ret c
  | None => throw (Error "Workspace not found. Open a folder or workspace before generating a plan.")
  end.

Definition conversationContext (history : list ChatMessage) : string :=
  join (LF ++ LF)
    (map (fun msg => (match msg_role msg with user => "User" | assistant => "Assistant" end)
                     ++ ": " ++ msg_content msg)
         (last_n 6 history)).

(** What a handler answers: [{ text, plan }], [reply_plan] being
    [undefined] when absent. *)
Record Reply := { reply_text : string; reply_plan : value }.

Section WithRuntime.

Variable rt : Runtime.
Variable svc : LLMService.t.

(** The phase count, the phase titles and the step total that
    [generateNewPlan] and [modifyPlan] put in their answer; [name] is the
    name of the variable that holds the plan. *)
Definition phases_line (name : string) (plan : value) : M string :=
  phases <- get plan "phases" ;;
  count <- get phases "length" ;;
  shown <- ToString rt count ;;
  several <- greater rt count 1 ;;
  titles <- array_map (name ++ ".phases") phases (fun p => get p "title") ;;
  titles <- array_join rt ", " (elements titles) ;;
  ret ("📋 **" ++ shown ++ " Phase" ++ (if (several : bool) then "s" else "")
       ++ "**: " ++ titles ++ LF).

Definition steps_total (name : string) (plan : value) : M string :=
  phases <- get plan "phases" ;;
  total <- array_reduce (name ++ ".phases") phases
             (fun acc p => steps <- get p "steps" ;; n <- get steps "length" ;;
                           plus rt acc n)
             (VNum (Dec 0 0)) ;;
  ToString rt total.

Definition generateNewPlan (reply : LLMService.GeminiReply) (userMessage : string)
    (preferredMode : PlanMode) : M Reply :=
  let mode_ := if test_words_i phase_words userMessage then phase_mode
               else if test_words_i quick_words userMessage then plan_mode
               else preferredMode in
  context <- read projectContext ;;
  match context with
  | None => throw (TypeError "Cannot read properties of undefined (reading 'files')")
  | Some ctx =>
      plan <- PlanGenerator.generatePlan rt svc reply
                {| task := userMessage; mode := mode_; hints := None |} ctx ;;
      set_currentPlan (VObj plan) ;;;
      line <- phases_line "plan" (VObj plan) ;;
      total <- steps_total "plan" (VObj plan) ;;
      summary_ <- get (VObj plan) "summary" ;;
      summary_ <- ToString rt summary_ ;;
      ret {| reply_text :=
               "I've created " ++ (if is_phase mode_ then "a detailed multi-phase" else "a")
               ++ " implementation plan for your request. The plan includes:" ++ LF ++ LF
               ++ line
               ++ "📝 **" ++ total ++ " Steps** across all phases" ++ LF ++ LF
               ++ summary_ ++ LF ++ LF
               ++ "You can ask me to modify specific parts, add more details, or regenerate the plan with different requirements.";
             reply_plan := VObj plan |}
  end.

(** The line of one phase in the prompt of [modifyPlan]. *)
Definition phase_line (i : nat) (p : value) : M value :=
  title <- get p "title" ;;
  title <- ToString rt title ;;
  s <- get p "summary" ;;
  s <- ToString rt s ;;
  ret (VStr (of_nat (i + 1) ++ ". " ++ title ++ ": " ++ s)).

(** The two constants that [modifyPlan] computes first: the context of the
    conversation and the prompt. *)
Definition modificationPrompt (userMessage : string) : M string :=
  history <- read conversationHistory ;;
  let context := conversationContext history in
  current <- read currentPlan ;;
  summary_ <- get current "summary" ;;
  summary_ <- ToString rt summary_ ;;
  phases <- get current "phases" ;;
  lines <- array_mapi "this._currentPlan.phases" phases phase_line ;;
  lines <- array_join rt LF (elements lines) ;;
  ret (join LF [
      "You are modifying an existing implementation plan based on user feedback.";
      "";
      "Current Plan Summary:";
      summary_;
      "";
      "Current Phases:";
      lines;
      "";
      "Conversation History:";
      context;
      "";
      "User's Modification Request:";
      userMessage;
      "";
      "Generate an UPDATED plan in JSON format that incorporates the user's requested changes while maintaining the structure of the previous plan. Make sure to address their specific modification request.";
      "";
      "Return ONLY valid JSON matching the PlanResult structure." ]).

Definition modifyPlan (reply : LLMService.GeminiReply) (userMessage : string) : M Reply :=
  modificationPrompt <- modificationPrompt userMessage ;;
  llmResponse <- LLMService.sendMessage svc reply modificationPrompt ;;
  updatedPlan <- JSON_parse llmResponse ;;
  set_currentPlan updatedPlan ;;;
  line <- phases_line "updatedPlan" updatedPlan ;;
  total <- steps_total "updatedPlan" updatedPlan ;;
  summary' <- get updatedPlan "summary" ;;
  summary' <- ToString rt summary' ;;
  ret {| reply_text :=
           "I've updated the plan based on your feedback. Here's what changed:" ++ LF ++ LF
           ++ line
           ++ "📝 **" ++ total ++ " Steps** total" ++ LF ++ LF
           ++ summary' ++ LF ++ LF
           ++ "Let me know if you need any other adjustments!";
         reply_plan := updatedPlan |}.

(** The two constants that [handleGeneralQuery] computes: the context of
    the conversation and the prompt. *)
Definition generalPrompt (userMessage : string) : M string :=
  history <- read conversationHistory ;;
  let context := conversationContext history in
  current <- read currentPlan ;;
  planContext <- (if truthy current then
                    task_ <- get current "task" ;;
                    task_ <- ToString rt task_ ;;
                    summary_ <- get current "summary" ;;
                    summary_ <- ToString rt summary_ ;;
                    ret ("Current Plan Context:" ++ LF ++ "Task: " ++ task_ ++ LF
                         ++ "Summary: " ++ summary_ ++ LF ++ LF)
                  else ret "") ;;
  ret (join LF [
      "You are Traycer, an AI planning assistant for software development. Help the user with their question about implementation planning.";
      "";
      planContext;
      "";
      "Conversation History:";
      context;
      "";
      "User Question:";
      userMessage;
      "";
      "Provide a helpful, concise response (plain text, not JSON). If they're asking about creating a plan, encourage them to describe their task. If they're asking about the current plan, reference specific phases or steps. Keep your response conversational and under 300 words." ]).

Definition handleGeneralQuery (reply : LLMService.GeminiReply) (userMessage : string)
    : M Reply :=
  prompt <- generalPrompt userMessage ;;
  responseText <- LLMService.sendConversationalMessage svc reply prompt ;;
  ret {| reply_text := responseText; reply_plan := VUndefined |}.

Definition generateResponse (reply : LLMService.GeminiReply) (userMessage : string)
    (preferredMode : PlanMode) : M Reply :=
  current <- read currentPlan ;;
  let isNewPlan := mentions_creation userMessage || negb (truthy current) in
  if isModification userMessage && truthy current then modifyPlan reply userMessage
  else if isNewPlan then generateNewPlan reply userMessage preferredMode
  else handleGeneralQuery reply userMessage.

(** [handleChatMessage]; [scan] is what the workspace analyser finds if it
    is asked, [reply] what the provider answers if it is asked. *)
Definition handleChatMessage (scan : option ProjectContext) (reply : LLMService.GeminiReply)
    (userMessage : string) (mode_ : option PlanMode) : M unit :=
  if is_empty userMessage || is_empty (trim userMessage) then ret tt
  else
    let planMode := match mode_ with Some m => m | None => phase_mode end in
    stamp <- now rt ;;
    let userChatMessage :=
      {| msg_role := user; msg_content := userMessage; msg_timestamp := stamp;
         msg_plan := VUndefined |} in
    push_history userChatMessage ;;;
    post (PostAddMessage userChatMessage) ;;;
    post (PostTyping true) ;;;
    try_catch
      (context <- read projectContext ;;
       match context with
       | None => c <- analyzeWorkspace scan ;; set_projectContext (Some c)
       | Some _ => ret tt
       end ;;;
       response <- generateResponse reply userMessage planMode ;;
       stamp' <- now rt ;;
       let assistantMessage :=
         {| msg_role := assistant; msg_content := reply_text response;
            msg_timestamp := stamp'; msg_plan := reply_plan response |} in
       push_history assistantMessage ;;;
       post (PostAddMessage assistantMessage))
      (fun error =>
         stamp' <- now rt ;;
         let errorMessage :=
           {| msg_role := assistant;
              msg_content := "❌ Error: " ++ message error;
              msg_timestamp := stamp'; msg_plan := VUndefined |} in
         push_history errorMessage ;;;
         post (PostAddMessage errorMessage)) ;;;
    post (PostTyping false).

End WithRuntime.

End SidebarProvider.

(* ===================================================================== *)
(** * [src/core/FileScanner.ts] *)
(* ===================================================================== *)

Module FileScanner.

(** [filePath.split('.').pop()?.toLowerCase()]; a split always has a last
    piece. *)
Definition extension (filePath : string) : string :=
  Str.toLowerCase (last (Str.split "." filePath) "").

(** The [switch] of [detectLanguage]. *)
Definition language_of (extension : string) : string :=
  if String.eqb extension "ts" || String.eqb extension "tsx" then "TypeScript"
  else if String.eqb extension "js" || String.eqb extension "jsx" then "JavaScript"
  else if String.eqb extension "json" then "JSON"
  else if String.eqb extension "md" then "Markdown"
  else if String.eqb extension "py" then "Python"
  else if String.eqb extension "cs" then "C#"
  else if String.eqb extension "java" then "Java"
  else if String.eqb extension "go" then "Go"
  else if String.eqb extension "rs" then "Rust"
  else if String.eqb extension "cpp" || String.eqb extension "cc"
          || String.eqb extension "c" then "C/C++"
  else if String.eqb extension "yml" || String.eqb extension "yaml" then "YAML"
  else "unknown".

Definition detectLanguage (filePath : string) : string :=
  language_of (extension filePath).

(** What [fs.stat] answers for one URI: it rejects, or it tells whether
    the entry is a file, and its size. *)
Inductive StatResult :=
| StatFailed (error : exn)
| Stat (isFile : bool) (byteSize : Z).

(** One URI: its path relative to the workspace, its path on disk, and what
    [fs.stat] answers for it. *)
Record Entry := {
  relativePath : string;
  fsPath : string;
  stat : StatResult
}.

(** What [findFiles] answers. *)
Inductive FindResult :=
| FindFailed (error : exn)
| Found (uris : list Entry).

(** The body of the loop of [scanWorkspace]. *)
Definition scan_entry (files : list ScannedFile) (uri : Entry) : M (list ScannedFile) :=
  match stat uri with
  | StatFailed error => throw error
  | Stat isFile byteSize =>
      if isFile
      then ret (files ++ [ {| path := relativePath uri;
                              language := detectLanguage (fsPath uri);
                              size := byteSize |} ])%list
      else ret files
  end.

(** [scanWorkspace]; [root] is the first workspace folder, if any, and
    [found] what [findFiles] answers for it. *)
Definition scanWorkspace (root : option string) (found : FindResult)
    : M (list ScannedFile) :=
  match root with
  | None => ret []
  | Some _ =>
      match found with
      | FindFailed error => throw error
      | Found uris => foldM scan_entry [] uris
      end
  end.

End FileScanner.

(* ===================================================================== *)
(** * [src/core/CodebaseAnalyzer.ts] *)
(* ===================================================================== *)

Module CodebaseAnalyzer.

(** [languages.set(lang, (languages.get(lang) ?? 0) + 1)] on a [Map], which
    keeps its keys in the order of their first insertion. *)
Fixpoint increment (lang : string) (languages : list (string * nat)) : list (string * nat) :=
  match languages with
  | [] => [(lang, 1)]
  | (k, n) :: rest =>
      if String.eqb lang k then (k, n + 1) :: rest else (k, n) :: increment lang rest
  end.

(** The loop of [detectTechStack]. *)
Definition count_languages (files : list ScannedFile) : list (string * nat) :=
  fold_left (fun languages file =>
               if String.eqb (language file) "unknown" then languages
               else increment (language file) languages)
            files [].

(** [entries.sort((a, b) => b[1] - a[1])]: by decreasing count; the sort of
    [Array.prototype] is stable, so entries of equal count keep their
    order. *)
Fixpoint insert_entry (a : string * nat) (sorted : list (string * nat))
    : list (string * nat) :=
  match sorted with
  | [] => [a]
  | b :: rest => if (snd a <? snd b)%nat then b :: insert_entry a rest else a :: sorted
  end.

Definition sort_entries (entries : list (string * nat)) : list (string * nat) :=
  fold_right insert_entry [] entries.

Definition detectTechStack (files : list ScannedFile) : list string :=
  map fst (PlanGenerator.slice 0 5 (sort_entries (count_languages files))).

(** [Math.round(total / count)] for a positive [count]: the nearest
    integer, a half going up.  The source adds and divides doubles.  For
    sizes that are not negative and a total that, with the count added,
    stays below [2^52], the sums are exact and the quotient of the doubles
    is the double nearest to the exact quotient; the exact quotient is at
    least [1 / (2 * count)] below the next half-integer unless it is one,
    which is more than half a unit in the last place there, so that
    [Math.round] gives this integer.  Beyond that the definition says
    nothing of the source. *)
Definition round_div (total count : Z) : Z := ((2 * total + count) / (2 * count))%Z.

Definition totalSize (files : list ScannedFile) : Z :=
  fold_left (fun sum file => (sum + size file)%Z) files 0%Z.

Definition averageFileSize (files : list ScannedFile) : Z :=
  if (0 <? List.length files)%nat
  then round_div (totalSize files) (Z.of_nat (List.length files))
  else 0%Z.

Definition buildSummary (files : list ScannedFile) (techStack : list string) : string :=
  let languages := if (0 <? List.length techStack)%nat then Str.join ", " techStack
                   else "unknown" in
  "Located " ++ Str.of_nat (List.length files) ++ " tracked files (avg "
  ++ Str.of_Z (averageFileSize files) ++ " bytes) across " ++ languages ++ ".".

(** [analyzeWorkspace]; [root] is the path of the first workspace folder,
    if any, and [found] what [findFiles] answers for it. *)
Definition analyzeWorkspace (root : option string) (found : FileScanner.FindResult)
    : M ProjectContext :=
  match root with
  | None => throw (Error "Workspace not found. Open a folder or workspace before generating a plan.")
  | Some fsPath =>
      files_ <- FileScanner.scanWorkspace root found ;;
      let techStack_ := detectTechStack files_ in
      let summary_ := buildSummary files_ techStack_ in
      ret {| rootPath := fsPath; files := files_; techStack := techStack_;
             summary := summary_ |}
  end.

End CodebaseAnalyzer.

(* ===================================================================== *)
(** * [src/ui/PlanView.ts]: the escaping of the raw Markdown *)
(* ===================================================================== *)

Module PlanView.

(** The callback of [escapeHtml]. *)
Definition escape_char (c : ascii) : string :=
  if Ascii.eqb c "&"%char then "&amp;"
  else if Ascii.eqb c "<"%char then "&lt;"
  else if Ascii.eqb c ">"%char then "&gt;"
  else if Ascii.eqb c "034"%char then "&quot;"
  else if Ascii.eqb c "'"%char then "&#39;"
  else String c "".

(** [text.replace(re, callback)], [re] matching every ampersand, angle
    bracket, double quote and apostrophe. *)
Fixpoint escapeHtml (text : string) : string :=
  match text with
  | EmptyString => EmptyString
  | String c rest => escape_char c ++ escapeHtml rest
  end.

End PlanView.

(* ===================================================================== *)
(** * [media/sidebar.js]: the script of the chat view *)
(* ===================================================================== *)

Module SidebarScript.

(** [formatTimestamp]; [diff] is [now - date] in milliseconds, [None] when
    the timestamp is not a date, and [localTime] what
    [date.toLocaleTimeString] gives. *)
Definition formatTimestamp (diff : option Z) (localTime : string) : string :=
  match diff with
  | Some d =>
      if (d <? 60000)%Z then "Just now"
      else if (d <? 3600000)%Z then
        let minutes := (d / 60000)%Z in
        Str.of_Z minutes ++ " min" ++ (if (1 <? minutes)%Z then "s" else "") ++ " ago"
      else localTime
  | None => localTime
  end.

End SidebarScript.

(* ===================================================================== *)
(** * The plan document as the specification reads it *)
(* ===================================================================== *)

(** The fields of [PlanStep] and [PlanPhase] read off an untyped value. *)
Module View.

Record PlanStep := {
  step_id : value;
  step_title : value;
  step_description : value;
  step_references : value;
  step_reasoning : value;
  step_estimatedEffort : value
}.

Record PlanPhase := {
  phase_id : value;
  phase_title : value;
  phase_summary : value;
  phase_steps : list PlanStep
}.

Definition step (v : value) : PlanStep :=
  {| step_id := field v "id";
     step_title := field v "title";
     step_description := field v "description";
     step_references := field v "references";
     step_reasoning := field v "reasoning";
     step_estimatedEffort := field v "estimatedEffort" |}.

Definition phase (v : value) : PlanPhase :=
  {| phase_id := field v "id";
     phase_title := field v "title";
     phase_summary := field v "summary";
     phase_steps := map step (elements (field v "steps")) |}.

Definition phases (plan : obj) : list PlanPhase :=
  map phase (elements (field (VObj plan) "phases")).

Definition titles (plan : obj) : list value := map phase_title (phases plan).

Definition step_counts (plan : obj) : list nat :=
  map (fun p => List.length (phase_steps p)) (phases plan).

End View.

(** [bump dt dd w]: the machine after [dt] more clock readings and [dd]
    more UUIDs. *)
Definition bump (dt dd : nat) (w : Machine) : Machine :=
  {| ticks := dt + ticks w; draws := dd + draws w;
     conversationHistory := conversationHistory w;
     currentPlan := currentPlan w;
     projectContext := projectContext w;
     posted := posted w |}.

(** What [tryParsePlan] makes of a response. *)
Definition parsed_plan (response : LLMService.Response) : option obj :=
  match response with
  | LLMService.Text raw =>
      match Json.parse raw with
      | Some v =>
          if truthy v && PlanGenerator.typeof_object v && is_array (field v "phases")
          then PlanGenerator.as_object v else None
      | None => None
      end
  | LLMService.Structured p => Some p
  end.

(** The phases that [ensurePhaseStructure] can repair: no phase and no step
    is [null] or [undefined], and [steps] is an array when present. *)
Definition repairable_phase (p : value) : bool :=
  negb (nullish p)
  && match coalesce (field p "steps") (VArr []) with
     | VArr l => forallb (fun s => negb (nullish s)) l
     | _ => false
     end.

Definition repairable (phases : value) : bool :=
  match phases with
  | VArr l => forallb repairable_phase l
  | _ => false
  end.

(** [normalisePlan] replaces the phases of the plan by the fallback's. *)
Definition lacks_phases (p : obj) : bool :=
  negb (truthy (field (VObj p) "phases"))
  || strict_eq_zero (field (field (VObj p) "phases") "length").

(** A plan document that has the types of section 3 of the specification. *)
Definition is_string (v : value) : bool :=
  match v with VStr _ => true | _ => false end.

Definition optional_string (v : value) : bool :=
  match v with VUndefined | VStr _ => true | _ => false end.

Definition well_formed_step (s : value) : bool :=
  match s with
  | VObj _ =>
      is_string (field s "id") && is_string (field s "title")
      && is_string (field s "description")
      && match field s "references" with
         | VArr l => forallb is_string l
         | _ => false
         end
      && optional_string (field s "reasoning")
      && optional_string (field s "estimatedEffort")
  | _ => false
  end.

Definition well_formed_phase (p : value) : bool :=
  match p with
  | VObj _ =>
      is_string (field p "id") && is_string (field p "title")
      && is_string (field p "summary")
      && match field p "steps" with
         | VArr l => forallb well_formed_step l
         | _ => false
         end
  | _ => false
  end.

Definition well_formed (d : obj) : bool :=
  is_string (field (VObj d) "task")
  && (match field (VObj d) "mode" with
      | VStr m => String.eqb m "plan" || String.eqb m "phase"
      | _ => false
      end)
  && is_string (field (VObj d) "summary")
  && is_string (field (VObj d) "generatedAt")
  && match field (VObj d) "phases" with
     | VArr (p :: ps) => forallb well_formed_phase (p :: ps)
     | _ => false
     end.

(** The shape of the adapter's heuristic plan. *)
Definition heuristic_shape (p : obj) : Prop :=
  exists s1 s2,
    View.phases p =
      [ {| View.phase_id := VStr "fallback-phase";
           View.phase_title := VStr "Fallback Plan";
           View.phase_summary := VStr "This is a heuristic plan generated without LLM assistance.";
           View.phase_steps := [s1; s2] |} ]
    /\ View.step_id s1 = VStr "step-1"
    /\ View.step_title s1 = VStr "Analyze project context"
    /\ View.step_id s2 = VStr "step-2"
    /\ View.step_title s2 = VStr "Refine requirements".

Definition supported (provider_ : string) : bool :=
  String.eqb provider_ "openai" || String.eqb provider_ "anthropic"
  || String.eqb provider_ "gemini".

(** What [ensureStepStructure] returns on a step that is neither [null]
    nor [undefined]. *)
Definition repaired_step (rt : Runtime) (w : Machine) (s : value) : value :=
  VObj [
    ("id", if nullish (field s "id") then VStr (uuid rt (draws w)) else field s "id");
    ("title", coalesce (field s "title") (VStr "Untitled Step"));
    ("description", coalesce (field s "description") (VStr ""));
    ("references", coalesce (field s "references") (VArr []));
    ("reasoning", field s "reasoning");
    ("estimatedEffort", field s "estimatedEffort") ].

(** A phase after repair: an object whose [steps] is an array of steps
    that have a [references] property. *)
Definition repaired_phase_shape (v : value) : Prop :=
  nullish v = false
  /\ exists steps,
       field v "steps" = VArr steps
       /\ Forall (fun s => nullish s = false /\ nullish (field s "references") = false) steps.

(** The phases of [createFallbackPlan]. *)
Definition fallback_phases (request : PlanRequest) (context : ProjectContext) : list value :=
  let files_ := PlanGenerator.slice 0 10 (files context) in
  if is_phase (mode request) then PlanGenerator.createPhasedPlan files_
  else [PlanGenerator.createSinglePhase files_].

(** A timestamp in the ISO-8601 form that [toISOString] produces; in the
    shape, [d] stands for a decimal digit. *)
Fixpoint has_shape (shape s : string) : bool :=
  match shape, s with
  | EmptyString, EmptyString => true
  | String p shape', String c s' =>
      (if Ascii.eqb p "d"%char
       then match Json.digit c with Some _ => true | None => false end
       else Ascii.eqb p c)
      && has_shape shape' s'
  | _, _ => false
  end.

Definition is_timestamp (v : value) : bool :=
  match v with
  | VStr s => has_shape "dddd-dd-ddTdd:dd:dd.dddZ" s
  | _ => false
  end.

(** A text between a pair of code-fence markers, the opening one carrying
    [tag] ([json], or nothing). *)
Definition fenced (tag body : string) : string :=
  "```" ++ tag ++ Str.LF ++ body ++ Str.LF ++ "```".

(** A backend text from which [sendMessage] recovers no JSON: neither the
    cleaned text nor its first-brace-to-last-brace span parses. *)
Definition unparseable (text : string) : bool :=
  let cleaned := LLMService.strip_fences (Str.trim text) in
  match Json.parse cleaned with
  | Some _ => false
  | None =>
      match Str.match_braces cleaned with
      | Some m => match Json.parse m with Some _ => false | None => true end
      | None => true
      end
  end.

(** A current plan that [modifyPlan] can describe in its prompt: its
    summary can be written, its phases are an array of values that are
    neither [null] nor [undefined], and the title and the summary of each
    can be written. *)
Definition promptable_phase (p : value) : bool :=
  negb (nullish p) && printable (field p "title") && printable (field p "summary").

Definition promptable (plan : value) : bool :=
  printable (field plan "summary")
  && match field plan "phases" with
     | VArr l => forallb promptable_phase l
     | _ => false
     end.

(** The chat message that records what the user sent. *)
Definition user_message (rt : Runtime) (w : Machine) (userMessage : string) : ChatMessage :=
  {| msg_role := user; msg_content := userMessage;
     msg_timestamp := clock rt (ticks w); msg_plan := VUndefined |}.

(** The chat message that shows an error: its text after the error mark,
    no plan, and some time stamp. *)
Definition shows_error (e : exn) (m : ChatMessage) : Prop :=
  msg_role m = assistant
  /\ msg_content m = "❌ Error: " ++ message e
  /\ msg_plan m = VUndefined.

(** The Markdown export, section by section: a heading with the task, an
    overview with the summary when there is one, a section per phase, a
    sub-section per step with its description, its references when it has
    some and its reasoning when it has one. *)
Section Rendering.

Variable rt : Runtime.

Definition render_references (references : value) : string :=
  match references with
  | VArr (r :: rs) =>
      "References:" ++ Str.LF
      ++ Str.join Str.LF (map (fun ref => "- " ++ to_string rt ref) (r :: rs))
      ++ Str.LF ++ Str.LF
  | _ => ""
  end.

Definition render_step (s : View.PlanStep) : string :=
  "### " ++ to_string rt (View.step_title s) ++ Str.LF
  ++ to_string rt (View.step_description s) ++ Str.LF ++ Str.LF
  ++ render_references (View.step_references s)
  ++ (if truthy (View.step_reasoning s)
      then "Reasoning: " ++ to_string rt (View.step_reasoning s) ++ Str.LF ++ Str.LF
      else "").

Definition render_phase (p : View.PlanPhase) : string :=
  "## " ++ to_string rt (View.phase_title p) ++ Str.LF
  ++ to_string rt (View.phase_summary p) ++ Str.LF ++ Str.LF
  ++ Str.concat (map render_step (View.phase_steps p)).

Definition render_plan (plan : obj) : string :=
  "# Implementation Plan: " ++ to_string rt (field (VObj plan) "task") ++ Str.LF ++ Str.LF
  ++ (if truthy (field (VObj plan) "summary")
      then "## Overview" ++ Str.LF ++ to_string rt (field (VObj plan) "summary")
           ++ Str.LF ++ Str.LF
      else "")
  ++ Str.concat (map render_phase (View.phases plan)).

End Rendering.

(** A plan that [toMarkdown] renders: its phases and steps are objects or
    other non-null values, [steps] and [references] are arrays. *)
Definition renderable_step (s : value) : bool :=
  negb (nullish s) && is_array (field s "references").

Definition renderable_phase (p : value) : bool :=
  negb (nullish p)
  && match field p "steps" with
     | VArr l => forallb renderable_step l
     | _ => false
     end.

Definition renderable (plan : obj) : bool :=
  match field (VObj plan) "phases" with
  | VArr l => forallb renderable_phase l
  | _ => false
  end.

(** ** Sample inputs *)

Module Sample.

Definition rt : Runtime :=
  {| clock := fun n => "2025-01-01T00:00:0" ++ Str.of_nat n ++ ".000Z";
     uuid := fun n => "00000000-0000-4000-8000-00000000000" ++ Str.of_nat n;
     float_toString := fun m e => Str.of_Z m ++ "e" ++ Str.of_Z e;
     string_toNumber := fun _ => NaN |}.

Definition start : Machine :=
  {| ticks := 0; draws := 0; conversationHistory := []; currentPlan := VUndefined;
     projectContext := None; posted := [] |}.

Definition request : PlanRequest :=
  {| task := "Add a login form"; mode := phase_mode; hints := None |}.

Definition empty_workspace : ProjectContext :=
  {| rootPath := "/work"; files := []; techStack := [];
     summary := "Located 0 tracked files (avg 0 bytes) across unknown." |}.

Definition four_files : ProjectContext :=
  {| rootPath := "/work";
     files := [ {| path := "src/a.ts"; language := "TypeScript"; size := 10 |};
                {| path := "src/b.ts"; language := "TypeScript"; size := 20 |};
                {| path := "README.md"; language := "Markdown"; size := 30 |};
                {| path := "package.json"; language := "JSON"; size := 40 |} ];
     techStack := ["TypeScript"; "Markdown"; "JSON"];
     summary := "Located 4 tracked files (avg 25 bytes) across TypeScript, Markdown, JSON." |}.

Definition mock : LLMService.t :=
  {| LLMService.config :=
       {| provider := "mock"; apiKey := None; baseUrl := None; model := None;
          temperature := None; maxTokens := None |};
     LLMService.session_ready := false |}.

Definition gemini : LLMService.t :=
  {| LLMService.config :=
       {| provider := "gemini"; apiKey := Some "key"; baseUrl := None; model := None;
          temperature := None; maxTokens := None |};
     LLMService.session_ready := true |}.

Definition answers (text : string) : LLMService.GeminiReply :=
  LLMService.Candidate (Some "STOP") (Some text).

(** The JSON text of a plan with one phase and one step, all identifiers
    present; [head] is put before the [task] member. *)
Definition plan_text (head generatedAt : string) : string :=
  "{" ++ head ++ Str.quoted "task" ++ ":" ++ Str.quoted "Ship it" ++ ","
  ++ Str.quoted "summary" ++ ":" ++ Str.quoted "A single stage." ++ ","
  ++ Str.quoted "generatedAt" ++ ":" ++ Str.quoted generatedAt ++ ","
  ++ Str.quoted "phases" ++ ":[{"
  ++ Str.quoted "id" ++ ":" ++ Str.quoted "p1" ++ ","
  ++ Str.quoted "title" ++ ":" ++ Str.quoted "Build" ++ ","
  ++ Str.quoted "summary" ++ ":" ++ Str.quoted "Build it." ++ ","
  ++ Str.quoted "steps" ++ ":[{"
  ++ Str.quoted "id" ++ ":" ++ Str.quoted "s1" ++ ","
  ++ Str.quoted "title" ++ ":" ++ Str.quoted "Edit" ++ ","
  ++ Str.quoted "description" ++ ":" ++ Str.quoted "Edit the file." ++ ","
  ++ Str.quoted "references" ++ ":[" ++ Str.quoted "src/a.ts" ++ "],"
  ++ Str.quoted "reasoning" ++ ":" ++ Str.quoted "It is needed."
  ++ "}]}]}".

(** A well-formed plan document. *)
Definition sound_plan_text : string :=
  plan_text (Str.quoted "mode" ++ ":" ++ Str.quoted "plan" ++ ",")
            "2024-06-30T12:00:00.000Z".

(** The same plan without a [mode] and with a [generatedAt] that is not a
    timestamp. *)
Definition stale_plan_text : string := plan_text "" "yesterday".

(** The JSON text of a plan whose [task] quotes a fenced snippet. *)
Definition fence_in_task_text : string :=
  "{" ++ Str.quoted "task" ++ ":" ++ Str.quoted "Document the ```{}``` snippet" ++ ","
  ++ Str.quoted "phases" ++ ":[{"
  ++ Str.quoted "id" ++ ":" ++ Str.quoted "p1" ++ ","
  ++ Str.quoted "title" ++ ":" ++ Str.quoted "Write" ++ ","
  ++ Str.quoted "summary" ++ ":" ++ Str.quoted "Write it." ++ ","
  ++ Str.quoted "steps" ++ ":[]}]}".

(** A session that holds a plan and its project context. *)
Definition with_plan : Machine :=
  {| ticks := 4; draws := 0; conversationHistory := [];
     currentPlan := VObj [ ("task", VStr "Add a login form");
                           ("summary", VStr "One phase.");
                           ("phases", VArr [ VObj [ ("id", VStr "p1");
                                                    ("title", VStr "Build");
                                                    ("summary", VStr "Build it.");
                                                    ("steps", VArr []) ] ]) ];
     projectContext := Some empty_workspace; posted := [] |}.

(** The JSON text of an object whose [phases] is an array holding [null]. *)
Definition null_phase_text : string := "{" ++ Str.quoted "phases" ++ ":[null]}".

End Sample.

(** ** Further readings of the plan, of the machine and of the workspace *)


(** The total of the step counts of a plan. *)
Definition step_total (plan : obj) : nat := list_sum (View.step_counts plan).

(** The responses that [normalisePlan] turns into a document: those that do
    not parse to a plan, and the plans whose phases are absent, empty or
    repairable. *)
Definition normalisable (response : LLMService.Response) : bool :=
  match parsed_plan response with
  | None => true
  | Some p => lacks_phases p || repairable (field (VObj p) "phases")
  end.

(** The identifiers that a phase and its steps lack. *)
Definition missing_ids (p : value) : nat :=
  (if nullish (field p "id") then 1 else 0)
  + List.length (filter (fun s => nullish (field s "id"))
                        (elements (coalesce (field p "steps") (VArr [])))).

(** A step and a phase none of whose required fields is [null] or
    [undefined]. *)
Definition complete_step (s : value) : bool :=
  negb (nullish (field s "id")) && negb (nullish (field s "title"))
  && negb (nullish (field s "description")) && negb (nullish (field s "references")).

Definition complete_phase (p : value) : bool :=
  negb (nullish (field p "id")) && negb (nullish (field p "title"))
  && negb (nullish (field p "summary"))
  && match field p "steps" with
     | VArr l => forallb complete_step l
     | _ => false
     end.

(** [all_chars test s]: every character of [s] passes [test]. *)
Fixpoint all_chars (test : ascii -> bool) (s : string) : bool :=
  match s with
  | EmptyString => true
  | String c s' => test c && all_chars test s'
  end.

(** The characters of ASCII, which take one byte here and one UTF-16 unit
    in the source. *)
Definition ascii_char (c : ascii) : bool := (nat_of_ascii c <? 128)%nat.

(** The characters that a JSON string literal holds as they are, the double
    quote apart: no backslash and no control character. *)
Definition plain_char (c : ascii) : bool :=
  negb (Ascii.eqb c "092"%char) && negb (nat_of_ascii c <? 32)%nat.

(** The plans that [toMarkdown] renders without throwing: every phase and
    every step read is an object or another value that is neither [null]
    nor [undefined]; [steps] and [references] are not [null] or
    [undefined], and are arrays whenever they have a positive [length];
    and whatever is written or compared can be converted to a primitive
    value: the task, the summary when it is truthy, the titles, the
    summaries of the phases, the descriptions, the lengths, the references
    and the reasonings that are truthy. *)
Section Exportable.

Variable rt : Runtime.

Definition exportable_step (s : value) : bool :=
  negb (nullish s)
  && printable (field s "title")
  && printable (field s "description")
  && negb (nullish (field s "references"))
  && printable (field (field s "references") "length")
  && (negb (gt rt (field (field s "references") "length") 0)
      || match field s "references" with
         | VArr l => forallb printable l
         | _ => false
         end)
  && (negb (truthy (field s "reasoning")) || printable (field s "reasoning")).

Definition exportable_phase (p : value) : bool :=
  negb (nullish p)
  && printable (field p "title")
  && printable (field p "summary")
  && negb (nullish (field p "steps"))
  && printable (field (field p "steps") "length")
  && (negb (gt rt (field (field p "steps") "length") 0)
      || match field p "steps" with
         | VArr l => forallb exportable_step l
         | _ => false
         end).

Definition exportable (plan : obj) : bool :=
  printable (field (VObj plan) "task")
  && (negb (truthy (field (VObj plan) "summary")) || printable (field (VObj plan) "summary"))
  && match field (VObj plan) "phases" with
     | VArr l => forallb exportable_phase l
     | VStr s => Str.is_empty s
     | _ => false
     end.

End Exportable.

(** [keeps R m]: whether [m] returns or throws, it leaves a machine that
    [R] relates to the one it started from. *)
Definition keeps (R : Machine -> Machine -> Prop) {A} (m : M A) : Prop :=
  forall w, match m w with
            | Ret _ w' => R w w'
            | Throw _ w' => R w w'
            end.

(** The same conversation and the same posted messages. *)
Definition same_chat (w w' : Machine) : Prop :=
  conversationHistory w' = conversationHistory w /\ posted w' = posted w.

(** The same fields of the sidebar provider: only the clock and the UUID
    source have been read. *)
Definition same_session (w w' : Machine) : Prop :=
  conversationHistory w' = conversationHistory w
  /\ currentPlan w' = currentPlan w
  /\ projectContext w' = projectContext w
  /\ posted w' = posted w.

(** The mode that [generateNewPlan] reads off the message. *)
Definition detected_mode (userMessage : string) (preferredMode : PlanMode) : PlanMode :=
  if Str.test_words_i SidebarProvider.phase_words userMessage then phase_mode
  else if Str.test_words_i SidebarProvider.quick_words userMessage then plan_mode
  else preferredMode.

(** The machine [w] with [plan] in the current plan slot. *)
Definition holding (plan : value) (w : Machine) : Machine :=
  {| ticks := ticks w; draws := draws w;
     conversationHistory := conversationHistory w;
     currentPlan := plan;
     projectContext := projectContext w;
     posted := posted w |}.

(** The two counts that the answers of [generateNewPlan] and [modifyPlan]
    report. *)
Section Report.

Variable rt : Runtime.

Definition phases_report (plan : obj) : string :=
  let n := List.length (View.phases plan) in
  "📋 **" ++ to_string rt (num_of_nat n) ++ " Phase" ++ (if (1 <? n)%nat then "s" else "")
  ++ "**: " ++ Js.join rt ", " (View.titles plan) ++ Str.LF.

Definition new_plan_text (mode_ : PlanMode) (plan : obj) : string :=
  "I've created " ++ (if is_phase mode_ then "a detailed multi-phase" else "a")
  ++ " implementation plan for your request. The plan includes:" ++ Str.LF ++ Str.LF
  ++ phases_report plan
  ++ "📝 **" ++ to_string rt (num_of_nat (list_sum (View.step_counts plan)))
  ++ " Steps** across all phases" ++ Str.LF ++ Str.LF
  ++ to_string rt (field (VObj plan) "summary") ++ Str.LF ++ Str.LF
  ++ "You can ask me to modify specific parts, add more details, or regenerate the plan with different requirements.".

End Report.

(** The number of scanned files of a language. *)
Definition occurrences (lang : string) (files : list ScannedFile) : nat :=
  count_occ string_dec (map language files) lang.

(** What [fs.stat] tells of an entry: whether it is a file, and its size. *)
Definition is_file (uri : FileScanner.Entry) : bool :=
  match FileScanner.stat uri with
  | FileScanner.Stat isFile _ => isFile
  | FileScanner.StatFailed _ => false
  end.

Definition byte_size (uri : FileScanner.Entry) : Z :=
  match FileScanner.stat uri with
  | FileScanner.Stat _ byteSize => byteSize
  | FileScanner.StatFailed _ => 0%Z
  end.

(** The error of the first entry for which [fs.stat] rejects. *)
Fixpoint stat_failure (uris : list FileScanner.Entry) : option exn :=
  match uris with
  | [] => None
  | uri :: rest =>
      match FileScanner.stat uri with
      | FileScanner.StatFailed error => Some error
      | FileScanner.Stat _ _ => stat_failure rest
      end
  end.

(** The languages that [detectLanguage] names. *)
Definition known_languages : list string :=
  ["TypeScript"; "JavaScript"; "JSON"; "Markdown"; "Python"; "C#"; "Java"; "Go"; "Rust";
   "C/C++"; "YAML"].

(** The count that a [Map] of counts holds for a key, [0] when absent. *)
Fixpoint count_of (k : string) (languages : list (string * nat)) : nat :=
  match languages with
  | [] => 0
  | (k', n) :: rest => if String.eqb k k' then n else count_of k rest
  end.

(** The characters that [escapeHtml] leaves no occurrence of, the ampersand
    apart. *)
Definition markup_char (c : ascii) : bool :=
  Ascii.eqb c "<"%char || Ascii.eqb c ">"%char || Ascii.eqb c "034"%char
  || Ascii.eqb c "'"%char.

(** The machine after the [clearChat] message. *)
Definition cleared (w : Machine) : Machine :=
  {| ticks := ticks w; draws := draws w;
     conversationHistory := [];
     currentPlan := VUndefined;
     projectContext := None;
     posted := (posted w ++ [PostChatCleared])%list |}.

(** ** Further sample inputs *)

Module Scenario.

(** The JSON text of a plan whose list of phases is empty. *)
Definition no_phase_text : string := "{" ++ Str.quoted "phases" ++ ":[]}".

(** A phase without an identifier, whose first step has none either. *)
Definition bare_phase : value :=
  VObj [ ("title", VStr "Build");
         ("steps", VArr [ VObj [("title", VStr "Edit")];
                          VObj [("id", VStr "s2")] ]) ].

Definition openai : LLMService.t :=
  {| LLMService.config :=
       {| provider := "openai"; apiKey := Some "key"; baseUrl := None; model := None;
          temperature := None; maxTokens := None |};
     LLMService.session_ready := false |}.

(** A session whose workspace has been analysed and that holds no plan. *)
Definition analysed : Machine :=
  {| ticks := 0; draws := 0; conversationHistory := []; currentPlan := VUndefined;
     projectContext := Some Sample.empty_workspace; posted := [] |}.

(** An answer of the backend that wraps an object in prose. *)
Definition prose_text : string := "Here is the plan: {} Enjoy.".

(** A fenced text with blanks around it. *)
Definition fenced_note : string := " ```json{}``` ".

(** A task that quotes a word. *)
Definition quoting_task : string := "Say " ++ Str.quoted "hi".

Definition said (role : Role) (content : string) : ChatMessage :=
  {| msg_role := role; msg_content := content; msg_timestamp := "2025-01-01T00:00:00.000Z";
     msg_plan := VUndefined |}.

Definition six_messages : list ChatMessage :=
  [ said user "one"; said assistant "two"; said user "three"; said assistant "four";
    said user "five"; said assistant "six" ].

(** A workspace of three files. *)
Definition three_files : ProjectContext :=
  {| rootPath := "/work";
     files := [ {| path := "src/a.ts"; language := "TypeScript"; size := 10 |};
                {| path := "src/b.ts"; language := "TypeScript"; size := 20 |};
                {| path := "README.md"; language := "Markdown"; size := 30 |} ];
     techStack := ["TypeScript"; "Markdown"];
     summary := "Located 3 tracked files (avg 20 bytes) across TypeScript, Markdown." |}.

End Scenario.

(* ===================================================================== *)
(** * Properties *)
(* ===================================================================== *)

(** [run_concrete] evaluates a closed run of the machine and leaves what is
    stated of its result. *)
Ltac run_concrete :=
  match goal with
  | |- exists a w', ?run = Ret a w' /\ _ =>
      let H := fresh "Hrun" in
      let a0 := fresh "a" in
      let w0 := fresh "w" in
      let e0 := fresh "e" in
      destruct run as [a0 w0 | e0 w0] eqn:H; vm_compute in H;
      [ injection H as <- <- | discriminate H ];
      do 2 eexists; split; [reflexivity |]
  end.

(** ** The machine *)

Lemma bump_0_0 (w : Machine) : bump 0 0 w = w.
Proof. destruct w; reflexivity. Qed.

Lemma bump_bump (a b c d : nat) (w : Machine) :
  bump a b (bump c d w) = bump (a + c) (b + d) w.
Proof. unfold bump; simpl. f_equal; lia. Qed.

Lemma now_run (rt : Runtime) (w : Machine) :
  now rt w = Ret (clock rt (ticks w)) (bump 1 0 w).
Proof. reflexivity. Qed.

Lemma randomUUID_run (rt : Runtime) (w : Machine) :
  randomUUID rt w = Ret (uuid rt (draws w)) (bump 0 1 w).
Proof. reflexivity. Qed.

Lemma bind_ret {A B} (m : M A) (k : A -> M B) (a : A) (w w' : Machine) :
  m w = Ret a w' -> bind m k w = k a w'.
Proof. intros H; unfold bind; rewrite H; reflexivity. Qed.

Lemma bind_throw {A B} (m : M A) (k : A -> M B) (e : exn) (w w' : Machine) :
  m w = Throw e w' -> bind m k w = Throw e w'.
Proof. intros H; unfold bind; rewrite H; reflexivity. Qed.

(** ** What a computation leaves of the machine *)

Section Frame.

Variable R : Machine -> Machine -> Prop.
Hypothesis R_refl : forall w, R w w.
Hypothesis R_trans : forall a b c, R a b -> R b c -> R a c.

Lemma keeps_ret {A} (a : A) : keeps R (ret a).
Proof. intros w. apply R_refl. Qed.

Lemma keeps_throw {A} (e : exn) : keeps R (@throw A e).
Proof. intros w. apply R_refl. Qed.

Lemma keeps_bind {A B} (m : M A) (k : A -> M B) :
  keeps R m -> (forall a, keeps R (k a)) -> keeps R (bind m k).
Proof.
  intros Hm Hk w. unfold bind. specialize (Hm w).
  destruct (m w) as [a w1 | e w1]; [| exact Hm].
  specialize (Hk a w1). destruct (k a w1); eapply R_trans; eassumption.
Qed.

Lemma keeps_try_catch {A} (m : M A) (handler : exn -> M A) :
  keeps R m -> (forall e, keeps R (handler e)) -> keeps R (try_catch m handler).
Proof.
  intros Hm Hh w. unfold try_catch. specialize (Hm w).
  destruct (m w) as [a w1 | e w1]; [exact Hm |].
  specialize (Hh e w1). destruct (handler e w1); eapply R_trans; eassumption.
Qed.

Lemma keeps_mapM {A B} (f : A -> M B) (l : list A) :
  (forall x, keeps R (f x)) -> keeps R (mapM f l).
Proof.
  intros Hf. induction l as [| x l IH]; [apply keeps_ret |].
  cbn [mapM]. apply keeps_bind; [apply Hf | intros y].
  apply keeps_bind; [exact IH | intros ys; apply keeps_ret].
Qed.

Lemma keeps_mapiM {A B} (f : nat -> A -> M B) (l : list A) :
  (forall i x, keeps R (f i x)) -> forall i, keeps R (mapiM f i l).
Proof.
  intros Hf. induction l as [| x l IH]; intros i; [apply keeps_ret |].
  cbn [mapiM]. apply keeps_bind; [apply Hf | intros y].
  apply keeps_bind; [apply IH | intros ys; apply keeps_ret].
Qed.

Lemma keeps_foldM {A B} (f : B -> A -> M B) (l : list A) :
  (forall acc x, keeps R (f acc x)) -> forall acc, keeps R (foldM f acc l).
Proof.
  intros Hf. induction l as [| x l IH]; intros acc; [apply keeps_ret |].
  cbn [foldM]. apply keeps_bind; [apply Hf | intros acc'; apply IH].
Qed.

Lemma keeps_get (v : value) (k : string) : keeps R (get v k).
Proof. destruct v; intros w; apply R_refl. Qed.

Lemma keeps_not_an_array {A} (method callee : string) (v : value) :
  keeps R (@not_an_array A method callee v).
Proof. destruct v; intros w; apply R_refl. Qed.

Lemma keeps_array_map (callee : string) (v : value) (f : value -> M value) :
  (forall x, keeps R (f x)) -> keeps R (array_map callee v f).
Proof.
  intros Hf. destruct v; try apply keeps_not_an_array.
  cbn [array_map]. apply keeps_bind; [apply keeps_mapM; exact Hf | intros; apply keeps_ret].
Qed.

Lemma keeps_array_mapi (callee : string) (v : value) (f : nat -> value -> M value) :
  (forall i x, keeps R (f i x)) -> keeps R (array_mapi callee v f).
Proof.
  intros Hf. destruct v; try apply keeps_not_an_array.
  cbn [array_mapi].
  apply keeps_bind; [apply keeps_mapiM; exact Hf | intros; apply keeps_ret].
Qed.

Lemma keeps_array_reduce (callee : string) (v : value) (f : value -> value -> M value)
    (init : value) :
  (forall acc x, keeps R (f acc x)) -> keeps R (array_reduce callee v f init).
Proof.
  intros Hf. destruct v; try apply keeps_not_an_array.
  cbn [array_reduce]. apply keeps_foldM. exact Hf.
Qed.

Lemma keeps_for_of {B} (callee : string) (v : value) (body : B -> value -> M B) (acc : B) :
  (forall a x, keeps R (body a x)) -> keeps R (for_of callee v body acc).
Proof.
  intros Hf. destruct v; cbn [for_of]; try apply keeps_throw; apply keeps_foldM; exact Hf.
Qed.

Lemma keeps_JSON_parse (s : string) : keeps R (JSON_parse s).
Proof. unfold JSON_parse. destruct (Json.parse s); [apply keeps_ret | apply keeps_throw]. Qed.

Lemma keeps_read {A} (f : Machine -> A) : keeps R (SidebarProvider.read f).
Proof. intros w. apply R_refl. Qed.

Lemma keeps_ToString (rt : Runtime) (v : value) : keeps R (ToString rt v).
Proof. unfold ToString. destruct (printable v); intros w; apply R_refl. Qed.

Lemma keeps_greater (rt : Runtime) (v : value) (k : Z) : keeps R (greater rt v k).
Proof. unfold greater. destruct (printable v); intros w; apply R_refl. Qed.

Lemma keeps_plus (rt : Runtime) (a b : value) : keeps R (plus rt a b).
Proof. unfold plus. destruct (printable a && printable b); intros w; apply R_refl. Qed.

Lemma keeps_array_join (rt : Runtime) (sep : string) (items : list value) :
  keeps R (array_join rt sep items).
Proof. unfold array_join. destruct (joinable items); intros w; apply R_refl. Qed.

(** [frame] breaks a computation into the pieces above. *)
Ltac frame :=
  repeat first
    [ apply keeps_ret | apply keeps_throw | apply keeps_get | apply keeps_JSON_parse
    | apply keeps_read | apply keeps_not_an_array
    | apply keeps_ToString | apply keeps_greater | apply keeps_plus
    | apply keeps_array_join
    | apply keeps_bind; [| intro]
    | apply keeps_try_catch; [| intro]
    | apply keeps_array_map; intro
    | apply keeps_array_mapi; intros ? ?
    | apply keeps_array_reduce; intros ? ?
    | apply keeps_for_of; intros ? ?
    | match goal with
      | |- keeps _ (if ?b then _ else _) => destruct b
      | |- keeps _ (match ?x with _ => _ end) => destruct x
      end
    | progress cbv zeta
    | assumption ].

Lemma keeps_sendMessage (svc : LLMService.t) (reply : LLMService.GeminiReply)
    (prompt : string) : keeps R (LLMService.sendMessage svc reply prompt).
Proof.
  unfold LLMService.sendMessage, LLMService.structured_text, LLMService.recover_json.
  frame.
Qed.

Lemma keeps_sendConversationalMessage (svc : LLMService.t)
    (reply : LLMService.GeminiReply) (prompt : string) :
  keeps R (LLMService.sendConversationalMessage svc reply prompt).
Proof.
  unfold LLMService.sendConversationalMessage, LLMService.conversational_text. frame.
Qed.

Lemma keeps_toMarkdown (rt : Runtime) (plan : value) :
  keeps R (PlanGenerator.toMarkdown rt plan).
Proof.
  unfold PlanGenerator.toMarkdown, PlanGenerator.phase_markdown,
    PlanGenerator.step_markdown.
  frame.
Qed.

Lemma keeps_tryParsePlan (raw : string) : keeps R (PlanGenerator.tryParsePlan raw).
Proof. unfold PlanGenerator.tryParsePlan. frame. Qed.

Lemma keeps_phases_line (rt : Runtime) (name : string) (plan : value) :
  keeps R (SidebarProvider.phases_line rt name plan).
Proof. unfold SidebarProvider.phases_line. frame. Qed.

Lemma keeps_steps_total (rt : Runtime) (name : string) (plan : value) :
  keeps R (SidebarProvider.steps_total rt name plan).
Proof. unfold SidebarProvider.steps_total. frame. Qed.

Lemma keeps_modificationPrompt (rt : Runtime) (userMessage : string) :
  keeps R (SidebarProvider.modificationPrompt rt userMessage).
Proof.
  unfold SidebarProvider.modificationPrompt, SidebarProvider.phase_line. frame.
Qed.

Lemma keeps_generalPrompt (rt : Runtime) (userMessage : string) :
  keeps R (SidebarProvider.generalPrompt rt userMessage).
Proof. unfold SidebarProvider.generalPrompt. frame. Qed.

Lemma keeps_handleGeneralQuery (rt : Runtime) (svc : LLMService.t)
    (reply : LLMService.GeminiReply) (userMessage : string) :
  keeps R (SidebarProvider.handleGeneralQuery rt svc reply userMessage).
Proof.
  unfold SidebarProvider.handleGeneralQuery.
  apply keeps_bind; [apply keeps_generalPrompt | intro].
  apply keeps_bind; [apply keeps_sendConversationalMessage | intro].
  apply keeps_ret.
Qed.

(** The answer that [generateNewPlan] and [modifyPlan] build from a plan. *)
Lemma keeps_report (rt : Runtime) (name : string) (v : value)
    (text : string -> string -> string -> string) :
  keeps R (line <- SidebarProvider.phases_line rt name v ;;
           total <- SidebarProvider.steps_total rt name v ;;
           summary' <- get v "summary" ;;
           summary' <- ToString rt summary' ;;
           ret {| SidebarProvider.reply_text := text line total summary';
                  SidebarProvider.reply_plan := v |}).
Proof.
  apply keeps_bind; [apply keeps_phases_line | intro].
  apply keeps_bind; [apply keeps_steps_total | intro].
  frame.
Qed.

(** From here on the clock and the UUID source may be read. *)
Hypothesis R_bump : forall a b w, R w (bump a b w).

Lemma keeps_now (rt : Runtime) : keeps R (now rt).
Proof. intros w. rewrite now_run. apply R_bump. Qed.

Lemma keeps_randomUUID (rt : Runtime) : keeps R (randomUUID rt).
Proof. intros w. rewrite randomUUID_run. apply R_bump. Qed.

Lemma keeps_heuristicPlan (rt : Runtime) (request : PlanRequest)
    (context : ProjectContext) : keeps R (LLMService.heuristicPlan rt request context).
Proof.
  unfold LLMService.heuristicPlan. apply keeps_bind; [apply keeps_now | intro].
  apply keeps_ret.
Qed.

Lemma keeps_adapter_generatePlan (rt : Runtime) (svc : LLMService.t)
    (reply : LLMService.GeminiReply) (request : PlanRequest) (context : ProjectContext)
    (prompt : string) :
  keeps R (LLMService.generatePlan rt svc reply request context prompt).
Proof.
  unfold LLMService.generatePlan, LLMService.invokeOpenAI, LLMService.invokeAnthropic.
  frame; first [apply keeps_now | apply keeps_sendMessage].
Qed.

Lemma keeps_ensurePhaseStructure (rt : Runtime) (phase : value) :
  keeps R (PlanGenerator.ensurePhaseStructure rt phase).
Proof.
  unfold PlanGenerator.ensurePhaseStructure, PlanGenerator.ensureStepStructure.
  frame; apply keeps_randomUUID.
Qed.

Lemma keeps_createFallbackPlan (rt : Runtime) (request : PlanRequest)
    (context : ProjectContext) :
  keeps R (PlanGenerator.createFallbackPlan rt request context).
Proof.
  unfold PlanGenerator.createFallbackPlan. cbv zeta.
  apply keeps_bind; [apply keeps_now | intro]. apply keeps_ret.
Qed.

Lemma keeps_normalisePlan (rt : Runtime) (response : LLMService.Response)
    (request : PlanRequest) (context : ProjectContext) :
  keeps R (PlanGenerator.normalisePlan rt response request context).
Proof.
  unfold PlanGenerator.normalisePlan.
  apply keeps_bind.
  { destruct response; [apply keeps_tryParsePlan | apply keeps_ret]. }
  intros [p |]; [| apply keeps_createFallbackPlan].
  cbv zeta. apply keeps_bind.
  { match goal with |- keeps _ (if ?b then _ else _) => destruct b end.
    - apply keeps_bind; [apply keeps_createFallbackPlan | intro; apply keeps_ret].
    - apply keeps_ret. }
  intros p'. apply keeps_bind.
  { match goal with |- keeps _ (if ?b then _ else _) => destruct b end.
    - apply keeps_ret.
    - apply keeps_bind; [apply keeps_now | intro; apply keeps_ret]. }
  intros generatedAt. apply keeps_bind; [| intro; apply keeps_ret].
  apply keeps_array_map. intro. apply keeps_ensurePhaseStructure.
Qed.

Lemma keeps_generatePlan (rt : Runtime) (svc : LLMService.t)
    (reply : LLMService.GeminiReply) (request : PlanRequest) (context : ProjectContext) :
  keeps R (PlanGenerator.generatePlan rt svc reply request context).
Proof.
  unfold PlanGenerator.generatePlan, PlanGenerator.buildPlanPrompt. cbv zeta.
  apply keeps_bind.
  { apply keeps_bind; [apply keeps_now | intro; apply keeps_ret]. }
  intros prompt. apply keeps_bind; [apply keeps_adapter_generatePlan | intros response].
  apply keeps_bind; [apply keeps_normalisePlan | intros plan].
  match goal with |- keeps _ (if ?b then _ else _) => destruct b end.
  - apply keeps_bind; [apply keeps_toMarkdown | intro; apply keeps_ret].
  - apply keeps_ret.
Qed.

End Frame.

Lemma same_chat_refl (w : Machine) : same_chat w w.
Proof. split; reflexivity. Qed.

Lemma same_chat_trans (a b c : Machine) : same_chat a b -> same_chat b c -> same_chat a c.
Proof. intros [H1 H2] [H3 H4]. split; congruence. Qed.

Lemma same_chat_bump (a b : nat) (w : Machine) : same_chat w (bump a b w).
Proof. split; reflexivity. Qed.

Lemma same_session_refl (w : Machine) : same_session w w.
Proof. repeat split; reflexivity. Qed.

Lemma same_session_trans (a b c : Machine) :
  same_session a b -> same_session b c -> same_session a c.
Proof. intros (H1 & H2 & H3 & H4) (H5 & H6 & H7 & H8). repeat split; congruence. Qed.

Lemma same_session_bump (a b : nat) (w : Machine) : same_session w (bump a b w).
Proof. repeat split; reflexivity. Qed.

Lemma bind_ret_inv {A B} (m : M A) (k : A -> M B) (w : Machine) (b : B) (w' : Machine) :
  bind m k w = Ret b w' -> exists a w1, m w = Ret a w1 /\ k a w1 = Ret b w'.
Proof.
  unfold bind. destruct (m w) as [a w1 | e w1]; [| discriminate].
  intros H. exists a, w1. split; [reflexivity | exact H].
Qed.

(** ** Lists and slices *)

Lemma slice_0 {A} (k : nat) (l : list A) : PlanGenerator.slice 0 k l = firstn k l.
Proof. unfold PlanGenerator.slice; simpl. rewrite Nat.sub_0_r. reflexivity. Qed.

Lemma skipn_past_prefix {A} (k : nat) (l : list A) :
  skipn (List.length (firstn k l)) l = skipn k l.
Proof.
  rewrite length_firstn.
  destruct (Nat.le_ge_cases k (List.length l)) as [Hle | Hge].
  - rewrite Nat.min_l by assumption. reflexivity.
  - rewrite Nat.min_r by assumption.
    rewrite skipn_all. symmetry. apply skipn_all2. exact Hge.
Qed.

Lemma three_slices {A} (k : nat) (l : list A) :
  let a := List.length (firstn k l) in
  (firstn k l ++ PlanGenerator.slice a (a * 2) l ++ PlanGenerator.slice_from (a * 2) l)%list = l.
Proof.
  intros a. unfold PlanGenerator.slice, PlanGenerator.slice_from.
  replace (a * 2 - a) with a by lia.
  replace (a * 2) with (a + a) by lia.
  rewrite <- (skipn_skipn a a l).
  rewrite firstn_skipn.
  unfold a. rewrite skipn_past_prefix.
  apply firstn_skipn.
Qed.

(** C5 (amended). In the multi-phase fallback synthesis the three slices
    of the capped file list, taken one after the other, are the capped list
    itself: they are contiguous, they do not overlap, every capped file is
    in exactly one of them, and their lengths add up to
    [min(files.length, 10)].  The first slice holds the first
    [max(2, ceil(n/3))] of the [n] capped files, or all of them when there
    are fewer; the second is as long as the first, or holds what is left
    when that is less. *)
Theorem partition_covers_capped_files (context : ProjectContext) :
  let capped := PlanGenerator.slice 0 10 (files context) in
  let n := List.length capped in
  (PlanGenerator.analysisFiles capped ++ PlanGenerator.implementationFiles capped
     ++ PlanGenerator.verificationFiles capped)%list = capped
  /\ List.length (PlanGenerator.analysisFiles capped)
     + List.length (PlanGenerator.implementationFiles capped)
     + List.length (PlanGenerator.verificationFiles capped)
     = Nat.min (List.length (files context)) 10
  /\ List.length (PlanGenerator.analysisFiles capped)
     = Nat.min n (Nat.max 2 ((n + 2) / 3))
  /\ List.length (PlanGenerator.implementationFiles capped)
     = Nat.min (Nat.min n (Nat.max 2 ((n + 2) / 3)))
               (n - Nat.min n (Nat.max 2 ((n + 2) / 3))).
Proof.
  intros capped n.
  assert (Hcat : (PlanGenerator.analysisFiles capped
                  ++ PlanGenerator.implementationFiles capped
                  ++ PlanGenerator.verificationFiles capped)%list = capped).
  { unfold PlanGenerator.implementationFiles, PlanGenerator.verificationFiles,
      PlanGenerator.analysisFiles.
    rewrite slice_0. apply three_slices. }
  split; [exact Hcat |].
  assert (Hlen : List.length capped = Nat.min (List.length (files context)) 10).
  { unfold capped. rewrite slice_0, length_firstn. apply Nat.min_comm. }
  split.
  - rewrite <- Hlen. rewrite <- Hcat at 4. rewrite !length_app. lia.
  - split.
    + unfold PlanGenerator.analysisFiles. rewrite slice_0, length_firstn.
      apply Nat.min_comm.
    + assert (Hanalysis : List.length (PlanGenerator.analysisFiles capped)
                          = Nat.min n (Nat.max 2 ((n + 2) / 3))).
      { unfold PlanGenerator.analysisFiles. rewrite slice_0, length_firstn.
        apply Nat.min_comm. }
      unfold PlanGenerator.implementationFiles, PlanGenerator.slice.
      rewrite length_firstn, length_skipn. fold n. rewrite Hanalysis. f_equal. lia.
Qed.

(** C5, as stated, fails: the analysis slice does not always hold
    [max(2, ceil(n/3))] files, and the implementation slice is not always
    as long as the analysis slice.  With no file the analysis slice is
    empty, and with three files it holds two files and the implementation
    slice one. *)
Lemma partition_slices_fall_short :
  (let capped := PlanGenerator.slice 0 10 (files Sample.empty_workspace) in
   Nat.max 2 ((List.length capped + 2) / 3) = 2
   /\ List.length (PlanGenerator.analysisFiles capped) = 0)
  /\ (let capped := PlanGenerator.slice 0 10 (files Scenario.three_files) in
      Nat.max 2 ((List.length capped + 2) / 3) = 2
      /\ List.length (PlanGenerator.analysisFiles capped) = 2
      /\ List.length (PlanGenerator.implementationFiles capped) = 1
      /\ List.length (PlanGenerator.verificationFiles capped) = 0).
Proof. vm_compute. repeat split; reflexivity. Qed.

(** ** The backend adapter *)

Lemma heuristicPlan_run (rt : Runtime) (request : PlanRequest) (context : ProjectContext)
    (w : Machine) :
  exists p, LLMService.heuristicPlan rt request context w = Ret p (bump 1 0 w)
            /\ heuristic_shape p
            /\ field (VObj p) "task" = VStr (task request)
            /\ field (VObj p) "mode" = VStr (mode_text (mode request))
            /\ is_string (field (VObj p) "rawPlan") = true.
Proof.
  eexists. split; [reflexivity |]. split.
  - do 2 eexists. split; [reflexivity |]. repeat split; reflexivity.
  - repeat split; reflexivity.
Qed.

(** C10. On a fresh generation the adapter's [generatePlan] never throws;
    and whenever the API key is absent, the provider is ['mock'] or is not a
    supported one, or the call to the provider throws, what it returns is
    the heuristic plan: one phase titled ['Fallback Plan'] with the two
    steps [step-1] and [step-2]. *)
Theorem adapter_generatePlan_never_throws (rt : Runtime) (svc : LLMService.t)
    (reply : LLMService.GeminiReply) (request : PlanRequest) (context : ProjectContext)
    (prompt : string) (w : Machine) :
  exists r w',
    LLMService.generatePlan rt svc reply request context prompt w = Ret r w'
    /\ (LLMService.no_key (apiKey (LLMService.config svc)) = true
        \/ provider (LLMService.config svc) = "mock"
        \/ supported (provider (LLMService.config svc)) = false
        \/ (provider (LLMService.config svc) = "gemini"
            /\ exists e w1, LLMService.sendMessage svc reply prompt w = Throw e w1)
        -> exists p, r = LLMService.Structured p /\ heuristic_shape p).
Proof.
  unfold LLMService.generatePlan, supported.
  destruct (heuristicPlan_run rt request context w) as (p & Hp & Hshape & _).
  destruct (LLMService.no_key (apiKey (LLMService.config svc))) eqn:Hkey; simpl.
  { rewrite (bind_ret _ _ _ _ _ Hp). do 2 eexists. split; [reflexivity |].
    intros _. eauto. }
  destruct (String.eqb_spec (provider (LLMService.config svc)) "mock") as [Hmock | Hmock].
  { rewrite (bind_ret _ _ _ _ _ Hp). do 2 eexists. split; [reflexivity |].
    intros _. eauto. }
  unfold try_catch.
  destruct (String.eqb_spec (provider (LLMService.config svc)) "openai") as [Ho | Ho].
  { do 2 eexists. split; [reflexivity |].
    intros [H | [H | [H | [H _]]]]; try discriminate; congruence. }
  destruct (String.eqb_spec (provider (LLMService.config svc)) "anthropic") as [Ha | Ha].
  { do 2 eexists. split; [reflexivity |].
    intros [H | [H | [H | [H _]]]]; try discriminate; congruence. }
  destruct (String.eqb_spec (provider (LLMService.config svc)) "gemini") as [Hg | Hg].
  - destruct (LLMService.sendMessage svc reply prompt w) as [s w1 | e w1] eqn:Hsend.
    + rewrite (bind_ret _ _ _ _ _ Hsend). do 2 eexists. split; [reflexivity |].
      intros [H | [H | [H | [_ (e & w2 & H)]]]]; try discriminate; congruence.
    + rewrite (bind_throw _ _ _ _ _ Hsend).
      destruct (heuristicPlan_run rt request context w1) as (p1 & Hp1 & Hshape1 & _).
      rewrite (bind_ret _ _ _ _ _ Hp1). do 2 eexists. split; [reflexivity |].
      intros _. eauto.
  - rewrite (bind_ret _ _ _ _ _ Hp). do 2 eexists. split; [reflexivity |].
    intros _. eauto.
Qed.

Lemma adapter_generatePlan_never_throws_witness :
  exists r w',
    LLMService.generatePlan Sample.rt Sample.gemini (Sample.answers "I cannot help with that.")
      Sample.request Sample.empty_workspace "prompt" Sample.start = Ret r w'
    /\ exists p, r = LLMService.Structured p /\ heuristic_shape p.
Proof.
  destruct (adapter_generatePlan_never_throws Sample.rt Sample.gemini
              (Sample.answers "I cannot help with that.")
              Sample.request Sample.empty_workspace "prompt" Sample.start)
    as (r & w' & Hrun & Hshape).
  exists r, w'. split; [exact Hrun |].
  apply Hshape. right. right. right. split; [reflexivity |].
  do 2 eexists. vm_compute. reflexivity.
Defined.

(** ** Structural repair *)

Lemma get_run (v : value) (k : string) (w : Machine) :
  nullish v = false -> get v k w = Ret (field v k) w.
Proof. destruct v; simpl; intros H; try discriminate; reflexivity. Qed.

Lemma get_nullish (v : value) (k : string) (w : Machine) :
  nullish v = true -> exists e, get v k w = Throw e w /\ ename e = "TypeError".
Proof.
  destruct v; simpl; intros H; try discriminate; eexists; split; reflexivity.
Qed.

Lemma ensureStepStructure_run (rt : Runtime) (s : value) (w : Machine) :
  nullish s = false ->
  PlanGenerator.ensureStepStructure rt s w
  = Ret (repaired_step rt w s) (bump 0 (if nullish (field s "id") then 1 else 0) w).
Proof.
  intros Hs. unfold PlanGenerator.ensureStepStructure.
  rewrite (bind_ret _ _ _ _ _ (get_run s "id" w Hs)).
  unfold repaired_step.
  destruct (nullish (field s "id")).
  - unfold bind at 1. unfold bind at 1. rewrite randomUUID_run. unfold ret at 1.
    repeat (erewrite bind_ret; [| apply get_run; exact Hs]).
    reflexivity.
  - unfold bind at 1. unfold ret at 1.
    repeat (erewrite bind_ret; [| apply get_run; exact Hs]).
    rewrite bump_0_0. reflexivity.
Qed.

Lemma ensureStepStructure_nullish (rt : Runtime) (s : value) (w : Machine) :
  nullish s = true ->
  exists e, PlanGenerator.ensureStepStructure rt s w = Throw e w /\ ename e = "TypeError".
Proof.
  intros Hs. destruct (get_nullish s "id" w Hs) as (e & He & Hname).
  exists e. split; [| exact Hname].
  unfold PlanGenerator.ensureStepStructure. apply bind_throw. exact He.
Qed.

Lemma mapM_steps_total (rt : Runtime) (l : list value) :
  forall w, forallb (fun s => negb (nullish s)) l = true ->
  exists vs k,
    mapM (PlanGenerator.ensureStepStructure rt) l w = Ret vs (bump 0 k w)
    /\ List.length vs = List.length l
    /\ Forall (fun v => nullish v = false /\ nullish (field v "references") = false) vs.
Proof.
  induction l as [| s l IH]; intros w Hall.
  - exists [], 0. rewrite bump_0_0. repeat split; constructor.
  - simpl in Hall. apply andb_true_iff in Hall as [Hs Hl].
    apply negb_true_iff in Hs.
    simpl. rewrite (bind_ret _ _ _ _ _ (ensureStepStructure_run rt s w Hs)).
    destruct (IH (bump 0 (if nullish (field s "id") then 1 else 0) w) Hl)
      as (vs & k & Hrun & Hlen & Hvs).
    rewrite (bind_ret _ _ _ _ _ Hrun). unfold ret.
    do 2 eexists. rewrite bump_bump. split; [reflexivity |].
    split; [simpl; congruence |].
    constructor; [| exact Hvs].
    split; [reflexivity |].
    unfold repaired_step, coalesce. simpl.
    destruct (nullish (field s "references")) eqn:E; [reflexivity | exact E].
Qed.

Lemma mapM_steps_throw (rt : Runtime) (l : list value) :
  forall w, forallb (fun s => negb (nullish s)) l = false ->
  exists e w', mapM (PlanGenerator.ensureStepStructure rt) l w = Throw e w'
               /\ ename e = "TypeError".
Proof.
  induction l as [| s l IH]; intros w Hall; [discriminate |].
  simpl in Hall. simpl.
  destruct (nullish s) eqn:Hs.
  - destruct (ensureStepStructure_nullish rt s w Hs) as (e & He & Hname).
    rewrite (bind_throw _ _ _ _ _ He). eauto.
  - simpl in Hall.
    rewrite (bind_ret _ _ _ _ _ (ensureStepStructure_run rt s w Hs)).
    destruct (IH (bump 0 (if nullish (field s "id") then 1 else 0) w) Hall)
      as (e & w' & Hrun & Hname).
    rewrite (bind_throw _ _ _ _ _ Hrun). eauto.
Qed.

Lemma ensurePhaseStructure_total (rt : Runtime) (p : value) (w : Machine) :
  repairable_phase p = true ->
  exists v k, PlanGenerator.ensurePhaseStructure rt p w = Ret v (bump 0 k w)
              /\ repaired_phase_shape v
              /\ List.length (elements (field v "steps"))
                 = List.length (elements (coalesce (field p "steps") (VArr []))).
Proof.
  unfold repairable_phase. intros H. apply andb_true_iff in H as [Hp Hsteps].
  apply negb_true_iff in Hp.
  unfold PlanGenerator.ensurePhaseStructure.
  rewrite (bind_ret _ _ _ _ _ (get_run p "id" w Hp)).
  set (w1 := bump 0 (if nullish (field p "id") then 1 else 0) w).
  assert (Hid : exists id,
             (if nullish (field p "id")
              then u <- randomUUID rt ;; ret (VStr u) else ret (field p "id")) w
             = Ret id w1).
  { unfold w1. destruct (nullish (field p "id")).
    - eexists. reflexivity.
    - eexists. rewrite bump_0_0. reflexivity. }
  destruct Hid as (id & Hid). rewrite (bind_ret _ _ _ _ _ Hid).
  assert (Hp1 : forall k, get p k w1 = Ret (field p k) w1) by (intros; apply get_run; exact Hp).
  rewrite (bind_ret _ _ _ _ _ (Hp1 "title")).
  rewrite (bind_ret _ _ _ _ _ (Hp1 "summary")).
  rewrite (bind_ret _ _ _ _ _ (Hp1 "steps")).
  cbv beta.
  destruct (coalesce (field p "steps") (VArr [])) as [| | | | | l |] eqn:Hc; try discriminate.
  destruct (mapM_steps_total rt l w1 Hsteps) as (vs & k & Hrun & Hlen & Hvs).
  unfold array_map.
  erewrite bind_ret; [| erewrite bind_ret; [reflexivity | exact Hrun]].
  unfold ret. unfold w1. rewrite bump_bump.
  do 2 eexists. split; [reflexivity |].
  split.
  - split; [reflexivity |]. exists vs. split; [reflexivity | exact Hvs].
  - simpl. exact Hlen.
Qed.

Lemma ensurePhaseStructure_throw (rt : Runtime) (p : value) (w : Machine) :
  repairable_phase p = false ->
  exists e w', PlanGenerator.ensurePhaseStructure rt p w = Throw e w'
               /\ ename e = "TypeError".
Proof.
  unfold repairable_phase. intros H.
  unfold PlanGenerator.ensurePhaseStructure.
  destruct (nullish p) eqn:Hp.
  - destruct (get_nullish p "id" w Hp) as (e & He & Hname).
    rewrite (bind_throw _ _ _ _ _ He). eauto.
  - simpl in H.
    rewrite (bind_ret _ _ _ _ _ (get_run p "id" w Hp)).
    set (w1 := bump 0 (if nullish (field p "id") then 1 else 0) w).
    assert (Hid : exists id,
               (if nullish (field p "id")
                then u <- randomUUID rt ;; ret (VStr u) else ret (field p "id")) w
               = Ret id w1).
    { unfold w1. destruct (nullish (field p "id")).
      - eexists. reflexivity.
      - eexists. rewrite bump_0_0. reflexivity. }
    destruct Hid as (id & Hid). rewrite (bind_ret _ _ _ _ _ Hid).
    assert (Hp1 : forall k, get p k w1 = Ret (field p k) w1)
      by (intros; apply get_run; exact Hp).
    rewrite (bind_ret _ _ _ _ _ (Hp1 "title")).
    rewrite (bind_ret _ _ _ _ _ (Hp1 "summary")).
    rewrite (bind_ret _ _ _ _ _ (Hp1 "steps")).
    cbv beta.
    destruct (coalesce (field p "steps") (VArr [])) as [| | | | | l |] eqn:Hc;
      try (eexists; eexists; split; reflexivity).
    destruct (mapM_steps_throw rt l w1 H) as (e & w' & Hrun & Hname).
    unfold array_map.
    erewrite bind_throw; [| erewrite bind_throw; [reflexivity | exact Hrun]]. eauto.
Qed.

Lemma mapM_phases_total (rt : Runtime) (l : list value) :
  forall w, forallb repairable_phase l = true ->
  exists vs k,
    mapM (PlanGenerator.ensurePhaseStructure rt) l w = Ret vs (bump 0 k w)
    /\ List.length vs = List.length l
    /\ Forall repaired_phase_shape vs.
Proof.
  induction l as [| p l IH]; intros w Hall.
  - exists [], 0. rewrite bump_0_0. repeat split; constructor.
  - simpl in Hall. apply andb_true_iff in Hall as [Hp Hl].
    destruct (ensurePhaseStructure_total rt p w Hp) as (v & k & Hrun & Hshape & _).
    simpl. rewrite (bind_ret _ _ _ _ _ Hrun).
    destruct (IH (bump 0 k w) Hl) as (vs & k' & Hrun' & Hlen & Hvs).
    rewrite (bind_ret _ _ _ _ _ Hrun'). unfold ret. rewrite bump_bump.
    do 2 eexists. split; [reflexivity |].
    split; [simpl; congruence |]. constructor; assumption.
Qed.

Lemma mapM_phases_throw (rt : Runtime) (l : list value) :
  forall w, forallb repairable_phase l = false ->
  exists e w', mapM (PlanGenerator.ensurePhaseStructure rt) l w = Throw e w'
               /\ ename e = "TypeError".
Proof.
  induction l as [| p l IH]; intros w Hall; [discriminate |].
  simpl in Hall. simpl.
  destruct (repairable_phase p) eqn:Hp.
  - destruct (ensurePhaseStructure_total rt p w Hp) as (v & k & Hrun & _).
    rewrite (bind_ret _ _ _ _ _ Hrun).
    destruct (IH (bump 0 k w) Hall) as (e & w' & Hrun' & Hname).
    rewrite (bind_throw _ _ _ _ _ Hrun'). eauto.
  - destruct (ensurePhaseStructure_throw rt p w Hp) as (e & w' & Hrun & Hname).
    rewrite (bind_throw _ _ _ _ _ Hrun). eauto.
Qed.

(** ** The normaliser *)

Lemma tryParsePlan_run (raw : string) (w : Machine) :
  PlanGenerator.tryParsePlan raw w = Ret (parsed_plan (LLMService.Text raw)) w.
Proof.
  unfold PlanGenerator.tryParsePlan, try_catch, JSON_parse, parsed_plan, bind.
  destruct (Json.parse raw) as [v |]; simpl; [| reflexivity].
  destruct (truthy v && PlanGenerator.typeof_object v && is_array (field v "phases"));
    reflexivity.
Qed.

Lemma file_steps_shape (prefix verb why : string) (describe : string -> string)
    (fs : list ScannedFile) :
  Forall (fun s => nullish s = false /\ nullish (field s "references") = false)
         (PlanGenerator.file_steps prefix verb describe why fs).
Proof.
  unfold PlanGenerator.file_steps.
  apply Forall_map. apply Forall_forall. intros [i f] _. split; reflexivity.
Qed.

Lemma shape_repairable (v : value) : repaired_phase_shape v -> repairable_phase v = true.
Proof.
  intros (Hv & steps & Hsteps & Hall). unfold repairable_phase.
  rewrite Hv, Hsteps. simpl.
  apply forallb_forall. intros s Hin.
  rewrite Forall_forall in Hall. destruct (Hall s Hin) as [Hs _]. rewrite Hs. reflexivity.
Qed.

Lemma fallback_phases_shape (request : PlanRequest) (context : ProjectContext) :
  fallback_phases request context <> []
  /\ Forall repaired_phase_shape (fallback_phases request context).
Proof.
  unfold fallback_phases. destruct (is_phase (mode request)).
  - split; [discriminate |].
    unfold PlanGenerator.createPhasedPlan.
    repeat constructor; eexists; (split; [reflexivity |]);
      try apply Forall_app; try split; try apply file_steps_shape;
      repeat constructor.
  - split; [discriminate |].
    unfold PlanGenerator.createSinglePhase.
    repeat constructor. eexists. split; [reflexivity |].
    apply Forall_app. split.
    + apply Forall_map. apply Forall_forall. intros [i f] _. split; reflexivity.
    + repeat constructor.
Qed.

Lemma createFallbackPlan_run (rt : Runtime) (request : PlanRequest)
    (context : ProjectContext) (w : Machine) :
  PlanGenerator.createFallbackPlan rt request context w
  = Ret [ ("task", VStr (task request));
          ("mode", VStr (mode_text (mode request)));
          ("summary", VStr (summary context));
          ("generatedAt", VStr (clock rt (ticks w)));
          ("phases", VArr (fallback_phases request context)) ] (bump 1 0 w).
Proof. reflexivity. Qed.

Lemma lookup_set_same (k : string) (v : value) (o : obj) :
  lookup k (set_field k v o) = Some v.
Proof.
  induction o as [| [k' v'] o IH]; simpl.
  - rewrite String.eqb_refl. reflexivity.
  - destruct (String.eqb k k') eqn:E; simpl.
    + rewrite String.eqb_refl. reflexivity.
    + rewrite E. exact IH.
Qed.

Lemma lookup_set_other (k k0 : string) (v : value) (o : obj) :
  k0 <> k -> lookup k0 (set_field k v o) = lookup k0 o.
Proof.
  intros Hne. induction o as [| [k' v'] o IH]; simpl.
  - destruct (String.eqb_spec k0 k); [contradiction | reflexivity].
  - destruct (String.eqb_spec k k') as [-> | Hkk']; simpl.
    + destruct (String.eqb_spec k0 k'); [contradiction | reflexivity].
    + destruct (String.eqb k0 k'); [reflexivity | exact IH].
Qed.

(** The plan whose fields [normalisePlan] reads: the parsed one, with the
    fallback's phases when it has none. *)
Lemma with_phases_fields (request : PlanRequest) (context : ProjectContext) (p : obj)
    (k : string) :
  k <> "phases" ->
  field (VObj (set_field "phases" (VArr (fallback_phases request context)) p)) k
  = field (VObj p) k.
Proof. intros Hk. simpl. rewrite lookup_set_other by exact Hk. reflexivity. Qed.

(** [normalisePlan] on a response that parses to the plan [p]: when the
    phases it goes on with can be repaired, it returns, the four scalar
    fields are the plan's own when truthy and the defaults otherwise, and
    the phases are repaired ones, as many as there were. *)
Lemma normalisePlan_parsed (rt : Runtime) (response : LLMService.Response)
    (request : PlanRequest) (context : ProjectContext) (p : obj) (w : Machine) :
  parsed_plan response = Some p ->
  let source := if lacks_phases p then VArr (fallback_phases request context)
                else field (VObj p) "phases" in
  let w1 := if lacks_phases p then bump 1 0 w else w in
  repairable source = true ->
  exists phases k,
    PlanGenerator.normalisePlan rt response request context w
    = Ret [ ("task", or_else (field (VObj p) "task") (VStr (task request)));
            ("mode", or_else (field (VObj p) "mode") (VStr (mode_text (mode request))));
            ("summary", or_else (field (VObj p) "summary") (VStr (summary context)));
            ("generatedAt", if truthy (field (VObj p) "generatedAt")
                            then field (VObj p) "generatedAt"
                            else VStr (clock rt (ticks w1)));
            ("phases", VArr phases);
            ("rawPlan", field (VObj p) "rawPlan") ]
          (bump (if truthy (field (VObj p) "generatedAt") then 0 else 1) k w1)
    /\ mapM (PlanGenerator.ensurePhaseStructure rt) (elements source)
            (bump (if truthy (field (VObj p) "generatedAt") then 0 else 1) 0 w1)
       = Ret phases (bump (if truthy (field (VObj p) "generatedAt") then 0 else 1) k w1)
    /\ List.length phases = List.length (elements source)
    /\ phases <> []
    /\ Forall repaired_phase_shape phases.
Proof.
  intros Hparsed source w1 Hrep.
  assert (Hplan : (match response with
                   | LLMService.Text raw => PlanGenerator.tryParsePlan raw
                   | LLMService.Structured p0 => ret (Some p0)
                   end) w = Ret (Some p) w).
  { destruct response as [raw | p0]; simpl in Hparsed.
    - rewrite tryParsePlan_run. simpl. rewrite Hparsed. reflexivity.
    - inversion Hparsed. reflexivity. }
  unfold PlanGenerator.normalisePlan. rewrite (bind_ret _ _ _ _ _ Hplan). cbv beta iota.
  set (p' := if lacks_phases p
             then set_field "phases" (VArr (fallback_phases request context)) p else p).
  assert (Hp' : (if negb (truthy (field (VObj p) "phases"))
                    || strict_eq_zero (field (field (VObj p) "phases") "length")
                 then fallback <- PlanGenerator.createFallbackPlan rt request context ;;
                      ret (set_field "phases" (field (VObj fallback) "phases") p)
                 else ret p) w = Ret p' w1).
  { unfold p', w1, lacks_phases.
    destruct (negb (truthy (field (VObj p) "phases"))
              || strict_eq_zero (field (field (VObj p) "phases") "length")).
    - unfold bind. rewrite createFallbackPlan_run. reflexivity.
    - reflexivity. }
  rewrite (bind_ret _ _ _ _ _ Hp'). cbv beta zeta.
  assert (Hfields : forall k, k <> "phases" -> field (VObj p') k = field (VObj p) k).
  { intros k Hk. unfold p'. destruct (lacks_phases p); [| reflexivity].
    apply with_phases_fields. exact Hk. }
  assert (Hsource : field (VObj p') "phases" = source).
  { unfold p', source. destruct (lacks_phases p); [| reflexivity].
    simpl. rewrite lookup_set_same. reflexivity. }
  rewrite Hsource.
  rewrite !(Hfields "generatedAt") by discriminate.
  rewrite (Hfields "task"), (Hfields "mode"), (Hfields "summary"), (Hfields "rawPlan")
    by discriminate.
  set (dt := if truthy (field (VObj p) "generatedAt") then 0 else 1).
  assert (Hgen : (if truthy (field (VObj p) "generatedAt")
                  then ret (field (VObj p) "generatedAt")
                  else t <- now rt ;; ret (VStr t)) w1
                 = Ret (if truthy (field (VObj p) "generatedAt")
                        then field (VObj p) "generatedAt"
                        else VStr (clock rt (ticks w1))) (bump dt 0 w1)).
  { unfold dt. destruct (truthy (field (VObj p) "generatedAt")).
    - rewrite bump_0_0. reflexivity.
    - reflexivity. }
  rewrite (bind_ret _ _ _ _ _ Hgen). cbv beta.
  destruct source as [| | | | | l |] eqn:Hsrc; try discriminate.
  simpl in Hrep.
  destruct (mapM_phases_total rt l (bump dt 0 w1) Hrep) as (vs & k & Hrun & Hlen & Hvs).
  rewrite bump_bump in Hrun. rewrite Nat.add_0_r in Hrun.
  change (0 + dt) with dt in Hrun.
  unfold array_map.
  erewrite bind_ret; [| erewrite bind_ret; [reflexivity | exact Hrun]].
  exists vs, k. split; [reflexivity |].
  split; [exact Hrun |]. split; [exact Hlen |]. split; [| exact Hvs].
  intros ->. simpl in Hlen.
  assert (Hl : l = []) by (destruct l; [reflexivity | discriminate]).
  subst l. clear Hrun Hvs Hrep Hlen.
  unfold source in Hsrc. destruct (lacks_phases p) eqn:Hlack.
  - inversion Hsrc as [Hfb]. destruct (fallback_phases_shape request context) as [Hne _].
    apply Hne. exact Hfb.
  - unfold lacks_phases in Hlack. rewrite Hsrc in Hlack. discriminate.
Qed.

(** On a response that does not parse to a plan, [normalisePlan] returns
    the fallback plan. *)
Lemma normalisePlan_unparsed (rt : Runtime) (response : LLMService.Response)
    (request : PlanRequest) (context : ProjectContext) (w : Machine) :
  parsed_plan response = None ->
  PlanGenerator.normalisePlan rt response request context w
  = Ret [ ("task", VStr (task request));
          ("mode", VStr (mode_text (mode request)));
          ("summary", VStr (summary context));
          ("generatedAt", VStr (clock rt (ticks w)));
          ("phases", VArr (fallback_phases request context)) ] (bump 1 0 w).
Proof.
  intros Hparsed. unfold PlanGenerator.normalisePlan.
  destruct response as [raw | p0]; [| discriminate].
  erewrite bind_ret; [| apply tryParsePlan_run]. rewrite Hparsed.
  apply createFallbackPlan_run.
Qed.

(** When the phases cannot be repaired, [normalisePlan] throws a
    TypeError. *)
Lemma normalisePlan_throws (rt : Runtime) (response : LLMService.Response)
    (request : PlanRequest) (context : ProjectContext) (p : obj) (w : Machine) :
  parsed_plan response = Some p ->
  lacks_phases p = false ->
  repairable (field (VObj p) "phases") = false ->
  exists e w', PlanGenerator.normalisePlan rt response request context w = Throw e w'
               /\ ename e = "TypeError".
Proof.
  intros Hparsed Hlack Hrep.
  assert (Hplan : (match response with
                   | LLMService.Text raw => PlanGenerator.tryParsePlan raw
                   | LLMService.Structured p0 => ret (Some p0)
                   end) w = Ret (Some p) w).
  { destruct response as [raw | p0]; simpl in Hparsed.
    - rewrite tryParsePlan_run. simpl. rewrite Hparsed. reflexivity.
    - inversion Hparsed. reflexivity. }
  unfold PlanGenerator.normalisePlan. rewrite (bind_ret _ _ _ _ _ Hplan). cbv beta iota.
  unfold lacks_phases in Hlack. rewrite Hlack.
  unfold bind at 1. unfold ret at 1. cbv beta zeta.
  set (g := if truthy (field (VObj p) "generatedAt")
            then ret (field (VObj p) "generatedAt") else t <- now rt ;; ret (VStr t)).
  assert (Hgen : exists v w1, g w = Ret v w1).
  { unfold g. destruct (truthy (field (VObj p) "generatedAt")); do 2 eexists; reflexivity. }
  destruct Hgen as (v & w1 & Hgen). rewrite (bind_ret _ _ _ _ _ Hgen). cbv beta.
  destruct (field (VObj p) "phases") as [| | | | | l |] eqn:Hph;
    try (do 2 eexists; split; reflexivity).
  simpl in Hrep.
  destruct (mapM_phases_throw rt l w1 Hrep) as (e & w' & Hrun & Hname).
  unfold array_map.
  erewrite bind_throw; [| erewrite bind_throw; [reflexivity | exact Hrun]]. eauto.
Qed.

(** C1. The totality claimed for [normalisePlan] fails on a backend text
    that is valid JSON: on the text of an object whose [phases] array holds
    [null], [normalisePlan] throws a TypeError from [ensurePhaseStructure],
    whatever the request and the context; and the text reaches it, the
    Gemini adapter handing it over unchanged, so that [generatePlan] throws
    as well. *)
Theorem normalisePlan_throws_on_null_phase (rt : Runtime) (request : PlanRequest)
    (context : ProjectContext) (w : Machine) :
  PlanGenerator.normalisePlan rt (LLMService.Text Sample.null_phase_text) request context w
  = Throw (TypeError "Cannot read properties of null (reading 'id')") (bump 1 0 w)
  /\ PlanGenerator.generatePlan rt Sample.gemini (Sample.answers Sample.null_phase_text)
       request context w
     = Throw (TypeError "Cannot read properties of null (reading 'id')") (bump 2 0 w).
Proof.
  assert (Hnorm : forall w0,
             PlanGenerator.normalisePlan rt (LLMService.Text Sample.null_phase_text)
               request context w0
             = Throw (TypeError "Cannot read properties of null (reading 'id')")
                     (bump 1 0 w0)).
  { intros w0. unfold PlanGenerator.normalisePlan.
    erewrite bind_ret; [| apply tryParsePlan_run].
    reflexivity. }
  split; [apply Hnorm |].
  unfold PlanGenerator.generatePlan.
  erewrite bind_ret; [| reflexivity].
  erewrite bind_ret; [| reflexivity].
  erewrite bind_throw; [| apply Hnorm].
  reflexivity.
Qed.

(** ** Fresh generation with the mock provider *)

Lemma mock_generatePlan (rt : Runtime) (svc : LLMService.t)
    (reply : LLMService.GeminiReply) (request : PlanRequest) (context : ProjectContext)
    (prompt : string) (w : Machine) :
  provider (LLMService.config svc) = "mock" ->
  LLMService.generatePlan rt svc reply request context prompt w
  = match LLMService.heuristicPlan rt request context w with
    | Ret p w' => Ret (LLMService.Structured p) w'
    | Throw e w' => Throw e w'
    end.
Proof.
  intros Hmock. unfold LLMService.generatePlan. rewrite Hmock.
  rewrite orb_true_r. reflexivity.
Qed.

(** C2 (amended). A fresh generation with the mock provider, no scanned
    file and the multi-phase mode returns the adapter's heuristic plan
    passed through the normaliser: one phase titled ['Fallback Plan'] with
    two steps.  The three phases Analysis & Discovery, Implementation and
    Validation & Verification are those of the normaliser's own fallback,
    which it returns for a text that does not parse to a plan; with no file
    the Analysis phase has no step and the other two have their one fixed
    step each. *)
Theorem mock_zero_files_generation (rt : Runtime) (svc : LLMService.t)
    (reply : LLMService.GeminiReply) (request : PlanRequest) (context : ProjectContext)
    (w : Machine) :
  provider (LLMService.config svc) = "mock" ->
  files context = [] ->
  mode request = phase_mode ->
  (exists doc w',
     PlanGenerator.generatePlan rt svc reply request context w = Ret doc w'
     /\ View.titles doc = [VStr "Fallback Plan"]
     /\ View.step_counts doc = [2])
  /\ (forall raw, parsed_plan (LLMService.Text raw) = None ->
      exists doc,
        PlanGenerator.normalisePlan rt (LLMService.Text raw) request context w
        = Ret doc (bump 1 0 w)
        /\ View.titles doc = [VStr "Analysis & Discovery"; VStr "Implementation";
                              VStr "Validation & Verification"]
        /\ View.step_counts doc = [0; 1; 1]).
Proof.
  intros Hmock Hfiles Hmode. split.
  - unfold PlanGenerator.generatePlan.
    erewrite bind_ret; [| reflexivity].
    erewrite bind_ret; [| rewrite mock_generatePlan by exact Hmock; reflexivity].
    unfold PlanGenerator.normalisePlan, bind, ret. cbn.
    match goal with
    | |- context [Str.is_empty ?stamp] => destruct (Str.is_empty stamp)
    end; cbn; do 2 eexists; (split; [reflexivity |]); split; reflexivity.
  - intros raw Hraw. rewrite normalisePlan_unparsed by exact Hraw.
    eexists. split; [reflexivity |].
    unfold View.titles, View.step_counts, View.phases, fallback_phases.
    rewrite Hfiles, Hmode. split; reflexivity.
Qed.

Lemma mock_zero_files_generation_witness :
  (exists doc w',
     PlanGenerator.generatePlan Sample.rt Sample.mock LLMService.NoCandidates
       Sample.request Sample.empty_workspace Sample.start = Ret doc w'
     /\ View.titles doc = [VStr "Fallback Plan"]
     /\ View.step_counts doc = [2])
  /\ (forall raw, parsed_plan (LLMService.Text raw) = None ->
      exists doc,
        PlanGenerator.normalisePlan Sample.rt (LLMService.Text raw)
          Sample.request Sample.empty_workspace Sample.start
        = Ret doc (bump 1 0 Sample.start)
        /\ View.titles doc = [VStr "Analysis & Discovery"; VStr "Implementation";
                              VStr "Validation & Verification"]
        /\ View.step_counts doc = [0; 1; 1]).
Proof.
  apply (mock_zero_files_generation Sample.rt Sample.mock LLMService.NoCandidates
           Sample.request Sample.empty_workspace Sample.start); reflexivity.
Defined.

(** C2, as stated, fails: with the mock provider, no scanned file and the
    multi-phase mode, the plan generated does not have the three phases
    Analysis & Discovery, Implementation, Validation & Verification with at
    least two steps in the first. *)
Lemma mock_zero_files_not_three_phases :
  ~ (exists doc w',
       PlanGenerator.generatePlan Sample.rt Sample.mock LLMService.NoCandidates
         Sample.request Sample.empty_workspace Sample.start = Ret doc w'
       /\ View.titles doc = [VStr "Analysis & Discovery"; VStr "Implementation";
                             VStr "Validation & Verification"]
       /\ exists n, nth_error (View.step_counts doc) 0 = Some n /\ 2 <= n).
Proof.
  intros (doc & w' & Hrun & Htitles & _).
  vm_compute in Hrun. injection Hrun as Hdoc _. subst doc.
  vm_compute in Htitles. discriminate.
Qed.

(** ** Canonical fields *)

Lemma fallback_repairable (request : PlanRequest) (context : ProjectContext) :
  repairable (VArr (fallback_phases request context)) = true.
Proof.
  simpl. apply forallb_forall. intros v Hin.
  apply shape_repairable.
  destruct (fallback_phases_shape request context) as [_ Hall].
  rewrite Forall_forall in Hall. apply Hall. exact Hin.
Qed.

Lemma mode_text_truthy (m : PlanMode) : truthy (VStr (mode_text m)) = true.
Proof. destruct m; reflexivity. Qed.

(** C4 (amended). When a parsed backend object is canonicalised and its
    phases can be repaired, [normalisePlan] returns; a [task], [mode] or
    [summary] that is missing (or falsy) is replaced by the request's task,
    the request's mode and the context's summary, so the mode of the output
    is never undefined; a [generatedAt] that is missing (or falsy) is
    replaced by a clock reading taken during normalisation, and one that is
    present and truthy is kept as it is, without validation. *)
Theorem canonical_fields_default (rt : Runtime) (response : LLMService.Response)
    (request : PlanRequest) (context : ProjectContext) (p : obj) (w : Machine) :
  parsed_plan response = Some p ->
  lacks_phases p = true \/ repairable (field (VObj p) "phases") = true ->
  exists doc w',
    PlanGenerator.normalisePlan rt response request context w = Ret doc w'
    /\ field (VObj doc) "task" = or_else (field (VObj p) "task") (VStr (task request))
    /\ field (VObj doc) "mode"
       = or_else (field (VObj p) "mode") (VStr (mode_text (mode request)))
    /\ field (VObj doc) "summary"
       = or_else (field (VObj p) "summary") (VStr (summary context))
    /\ (lookup "task" p = None -> field (VObj doc) "task" = VStr (task request))
    /\ (lookup "mode" p = None -> field (VObj doc) "mode" = VStr (mode_text (mode request)))
    /\ (lookup "summary" p = None -> field (VObj doc) "summary" = VStr (summary context))
    /\ truthy (field (VObj doc) "mode") = true
    /\ (truthy (field (VObj p) "generatedAt") = true ->
        field (VObj doc) "generatedAt" = field (VObj p) "generatedAt")
    /\ (truthy (field (VObj p) "generatedAt") = false ->
        exists n, ticks w <= n < ticks w'
                  /\ field (VObj doc) "generatedAt" = VStr (clock rt n)).
Proof.
  intros Hparsed Hphases.
  assert (Hrep : repairable (if lacks_phases p
                             then VArr (fallback_phases request context)
                             else field (VObj p) "phases") = true).
  { destruct (lacks_phases p).
    - apply fallback_repairable.
    - destruct Hphases as [H | H]; [discriminate | exact H]. }
  destruct (normalisePlan_parsed rt response request context p w Hparsed Hrep)
    as (phases & k & Hrun & _).
  match type of Hrun with
  | _ = Ret ?d ?m => set (doc := d) in *; set (w' := m) in *
  end.
  exists doc, w'. split; [exact Hrun |].
  assert (Hmissing : forall key, lookup key p = None -> field (VObj p) key = VUndefined).
  { intros key Hkey. simpl. rewrite Hkey. reflexivity. }
  assert (Htask : field (VObj doc) "task"
                  = or_else (field (VObj p) "task") (VStr (task request))) by reflexivity.
  assert (Hmode : field (VObj doc) "mode"
                  = or_else (field (VObj p) "mode") (VStr (mode_text (mode request))))
    by reflexivity.
  assert (Hsummary : field (VObj doc) "summary"
                     = or_else (field (VObj p) "summary") (VStr (summary context)))
    by reflexivity.
  assert (Hgen : field (VObj doc) "generatedAt"
                 = if truthy (field (VObj p) "generatedAt")
                   then field (VObj p) "generatedAt"
                   else VStr (clock rt (ticks (if lacks_phases p then bump 1 0 w else w))))
    by reflexivity.
  rewrite Htask, Hmode, Hsummary, Hgen. clear Htask Hmode Hsummary Hgen.
  split; [reflexivity |]. split; [reflexivity |]. split; [reflexivity |].
  split; [intros H; rewrite (Hmissing _ H); reflexivity |].
  split; [intros H; rewrite (Hmissing _ H); reflexivity |].
  split; [intros H; rewrite (Hmissing _ H); reflexivity |].
  split.
  { unfold or_else. destruct (truthy (field (VObj p) "mode")) eqn:E;
      [exact E | apply mode_text_truthy]. }
  split.
  { intros H. rewrite H. reflexivity. }
  intros H. rewrite H.
  exists (ticks (if lacks_phases p then bump 1 0 w else w)).
  split; [| reflexivity].
  unfold w'. rewrite H. destruct (lacks_phases p); simpl; lia.
Qed.

Lemma stale_plan_parses :
  exists p, parsed_plan (LLMService.Text Sample.stale_plan_text) = Some p
            /\ lookup "mode" p = None
            /\ repairable (field (VObj p) "phases") = true.
Proof. eexists. vm_compute. repeat split; reflexivity. Qed.

Lemma canonical_fields_default_witness :
  exists doc w',
    PlanGenerator.normalisePlan Sample.rt (LLMService.Text Sample.stale_plan_text)
      Sample.request Sample.empty_workspace Sample.start = Ret doc w'
    /\ field (VObj doc) "mode" = VStr "phase"
    /\ field (VObj doc) "generatedAt" = VStr "yesterday".
Proof.
  destruct stale_plan_parses as (p & Hp & Hmode & Hrep).
  destruct (canonical_fields_default Sample.rt (LLMService.Text Sample.stale_plan_text)
              Sample.request Sample.empty_workspace p Sample.start Hp (or_intror Hrep))
    as (doc & w' & Hrun & _ & _ & _ & _ & Hm & _ & _ & Hkept & _).
  exists doc, w'. split; [exact Hrun |]. split; [exact (Hm Hmode) |].
  rewrite Hkept.
  - vm_compute in Hp. injection Hp as <-. reflexivity.
  - vm_compute in Hp. injection Hp as <-. reflexivity.
Defined.

(** C4, as stated, fails: a [generatedAt] that the source corrupted is
    kept, so the output's [generatedAt] is not always a valid timestamp. *)
Lemma corrupted_generatedAt_is_kept :
  exists doc w',
    PlanGenerator.normalisePlan Sample.rt (LLMService.Text Sample.stale_plan_text)
      Sample.request Sample.empty_workspace Sample.start = Ret doc w'
    /\ field (VObj doc) "generatedAt" = VStr "yesterday"
    /\ is_timestamp (field (VObj doc) "generatedAt") = false.
Proof. run_concrete. split; reflexivity. Qed.

(** ** Idempotence of repair *)

Lemma is_string_not_nullish (v : value) : is_string v = true -> nullish v = false.
Proof. destruct v; simpl; intros H; try discriminate; reflexivity. Qed.

Lemma is_string_coalesce (v d : value) : is_string v = true -> coalesce v d = v.
Proof. intros H. unfold coalesce. rewrite (is_string_not_nullish v H). reflexivity. Qed.

Lemma well_formed_step_repair (rt : Runtime) (s : value) (w : Machine) :
  well_formed_step s = true ->
  PlanGenerator.ensureStepStructure rt s w = Ret (repaired_step rt w s) w
  /\ View.step (repaired_step rt w s) = View.step s.
Proof.
  intros Hwf. unfold well_formed_step in Hwf.
  destruct s as [| | | | | | o]; try discriminate.
  repeat (apply andb_true_iff in Hwf as [Hwf ?]).
  rename Hwf into Hid.
  assert (Hrefs : coalesce (field (VObj o) "references") (VArr [])
                  = field (VObj o) "references").
  { destruct (field (VObj o) "references"); try discriminate; reflexivity. }
  split.
  - rewrite ensureStepStructure_run by reflexivity.
    rewrite (is_string_not_nullish _ Hid). rewrite bump_0_0. reflexivity.
  - unfold View.step, repaired_step.
    rewrite (is_string_not_nullish _ Hid).
    rewrite Hrefs. rewrite !is_string_coalesce by assumption.
    reflexivity.
Qed.

Lemma well_formed_steps_repair (rt : Runtime) (l : list value) (w : Machine) :
  forallb well_formed_step l = true ->
  exists vs, mapM (PlanGenerator.ensureStepStructure rt) l w = Ret vs w
             /\ map View.step vs = map View.step l.
Proof.
  induction l as [| s l IH]; intros Hall.
  - exists []. split; reflexivity.
  - simpl in Hall. apply andb_true_iff in Hall as [Hs Hl].
    destruct (well_formed_step_repair rt s w Hs) as [Hrun Hview].
    destruct (IH Hl) as (vs & Hrun' & Hviews).
    exists (repaired_step rt w s :: vs). split.
    + simpl. rewrite (bind_ret _ _ _ _ _ Hrun). rewrite (bind_ret _ _ _ _ _ Hrun').
      reflexivity.
    + simpl. rewrite Hview, Hviews. reflexivity.
Qed.

Lemma well_formed_phase_repair (rt : Runtime) (p : value) (w : Machine) :
  well_formed_phase p = true ->
  exists v, PlanGenerator.ensurePhaseStructure rt p w = Ret v w
            /\ View.phase v = View.phase p.
Proof.
  intros Hwf. unfold well_formed_phase in Hwf.
  destruct p as [| | | | | | o]; try discriminate.
  repeat (apply andb_true_iff in Hwf as [Hwf ?]).
  rename Hwf into Hid.
  destruct (field (VObj o) "steps") as [| | | | | l |] eqn:Hsteps; try discriminate.
  destruct (well_formed_steps_repair rt l w) as (vs & Hrun & Hviews); [assumption |].
  unfold PlanGenerator.ensurePhaseStructure.
  rewrite (bind_ret _ _ _ _ _ (get_run (VObj o) "id" w eq_refl)).
  rewrite (is_string_not_nullish _ Hid).
  unfold bind at 1. unfold ret at 1.
  rewrite (bind_ret _ _ _ _ _ (get_run (VObj o) "title" w eq_refl)).
  rewrite (bind_ret _ _ _ _ _ (get_run (VObj o) "summary" w eq_refl)).
  rewrite (bind_ret _ _ _ _ _ (get_run (VObj o) "steps" w eq_refl)).
  rewrite Hsteps. unfold coalesce at 1. simpl nullish. cbv iota.
  unfold array_map.
  erewrite bind_ret; [| erewrite bind_ret; [reflexivity | exact Hrun]].
  eexists. split; [reflexivity |].
  unfold View.phase. f_equal.
  - etransitivity; [| apply is_string_coalesce; eassumption]. reflexivity.
  - etransitivity; [| apply is_string_coalesce; eassumption]. reflexivity.
  - rewrite Hsteps. exact Hviews.
Qed.

Lemma well_formed_phases_repair (rt : Runtime) (l : list value) (w : Machine) :
  forallb well_formed_phase l = true ->
  exists vs, mapM (PlanGenerator.ensurePhaseStructure rt) l w = Ret vs w
             /\ map View.phase vs = map View.phase l.
Proof.
  induction l as [| p l IH]; intros Hall.
  - exists []. split; reflexivity.
  - simpl in Hall. apply andb_true_iff in Hall as [Hp Hl].
    destruct (well_formed_phase_repair rt p w Hp) as (v & Hrun & Hview).
    destruct (IH Hl) as (vs & Hrun' & Hviews).
    exists (v :: vs). split.
    + simpl. rewrite (bind_ret _ _ _ _ _ Hrun). rewrite (bind_ret _ _ _ _ _ Hrun').
      reflexivity.
    + simpl. rewrite Hview, Hviews. reflexivity.
Qed.

Lemma well_formed_step_repairable (l : list value) :
  forallb well_formed_step l = true -> forallb (fun s => negb (nullish s)) l = true.
Proof.
  intros H. apply forallb_forall. intros s Hin.
  rewrite forallb_forall in H. specialize (H s Hin).
  destruct s; try discriminate; reflexivity.
Qed.

Lemma well_formed_phase_repairable (l : list value) :
  forallb well_formed_phase l = true -> forallb repairable_phase l = true.
Proof.
  intros H. apply forallb_forall. intros p Hin.
  rewrite forallb_forall in H. specialize (H p Hin).
  unfold well_formed_phase in H. destruct p as [| | | | | | o]; try discriminate.
  repeat (apply andb_true_iff in H as [H ?]).
  unfold repairable_phase.
  destruct (field (VObj o) "steps") as [| | | | | l' |] eqn:Hsteps; try discriminate.
  simpl. apply well_formed_step_repairable. assumption.
Qed.

(** C6. Normalising a well-formed plan document, given as the backend's
    object or as a text that parses to it, returns a document with the same
    phases: every phase and every step keeps its id, its title and its
    other fields, and no fresh identifier is drawn. *)
Theorem well_formed_phases_are_kept (rt : Runtime) (response : LLMService.Response)
    (request : PlanRequest) (context : ProjectContext) (d : obj) (w : Machine) :
  parsed_plan response = Some d ->
  well_formed d = true ->
  exists doc w',
    PlanGenerator.normalisePlan rt response request context w = Ret doc w'
    /\ View.phases doc = View.phases d
    /\ draws w' = draws w.
Proof.
  intros Hparsed Hwf. unfold well_formed in Hwf.
  repeat (apply andb_true_iff in Hwf as [Hwf ?]).
  destruct (field (VObj d) "phases") as [| | | | | l |] eqn:Hphases; try discriminate.
  destruct l as [| p ps]; [discriminate |].
  assert (Hlack : lacks_phases d = false).
  { unfold lacks_phases. rewrite Hphases. reflexivity. }
  assert (Hall : forallb well_formed_phase (p :: ps) = true) by assumption.
  pose proof (normalisePlan_parsed rt response request context d w Hparsed) as Hnorm.
  rewrite Hlack, Hphases in Hnorm. cbv zeta in Hnorm.
  destruct (Hnorm (well_formed_phase_repairable _ Hall))
    as (phases & k & Hrun & Hmap & _).
  cbn [elements] in Hmap.
  destruct (well_formed_phases_repair rt (p :: ps)
              (bump (if truthy (field (VObj d) "generatedAt") then 0 else 1) 0 w) Hall)
    as (vs & Hrun' & Hviews).
  rewrite Hrun' in Hmap. injection Hmap as Hvs Hw.
  do 2 eexists. split; [exact Hrun |]. split.
  - unfold View.phases. rewrite Hphases.
    cbn [field lookup String.eqb Ascii.eqb Bool.eqb elements].
    rewrite <- Hvs. exact Hviews.
  - simpl. simpl in Hw. lia.
Qed.

Lemma sound_plan_parses :
  exists d, parsed_plan (LLMService.Text Sample.sound_plan_text) = Some d
            /\ well_formed d = true
            /\ View.titles d = [VStr "Build"].
Proof. eexists. vm_compute. repeat split; reflexivity. Qed.

Lemma well_formed_phases_are_kept_witness :
  exists d doc w',
    parsed_plan (LLMService.Text Sample.sound_plan_text) = Some d
    /\ PlanGenerator.normalisePlan Sample.rt (LLMService.Text Sample.sound_plan_text)
         Sample.request Sample.four_files Sample.start = Ret doc w'
    /\ View.phases doc = View.phases d
    /\ draws w' = draws Sample.start.
Proof.
  destruct sound_plan_parses as (d & Hd & Hwf & _).
  destruct (well_formed_phases_are_kept Sample.rt
              (LLMService.Text Sample.sound_plan_text)
              Sample.request Sample.four_files d Sample.start Hd Hwf)
    as (doc & w' & Hrun & Hphases & Hdraws).
  exists d, doc, w'. repeat split; assumption.
Defined.

(** ** Strings *)

Lemma append_nil_r (s : string) : s ++ "" = s.
Proof. induction s as [| c s IH]; simpl; [reflexivity | rewrite IH; reflexivity]. Qed.

Lemma append_assoc (a b c : string) : (a ++ b) ++ c = a ++ b ++ c.
Proof. induction a as [| x a IH]; simpl; [reflexivity | rewrite IH; reflexivity]. Qed.

Lemma length_append (a b : string) :
  String.length (a ++ b) = String.length a + String.length b.
Proof. induction a as [| x a IH]; simpl; [reflexivity | rewrite IH; reflexivity]. Qed.

Lemma append_inv_head (a b c : string) : a ++ b = a ++ c -> b = c.
Proof.
  induction a as [| x a IH]; simpl; intros H; [exact H |].
  injection H as H. apply IH. exact H.
Qed.

Lemma append_inv_tail (a b c : string) : a ++ c = b ++ c -> a = b.
Proof.
  revert b. induction a as [| x a IH]; intros [| y b] H; simpl in H.
  - reflexivity.
  - exfalso. apply (f_equal String.length) in H. simpl in H.
    rewrite length_append in H. lia.
  - exfalso. apply (f_equal String.length) in H. simpl in H.
    rewrite length_append in H. lia.
  - injection H as -> H. f_equal. apply IH. exact H.
Qed.

Lemma take_append (a b : string) : Str.take (String.length a) (a ++ b) = a.
Proof. induction a as [| x a IH]; simpl; [destruct b | rewrite IH]; reflexivity. Qed.

Lemma starts_with_append (p a b : string) :
  Str.starts_with p a = true -> Str.starts_with p (a ++ b) = true.
Proof.
  revert a. induction p as [| x p IH]; intros a H; [reflexivity |].
  destruct a as [| y a]; [discriminate |].
  simpl in *. apply andb_true_iff in H as [Hxy Hp].
  rewrite Hxy. simpl. apply IH. exact Hp.
Qed.

Lemma starts_with_longer (p q s : string) :
  Str.starts_with (p ++ q) s = true -> Str.starts_with p s = true.
Proof.
  revert s. induction p as [| x p IH]; intros s H; [reflexivity |].
  destruct s as [| y s]; [discriminate |].
  simpl in *. apply andb_true_iff in H as [Hxy Hp].
  rewrite Hxy. simpl. apply IH. exact Hp.
Qed.

Lemma index_of_tail (p : string) (c : ascii) (s : string) :
  Str.index_of p (String c s) = None ->
  Str.starts_with p (String c s) = false /\ Str.index_of p s = None.
Proof.
  cbn [Str.index_of]. destruct (Str.starts_with p (String c s)); [discriminate |].
  destruct (Str.index_of p s); [discriminate |]. intros _. split; reflexivity.
Qed.

Lemma index_of_cons_none (p : string) (c : ascii) (s : string) :
  Str.starts_with p (String c s) = false -> Str.index_of p s = None ->
  Str.index_of p (String c s) = None.
Proof. intros H1 H2. cbn [Str.index_of]. rewrite H1, H2. reflexivity. Qed.

(** A pattern that does not occur in a string does not occur in a prefix of
    it, nor does a longer pattern occur where the pattern does not. *)
Lemma index_of_prefix_none (p a b : string) :
  p <> "" -> Str.index_of p (a ++ b) = None -> Str.index_of p a = None.
Proof.
  intros Hp. induction a as [| c a IH]; intros H.
  - destruct p; [contradiction | reflexivity].
  - simpl append in H. apply index_of_tail in H as [Hs Hi].
    apply index_of_cons_none; [| apply IH; exact Hi].
    destruct (Str.starts_with p (String c a)) eqn:E; [| reflexivity].
    apply (starts_with_append p (String c a) b) in E. simpl append in E. congruence.
Qed.

Lemma index_of_longer_none (p q s : string) :
  p <> "" -> Str.index_of p s = None -> Str.index_of (p ++ q) s = None.
Proof.
  intros Hp. induction s as [| c s IH]; intros H.
  - destruct p; [contradiction | reflexivity].
  - apply index_of_tail in H as [Hs Hi].
    apply index_of_cons_none; [| apply IH; exact Hi].
    destruct (Str.starts_with (p ++ q) (String c s)) eqn:E; [| reflexivity].
    apply starts_with_longer in E. congruence.
Qed.

Lemma split_fuel_none (fuel : nat) (sep s : string) :
  Str.index_of sep s = None -> Str.split_fuel fuel sep s = [s].
Proof. intros H. destruct fuel; simpl; [| rewrite H]; reflexivity. Qed.

(** ** Trimming *)

Lemma trim_start_eq (s : string) :
  Str.trim_start s = match Str.space_prefix s with
                     | Some r => Str.trim_start r
                     | None => s
                     end.
Proof.
  destruct s as [| a [| b [| c r3]]]; cbn [Str.trim_start Str.space_prefix]; try reflexivity.
  - destruct (Str.is_space a); reflexivity.
  - destruct (Str.is_space a); [reflexivity |].
    destruct (Str.is_wide_space (Str.bytes2 a b)); reflexivity.
  - destruct (Str.is_space a); [reflexivity |].
    destruct (Str.is_wide_space (Str.bytes2 a b)); [reflexivity |].
    destruct (Str.is_wide_space (Str.bytes3 a b c)); reflexivity.
Qed.

(** A white-space character is one, two or three bytes of the string. *)
Lemma space_prefix_split (s r : string) :
  Str.space_prefix s = Some r ->
  exists p, s = p ++ r /\ 0 < String.length p.
Proof.
  destruct s as [| a [| b [| c r3]]]; cbn [Str.space_prefix]; try discriminate.
  - destruct (Str.is_space a); [| discriminate].
    intros H. injection H as <-. exists (String a ""). split; [reflexivity | cbn; lia].
  - destruct (Str.is_space a).
    { intros H. injection H as <-. exists (String a ""). split; [reflexivity | cbn; lia]. }
    destruct (Str.is_wide_space (Str.bytes2 a b)); [| discriminate].
    intros H. injection H as <-. exists (Str.bytes2 a b). split; [reflexivity | cbn; lia].
  - destruct (Str.is_space a).
    { intros H. injection H as <-. exists (String a ""). split; [reflexivity | cbn; lia]. }
    destruct (Str.is_wide_space (Str.bytes2 a b)).
    { intros H. injection H as <-. exists (Str.bytes2 a b). split; [reflexivity | cbn; lia]. }
    destruct (Str.is_wide_space (Str.bytes3 a b c)); [| discriminate].
    intros H. injection H as <-. exists (Str.bytes3 a b c). split; [reflexivity | cbn; lia].
Qed.

(** Induction on the white-space characters that a string begins with. *)
Lemma trim_start_ind (P : string -> Prop) :
  (forall s, Str.space_prefix s = None -> P s) ->
  (forall s r, Str.space_prefix s = Some r -> P r -> P s) ->
  forall s, P s.
Proof.
  intros Hstop Hstep s.
  remember (String.length s) as n eqn:Hn.
  revert s Hn. induction n as [n IH] using lt_wf_ind. intros s Hn.
  destruct (Str.space_prefix s) as [r |] eqn:Hs.
  - apply (Hstep s r Hs).
    destruct (space_prefix_split s r Hs) as (p & Hsplit & Hp).
    apply (IH (String.length r)); [| reflexivity].
    rewrite Hn, Hsplit, length_append. lia.
  - apply Hstop. exact Hs.
Qed.

Lemma trim_start_suffix (s : string) : exists p, s = p ++ Str.trim_start s.
Proof.
  induction s as [s Hs | s r Hs (p & IH)] using trim_start_ind.
  - exists "". rewrite trim_start_eq, Hs. reflexivity.
  - destruct (space_prefix_split s r Hs) as (p0 & Hsplit & _).
    exists (p0 ++ p). rewrite trim_start_eq, Hs, append_assoc, <- IH. exact Hsplit.
Qed.

Lemma trim_end_prefix (s : string) : exists t, s = Str.trim_end s ++ t.
Proof.
  induction s as [| c s (t & IH)].
  - exists "". reflexivity.
  - cbn [Str.trim_end]. destruct (Str.blank (String c s)).
    + exists (String c s). reflexivity.
    + exists t. cbn [append]. rewrite <- IH. reflexivity.
Qed.

Lemma index_of_suffix_none (p a b : string) :
  Str.index_of p (a ++ b) = None -> Str.index_of p b = None.
Proof.
  induction a as [| c a IH]; intros H; [exact H |].
  apply IH. apply (index_of_tail p c (a ++ b) H).
Qed.

Lemma trim_start_none (p s : string) :
  Str.index_of p s = None -> Str.index_of p (Str.trim_start s) = None.
Proof.
  intros H. destruct (trim_start_suffix s) as (q & Hq). rewrite Hq in H.
  apply (index_of_suffix_none p q _ H).
Qed.

Lemma trim_none (p s : string) :
  p <> "" -> Str.index_of p s = None -> Str.index_of p (Str.trim s) = None.
Proof.
  intros Hp H. unfold Str.trim. apply trim_start_none.
  destruct (trim_end_prefix s) as (t & Ht). rewrite Ht in H.
  apply (index_of_prefix_none p _ t Hp H).
Qed.

(** The bytes of a white-space character outside ASCII are outside ASCII. *)
Lemma wide_space_last2 (a q : ascii) :
  nat_of_ascii q < 128 -> Str.is_wide_space (Str.bytes2 a q) = false.
Proof.
  intros Hq. destruct (Str.is_wide_space (Str.bytes2 a q)) eqn:H; [| reflexivity].
  exfalso. unfold Str.is_wide_space in H.
  apply existsb_exists in H as (x & Hin & Heq). apply String.eqb_eq in Heq. subst x.
  cbn [Str.wide_spaces In] in Hin. unfold Str.bytes2, Str.bytes3 in Hin.
  repeat (destruct Hin as [Hin | Hin]; [try discriminate Hin |]); try contradiction.
  injection Hin as <- <-. cbn in Hq. lia.
Qed.

Lemma wide_space_last3 (a b q : ascii) :
  nat_of_ascii q < 128 -> Str.is_wide_space (Str.bytes3 a b q) = false.
Proof.
  intros Hq. destruct (Str.is_wide_space (Str.bytes3 a b q)) eqn:H; [| reflexivity].
  exfalso. unfold Str.is_wide_space in H.
  apply existsb_exists in H as (x & Hin & Heq). apply String.eqb_eq in Heq. subst x.
  cbn [Str.wide_spaces In] in Hin. unfold Str.bytes2, Str.bytes3 in Hin.
  repeat (destruct Hin as [Hin | Hin];
          [try discriminate Hin; try (injection Hin as <- <- <-; cbn in Hq; lia) |]).
  contradiction.
Qed.

Lemma is_space_low (c : ascii) : Str.is_space c = true -> nat_of_ascii c < 128.
Proof.
  unfold Str.is_space. intros H. apply orb_true_iff in H as [H | H].
  - apply Nat.eqb_eq in H. lia.
  - apply andb_true_iff in H as [_ H]. apply Nat.leb_le in H. lia.
Qed.

Lemma space_prefix_append (t r u : string) :
  Str.space_prefix t = Some r -> Str.space_prefix (t ++ u) = Some (r ++ u).
Proof.
  destruct t as [| a [| b [| c r3]]]; cbn [Str.space_prefix append]; try discriminate.
  - destruct (Str.is_space a); [| discriminate].
    intros H. injection H as <-. reflexivity.
  - destruct (Str.is_space a); [intros H; injection H as <-; reflexivity |].
    destruct (Str.is_wide_space (Str.bytes2 a b)); [| discriminate].
    intros H. injection H as <-. reflexivity.
  - destruct (Str.is_space a); [intros H; injection H as <-; reflexivity |].
    destruct (Str.is_wide_space (Str.bytes2 a b)); [intros H; injection H as <-; reflexivity |].
    destruct (Str.is_wide_space (Str.bytes3 a b c)); [| discriminate].
    intros H. injection H as <-. reflexivity.
Qed.

Lemma space_prefix_snoc_none (t : string) (q : ascii) :
  Str.space_prefix t = None -> t <> "" -> nat_of_ascii q < 128 ->
  Str.space_prefix (t ++ String q "") = None.
Proof.
  intros Ht Hne Hq.
  destruct t as [| a [| b [| c r3]]]; [contradiction | | |];
    cbn [Str.space_prefix append] in Ht |- *.
  - destruct (Str.is_space a); [discriminate |].
    rewrite (wide_space_last2 a q Hq). reflexivity.
  - destruct (Str.is_space a); [discriminate |].
    destruct (Str.is_wide_space (Str.bytes2 a b)); [discriminate |].
    rewrite (wide_space_last3 a b q Hq). reflexivity.
  - destruct (Str.is_space a); [discriminate |].
    destruct (Str.is_wide_space (Str.bytes2 a b)); [discriminate |].
    destruct (Str.is_wide_space (Str.bytes3 a b c)); [discriminate | reflexivity].
Qed.

Lemma blank_snoc (t : string) (q : ascii) :
  nat_of_ascii q < 128 ->
  Str.blank (t ++ String q "") = Str.blank t && Str.is_space q.
Proof.
  intros Hq. induction t as [t Ht | t r Ht IH] using trim_start_ind.
  - destruct t as [| a t'].
    + unfold Str.blank. cbn [append Str.trim_start andb].
      destruct (Str.is_space q); reflexivity.
    + unfold Str.blank.
      rewrite (trim_start_eq (String a t' ++ String q "")).
      rewrite (space_prefix_snoc_none (String a t') q Ht ltac:(discriminate) Hq).
      rewrite (trim_start_eq (String a t')), Ht. reflexivity.
  - unfold Str.blank in *.
    rewrite (trim_start_eq (t ++ String q "")), (space_prefix_append t r _ Ht).
    rewrite (trim_start_eq t), Ht. exact IH.
Qed.

Lemma trim_end_snoc (x : string) (q : ascii) :
  nat_of_ascii q < 128 ->
  Str.trim_end (x ++ String q "")
  = if Str.is_space q then Str.trim_end x else x ++ String q "".
Proof.
  intros Hq. induction x as [| d x IH].
  - cbn [append Str.trim_end].
    change (String q "") with ("" ++ String q "") at 1.
    rewrite (blank_snoc "" q Hq). unfold Str.blank. cbn [Str.trim_start andb].
    destruct (Str.is_space q); reflexivity.
  - cbn [append Str.trim_end].
    change (String d (x ++ String q "")) with (String d x ++ String q "").
    rewrite (blank_snoc (String d x) q Hq), IH.
    destruct (Str.is_space q); [rewrite andb_true_r; reflexivity |].
    rewrite andb_false_r. reflexivity.
Qed.

Lemma blank_trim_end (s : string) : Str.blank s = true -> Str.trim_end s = "".
Proof. destruct s as [| c s]; [reflexivity |]. cbn [Str.trim_end]. intros ->. reflexivity. Qed.

Lemma trim_cons_space (s : string) (c : ascii) :
  Str.is_space c = true -> Str.trim (String c s) = Str.trim s.
Proof.
  intros Hc. unfold Str.trim. cbn [Str.trim_end].
  assert (Hblank : Str.blank (String c s) = Str.blank s).
  { unfold Str.blank. cbn [Str.trim_start]. rewrite Hc. reflexivity. }
  rewrite Hblank. destruct (Str.blank s) eqn:E.
  - rewrite (blank_trim_end s E). reflexivity.
  - cbn [Str.trim_start]. rewrite Hc. reflexivity.
Qed.

Lemma trim_snoc_space (s : string) (c : ascii) :
  Str.is_space c = true -> Str.trim (s ++ String c "") = Str.trim s.
Proof.
  intros Hc. unfold Str.trim.
  rewrite (trim_end_snoc s c (is_space_low c Hc)), Hc. reflexivity.
Qed.

(** ** Code fences *)

Lemma fence_before_newline (b t : string) :
  Str.starts_with "```" (b ++ String "010"%char t) = Str.starts_with "```" b.
Proof.
  destruct b as [| a [| a1 [| a2 b]]]; cbn [append Str.starts_with];
    repeat match goal with
           | |- context [Ascii.eqb "`"%char ?x] =>
               is_var x; destruct (Ascii.eqb "`"%char x)
           end; reflexivity.
Qed.

Lemma closing_fence_index (body : string) :
  Str.index_of "```" body = None ->
  Str.index_of "```" (body ++ String "010"%char "```") = Some (String.length body + 1).
Proof.
  induction body as [| c body IH]; intros H; [reflexivity |].
  apply index_of_tail in H as [Hs Hi].
  simpl append. cbn [Str.index_of].
  change (String c (body ++ String "010"%char "```"))
    with (String c body ++ String "010"%char "```").
  rewrite fence_before_newline, Hs. rewrite (IH Hi). reflexivity.
Qed.

Lemma no_tagged_fence_inside (body : string) :
  Str.index_of "```" body = None ->
  Str.index_of "```json" (body ++ String "010"%char "```") = None.
Proof.
  induction body as [| c body IH]; intros H; [reflexivity |].
  apply index_of_tail in H as [Hs Hi].
  simpl append. apply index_of_cons_none; [| apply IH; exact Hi].
  destruct (Str.starts_with "```json" (String c (body ++ String "010"%char "```"))) eqn:E;
    [| reflexivity].
  apply (starts_with_longer "```" "json") in E.
  change (String c (body ++ String "010"%char "```"))
    with (String c body ++ String "010"%char "```") in E.
  rewrite fence_before_newline in E. congruence.
Qed.

Lemma index_of_empty (sep : string) : sep <> "" -> Str.index_of sep "" = None.
Proof. destruct sep; [contradiction | reflexivity]. Qed.

Lemma drop_all (n : nat) : Str.drop n "" = "".
Proof. destruct n; reflexivity. Qed.

(** The first two pieces of a split. *)
Lemma split_piece_0 (sep s : string) :
  sep <> "" ->
  Str.piece 0 (Str.split sep s)
  = match Str.index_of sep s with Some i => Str.take i s | None => s end.
Proof.
  intros Hsep. unfold Str.split. destruct s as [| c s].
  - rewrite (index_of_empty sep Hsep). reflexivity.
  - cbn [String.length Str.split_fuel].
    destruct (Str.index_of sep (String c s)); reflexivity.
Qed.

Lemma split_piece_1 (sep s : string) (i : nat) :
  sep <> "" ->
  Str.index_of sep s = Some i ->
  Str.piece 1 (Str.split sep s)
  = let rest := Str.drop (i + String.length sep) s in
    match Str.index_of sep rest with Some j => Str.take j rest | None => rest end.
Proof.
  intros Hsep Hi. unfold Str.split. destruct s as [| c s].
  - rewrite (index_of_empty sep Hsep) in Hi. discriminate.
  - cbn [String.length Str.split_fuel]. rewrite Hi. cbn [Str.piece nth].
    destruct s as [| c' s].
    + cbn [String.length Str.split_fuel nth]. cbv zeta.
      assert (Hrest : Str.drop (i + String.length sep) (String c "") = "").
      { destruct sep as [| x sep]; [contradiction |].
        simpl String.length. rewrite Nat.add_succ_r. simpl. apply drop_all. }
      rewrite Hrest. rewrite (index_of_empty sep Hsep). reflexivity.
    + cbn [String.length Str.split_fuel]. cbv zeta.
      destruct (Str.index_of sep (Str.drop (i + String.length sep) (String c (String c' s))));
        reflexivity.
Qed.

Lemma closing_fence_take (body : string) :
  Str.index_of "```" body = None ->
  let rest := String "010"%char (body ++ String "010"%char "```") in
  match Str.index_of "```" rest with Some j => Str.take j rest | None => rest end
  = String "010"%char (body ++ String "010"%char "").
Proof.
  intros H rest. unfold rest. cbn [Str.index_of].
  change (Str.starts_with "```" (String "010"%char _)) with false.
  cbv iota. rewrite (closing_fence_index body H). cbn [option_map].
  replace (S (String.length body + 1))
    with (String.length (String "010"%char (body ++ String "010"%char ""))).
  - change (String "010"%char (body ++ String "010"%char "```"))
      with (String "010"%char (body ++ (String "010"%char "" ++ "```"))).
    rewrite <- (append_assoc body (String "010"%char "") "```").
    change (String "010"%char ((body ++ String "010"%char "") ++ "```"))
      with (String "010"%char (body ++ String "010"%char "") ++ "```").
    apply take_append.
  - simpl. rewrite length_append. simpl. lia.
Qed.

Lemma trim_between_fences (body : string) :
  Str.trim (String "010"%char (body ++ String "010"%char "")) = Str.trim body.
Proof.
  rewrite trim_cons_space by reflexivity. apply trim_snoc_space. reflexivity.
Qed.

Lemma trim_fenced (tag body : string) :
  Str.trim (fenced tag body) = fenced tag body.
Proof.
  unfold Str.trim, fenced.
  replace ("```" ++ tag ++ Str.LF ++ body ++ Str.LF ++ "```")
    with (("```" ++ tag ++ Str.LF ++ body ++ Str.LF ++ "``") ++ String "`"%char "").
  - rewrite trim_end_snoc by (cbn; lia). reflexivity.
  - rewrite !append_assoc. reflexivity.
Qed.

Lemma strip_fences_bare (body : string) :
  Str.index_of "```" body = None ->
  LLMService.strip_fences (Str.trim body) = Str.trim body.
Proof.
  intros H. unfold LLMService.strip_fences, Str.includes.
  assert (Hfence : Str.index_of "```" (Str.trim body) = None)
    by (apply trim_none; [discriminate | exact H]).
  assert (Htag : Str.index_of "```json" (Str.trim body) = None)
    by (apply (index_of_longer_none "```" "json"); [discriminate | exact Hfence]).
  rewrite Htag, Hfence. reflexivity.
Qed.

Lemma strip_fences_tagged (body : string) :
  Str.index_of "```" body = None ->
  LLMService.strip_fences (fenced "json" body) = Str.trim body.
Proof.
  intros H. unfold LLMService.strip_fences, fenced.
  change (Str.includes "```json" ("```" ++ "json" ++ Str.LF ++ body ++ Str.LF ++ "```"))
    with true. cbv iota.
  rewrite (split_piece_1 "```json" _ 0) by (discriminate || reflexivity).
  change (Str.drop (0 + String.length "```json")
            ("```" ++ "json" ++ Str.LF ++ body ++ Str.LF ++ "```"))
    with (String "010"%char (body ++ String "010"%char "```")).
  cbv zeta.
  assert (Htag : Str.index_of "```json"
                   (String "010"%char (body ++ String "010"%char "```")) = None).
  { apply index_of_cons_none; [reflexivity |]. apply no_tagged_fence_inside. exact H. }
  rewrite Htag. rewrite split_piece_0 by discriminate.
  rewrite (closing_fence_take body H). apply trim_between_fences.
Qed.

Lemma strip_fences_untagged (body : string) :
  Str.index_of "```" body = None ->
  LLMService.strip_fences (fenced "" body) = Str.trim body.
Proof.
  intros H. unfold LLMService.strip_fences, fenced, Str.includes.
  assert (Htag : Str.index_of "```json"
                   ("```" ++ "" ++ Str.LF ++ body ++ Str.LF ++ "```") = None).
  { cbn [append].
    repeat (apply index_of_cons_none; [reflexivity |]).
    apply no_tagged_fence_inside. exact H. }
  rewrite Htag.
  change (Str.index_of "```" ("```" ++ "" ++ Str.LF ++ body ++ Str.LF ++ "```"))
    with (Some 0).
  cbv iota.
  rewrite (split_piece_1 "```" _ 0) by (discriminate || reflexivity).
  change (Str.drop (0 + String.length "```")
            ("```" ++ "" ++ Str.LF ++ body ++ Str.LF ++ "```"))
    with (String "010"%char (body ++ String "010"%char "```")).
  cbv zeta.
  rewrite (closing_fence_take body H). apply trim_between_fences.
Qed.

Lemma includes_false (sep s : string) :
  Str.includes sep s = false -> Str.index_of sep s = None.
Proof. unfold Str.includes. destruct (Str.index_of sep s); [discriminate | reflexivity]. Qed.

Lemma sendMessage_fenced (svc : LLMService.t) (finishReason : option string)
    (tag body prompt : string) (w : Machine) :
  tag = "json" \/ tag = "" ->
  Str.index_of "```" body = None ->
  LLMService.sendMessage svc (LLMService.Candidate finishReason (Some (fenced tag body)))
    prompt w
  = LLMService.sendMessage svc (LLMService.Candidate finishReason (Some body)) prompt w.
Proof.
  intros Htag H. unfold LLMService.sendMessage.
  destruct (LLMService.session_ready svc) eqn:Hready; [| reflexivity]. cbn [negb].
  unfold try_catch, LLMService.structured_text.
  destruct (LLMService.blocked finishReason); [reflexivity |].
  rewrite trim_fenced.
  assert (Hstrip : LLMService.strip_fences (fenced tag body) = Str.trim body).
  { destruct Htag as [-> | ->];
      [apply strip_fences_tagged | apply strip_fences_untagged]; exact H. }
  rewrite Hstrip, (strip_fences_bare body H).
  change (Str.is_empty (fenced tag body)) with false. cbv iota.
  destruct (Str.trim body) as [| c t] eqn:Htrim; reflexivity.
Qed.

Lemma adapter_generatePlan_fenced (rt : Runtime) (svc : LLMService.t)
    (finishReason : option string) (request : PlanRequest) (context : ProjectContext)
    (tag body prompt : string) (w : Machine) :
  tag = "json" \/ tag = "" ->
  Str.index_of "```" body = None ->
  LLMService.generatePlan rt svc
    (LLMService.Candidate finishReason (Some (fenced tag body))) request context prompt w
  = LLMService.generatePlan rt svc
      (LLMService.Candidate finishReason (Some body)) request context prompt w.
Proof.
  intros Htag H. unfold LLMService.generatePlan.
  destruct (LLMService.no_key (apiKey (LLMService.config svc))
            || String.eqb (provider (LLMService.config svc)) "mock"); [reflexivity |].
  destruct (String.eqb (provider (LLMService.config svc)) "openai"); [reflexivity |].
  destruct (String.eqb (provider (LLMService.config svc)) "anthropic"); [reflexivity |].
  destruct (String.eqb (provider (LLMService.config svc)) "gemini"); [| reflexivity].
  unfold try_catch, bind.
  rewrite (sendMessage_fenced svc finishReason tag body prompt w Htag H). reflexivity.
Qed.

(** A fenced text is not JSON: [tryParsePlan] does not parse it. *)
Lemma fenced_text_unparsed (tag body : string) :
  parsed_plan (LLMService.Text (fenced tag body)) = None.
Proof.
  unfold parsed_plan, Json.parse.
  replace (2 * String.length (fenced tag body) + 2)
    with (S (2 * String.length (fenced tag body) + 1)) by lia.
  reflexivity.
Qed.

(** C3 (amended). The Gemini adapter, before it parses the model's text,
    cuts out what stands between the first [```json] marker and the next
    [```] marker, or else between the first two [```] markers.  So a
    backend text made of a plan wrapped in a pair of fences, tagged [json]
    or not, and the same plan bare give the same document, provided the
    plan's own text holds no [```] marker.  The normaliser itself strips
    nothing: a fenced text that reaches [tryParsePlan] is not parsed. *)
Theorem fenced_and_bare_alike (rt : Runtime) (svc : LLMService.t)
    (finishReason : option string) (request : PlanRequest) (context : ProjectContext)
    (tag body : string) (w : Machine) :
  tag = "json" \/ tag = "" ->
  Str.includes "```" body = false ->
  PlanGenerator.generatePlan rt svc
    (LLMService.Candidate finishReason (Some (fenced tag body))) request context w
  = PlanGenerator.generatePlan rt svc
      (LLMService.Candidate finishReason (Some body)) request context w
  /\ PlanGenerator.tryParsePlan (fenced tag body) w = Ret None w.
Proof.
  intros Htag H. apply includes_false in H. split.
  - unfold PlanGenerator.generatePlan.
    unfold bind at 1. unfold bind at 3.
    unfold PlanGenerator.buildPlanPrompt at 1 2. unfold bind at 1. unfold bind at 3.
    rewrite now_run. unfold ret at 1. unfold ret at 3. cbv beta iota.
    unfold bind at 1. unfold bind at 3.
    rewrite (adapter_generatePlan_fenced rt svc finishReason request context tag body _ _
               Htag H).
    reflexivity.
  - rewrite tryParsePlan_run, fenced_text_unparsed. reflexivity.
Qed.

Lemma fenced_and_bare_alike_witness :
  Str.includes "```" Sample.sound_plan_text = false
  /\ PlanGenerator.generatePlan Sample.rt Sample.gemini
       (Sample.answers (fenced "json" Sample.sound_plan_text))
       Sample.request Sample.empty_workspace Sample.start
     = PlanGenerator.generatePlan Sample.rt Sample.gemini
         (Sample.answers Sample.sound_plan_text)
         Sample.request Sample.empty_workspace Sample.start.
Proof.
  split; [reflexivity |].
  apply (fenced_and_bare_alike Sample.rt Sample.gemini (Some "STOP")
           Sample.request Sample.empty_workspace "json" Sample.sound_plan_text Sample.start).
  - left. reflexivity.
  - reflexivity.
Defined.

(** C3, as stated, fails: a plan object whose task quotes a fenced snippet
    is a valid plan, yet wrapped in [```json] fences it ends as the
    adapter's heuristic plan and bare it ends as the normaliser's fallback
    plan.  And the normaliser, given a fenced plan and the same plan bare,
    returns its fallback for the first and the plan for the second. *)
Lemma fence_inside_plan_is_cut :
  (exists p, parsed_plan (LLMService.Text Sample.fence_in_task_text) = Some p
             /\ View.titles p = [VStr "Write"])
  /\ (exists doc w',
        PlanGenerator.generatePlan Sample.rt Sample.gemini
          (Sample.answers (fenced "json" Sample.fence_in_task_text))
          Sample.request Sample.empty_workspace Sample.start = Ret doc w'
        /\ View.titles doc = [VStr "Fallback Plan"])
  /\ (exists doc w',
        PlanGenerator.generatePlan Sample.rt Sample.gemini
          (Sample.answers Sample.fence_in_task_text)
          Sample.request Sample.empty_workspace Sample.start = Ret doc w'
        /\ View.titles doc = [VStr "Analysis & Discovery"; VStr "Implementation";
                              VStr "Validation & Verification"])
  /\ (exists doc w',
        PlanGenerator.normalisePlan Sample.rt
          (LLMService.Text (fenced "json" Sample.sound_plan_text))
          Sample.request Sample.empty_workspace Sample.start = Ret doc w'
        /\ View.titles doc = [VStr "Analysis & Discovery"; VStr "Implementation";
                              VStr "Validation & Verification"])
  /\ (exists doc w',
        PlanGenerator.normalisePlan Sample.rt (LLMService.Text Sample.sound_plan_text)
          Sample.request Sample.empty_workspace Sample.start = Ret doc w'
        /\ View.titles doc = [VStr "Build"]).
Proof.
  split; [| split; [| split; [| split]]].
  - eexists. split; reflexivity.
  - run_concrete. reflexivity.
  - run_concrete. reflexivity.
  - run_concrete. reflexivity.
  - run_concrete. reflexivity.
Qed.

(** ** Conversions to a primitive value *)

Lemma ToString_run (rt : Runtime) (v : value) (w : Machine) :
  printable v = true -> ToString rt v w = Ret (to_string rt v) w.
Proof. intros H. unfold ToString. rewrite H. reflexivity. Qed.

Lemma ToString_throw (rt : Runtime) (v : value) (w : Machine) :
  printable v = false -> ToString rt v w = Throw unprintable w.
Proof. intros H. unfold ToString. rewrite H. reflexivity. Qed.

Lemma greater_run (rt : Runtime) (v : value) (k : Z) (w : Machine) :
  printable v = true -> greater rt v k w = Ret (gt rt v k) w.
Proof. intros H. unfold greater. rewrite H. reflexivity. Qed.

Lemma greater_throw (rt : Runtime) (v : value) (k : Z) (w : Machine) :
  printable v = false -> greater rt v k w = Throw unprintable w.
Proof. intros H. unfold greater. rewrite H. reflexivity. Qed.

Lemma array_join_run (rt : Runtime) (sep : string) (items : list value) (w : Machine) :
  joinable items = true -> array_join rt sep items w = Ret (Js.join rt sep items) w.
Proof. intros H. unfold array_join. rewrite H. reflexivity. Qed.

Lemma array_join_throw (rt : Runtime) (sep : string) (items : list value) (w : Machine) :
  joinable items = false -> array_join rt sep items w = Throw unprintable w.
Proof. intros H. unfold array_join. rewrite H. reflexivity. Qed.

Lemma strings_joinable (l : list string) : joinable (map VStr l) = true.
Proof. induction l as [| x l IH]; [reflexivity | exact IH]. Qed.

Lemma join_strings (rt : Runtime) (sep : string) (l : list string) :
  Js.join rt sep (map VStr l) = Str.join sep l.
Proof. unfold Js.join. rewrite map_map. cbn [nullish to_string]. rewrite map_id. reflexivity. Qed.

(** ** A failed modification *)

Lemma sendMessage_unparseable (svc : LLMService.t) (finishReason : option string)
    (text prompt : string) (w : Machine) :
  unparseable text = true ->
  exists e,
    LLMService.sendMessage svc (LLMService.Candidate finishReason (Some text)) prompt w
    = Throw e w
    /\ (LLMService.session_ready svc = true ->
        e = Error "Failed to generate content with Gemini").
Proof.
  intros H. unfold LLMService.sendMessage.
  destruct (LLMService.session_ready svc).
  2: { eexists. split; [reflexivity | discriminate]. }
  cbn [negb]. exists (Error "Failed to generate content with Gemini").
  split; [| reflexivity].
  unfold try_catch, LLMService.structured_text.
  destruct (LLMService.blocked finishReason); [reflexivity |].
  destruct (Str.is_empty (Str.trim text)); [reflexivity |].
  unfold unparseable in H. cbv zeta in H.
  unfold LLMService.recover_json, try_catch, bind, JSON_parse.
  destruct (Json.parse (LLMService.strip_fences (Str.trim text))); [discriminate |].
  cbn [throw].
  destruct (Str.match_braces (LLMService.strip_fences (Str.trim text))) as [m |];
    [| reflexivity].
  destruct (Json.parse m); [discriminate | reflexivity].
Qed.

(** The line of a phase that can be described. *)
Lemma phase_line_run (rt : Runtime) (i : nat) (p : value) (w : Machine) :
  promptable_phase p = true ->
  SidebarProvider.phase_line rt i p w
  = Ret (VStr (Str.of_nat (i + 1) ++ ". " ++ to_string rt (field p "title") ++ ": "
               ++ to_string rt (field p "summary"))) w.
Proof.
  unfold promptable_phase. intros H.
  apply andb_true_iff in H as [H Hsummary]. apply andb_true_iff in H as [Hp Htitle].
  apply negb_true_iff in Hp.
  unfold SidebarProvider.phase_line.
  rewrite (bind_ret _ _ _ _ _ (get_run p "title" w Hp)).
  rewrite (bind_ret _ _ _ _ _ (ToString_run rt _ w Htitle)).
  rewrite (bind_ret _ _ _ _ _ (get_run p "summary" w Hp)).
  rewrite (bind_ret _ _ _ _ _ (ToString_run rt _ w Hsummary)).
  reflexivity.
Qed.

Lemma phase_lines_run (rt : Runtime) (l : list value) :
  forall (i : nat) (w : Machine),
  forallb promptable_phase l = true ->
  exists lines, mapiM (SidebarProvider.phase_line rt) i l w = Ret (map VStr lines) w.
Proof.
  induction l as [| p l IH]; intros i w Hall.
  - exists []. reflexivity.
  - cbn [forallb] in Hall. apply andb_true_iff in Hall as [Hp Hl].
    destruct (IH (S i) w Hl) as (lines & Hlines).
    cbn [mapiM]. rewrite (bind_ret _ _ _ _ _ (phase_line_run rt i p w Hp)).
    rewrite (bind_ret _ _ _ _ _ Hlines).
    eexists (_ :: lines). reflexivity.
Qed.

(** The prompt of [modifyPlan] is written when the current plan can be
    described. *)
Lemma modificationPrompt_run (rt : Runtime) (userMessage : string) (w : Machine) :
  nullish (currentPlan w) = false ->
  promptable (currentPlan w) = true ->
  exists prompt, SidebarProvider.modificationPrompt rt userMessage w = Ret prompt w.
Proof.
  intros Hnn Hprompt. unfold promptable in Hprompt.
  apply andb_true_iff in Hprompt as [Hsummary Hphases].
  unfold SidebarProvider.modificationPrompt, SidebarProvider.read.
  unfold bind at 1. cbv beta iota zeta. unfold bind at 1. cbv beta iota.
  rewrite (bind_ret _ _ _ _ _ (get_run _ "summary" w Hnn)).
  rewrite (bind_ret _ _ _ _ _ (ToString_run rt _ w Hsummary)).
  rewrite (bind_ret _ _ _ _ _ (get_run _ "phases" w Hnn)).
  destruct (field (currentPlan w) "phases") as [| | | | | l |]; try discriminate.
  destruct (phase_lines_run rt l 0 w Hphases) as (lines & Hlines).
  unfold array_mapi.
  erewrite bind_ret; [| erewrite bind_ret; [reflexivity | exact Hlines]].
  cbn [elements].
  rewrite (bind_ret _ _ _ _ _ (array_join_run rt _ _ w (strings_joinable lines))).
  eexists. reflexivity.
Qed.

Lemma modifyPlan_unparseable (rt : Runtime) (svc : LLMService.t)
    (finishReason : option string) (text userMessage : string) (w : Machine) :
  unparseable text = true ->
  truthy (currentPlan w) = true ->
  exists e,
    SidebarProvider.modifyPlan rt svc (LLMService.Candidate finishReason (Some text))
      userMessage w = Throw e w
    /\ (LLMService.session_ready svc = true -> promptable (currentPlan w) = true ->
        e = Error "Failed to generate content with Gemini").
Proof.
  intros Htext Hplan.
  assert (Hnn : nullish (currentPlan w) = false)
    by (destruct (currentPlan w); try discriminate; reflexivity).
  pose proof (keeps_modificationPrompt eq (@eq_refl Machine) (@eq_trans Machine)
                rt userMessage w) as Hkeeps.
  unfold SidebarProvider.modifyPlan. unfold bind at 1.
  destruct (SidebarProvider.modificationPrompt rt userMessage w) as [prompt w1 | e w1] eqn:Hrun;
    subst w1.
  - destruct (sendMessage_unparseable svc finishReason text prompt w Htext)
      as (e & He & Hmsg).
    exists e. split; [| intros Hready _; exact (Hmsg Hready)].
    apply bind_throw. exact He.
  - exists e. split; [reflexivity |].
    intros _ Hok. destruct (modificationPrompt_run rt userMessage w Hnn Hok) as (p & Hp).
    rewrite Hp in Hrun. discriminate.
Qed.

Lemma generateResponse_modification (rt : Runtime) (svc : LLMService.t)
    (reply : LLMService.GeminiReply) (userMessage : string) (preferredMode : PlanMode)
    (w : Machine) :
  SidebarProvider.isModification userMessage = true ->
  truthy (currentPlan w) = true ->
  SidebarProvider.generateResponse rt svc reply userMessage preferredMode w
  = SidebarProvider.modifyPlan rt svc reply userMessage w.
Proof.
  intros Hmod Hplan. unfold SidebarProvider.generateResponse, SidebarProvider.read.
  unfold bind at 1. rewrite Hmod, Hplan. reflexivity.
Qed.

(** C7. On a modification request whose backend text yields no JSON, the
    error reaches the chat handler and is shown as one chat message
    beginning with the error mark: no fallback plan is made, the user's
    message and the error message are added to the conversation and posted
    to the view, and the current-plan slot keeps the plan it held.  The
    error shown is the adapter's when the session is ready, the workspace
    is known and the current plan can be described in the prompt. *)
Theorem failed_modification_leaves_plan (rt : Runtime) (svc : LLMService.t)
    (scan : option ProjectContext) (finishReason : option string)
    (text userMessage : string) (mode_ : option PlanMode) (w : Machine) :
  Str.is_empty (Str.trim userMessage) = false ->
  SidebarProvider.isModification userMessage = true ->
  truthy (currentPlan w) = true ->
  unparseable text = true ->
  exists e answer w',
    SidebarProvider.handleChatMessage rt svc scan
      (LLMService.Candidate finishReason (Some text)) userMessage mode_ w = Ret tt w'
    /\ currentPlan w' = currentPlan w
    /\ shows_error e answer
    /\ conversationHistory w'
       = (conversationHistory w ++ [user_message rt w userMessage; answer])%list
    /\ posted w'
       = (posted w
          ++ [PostAddMessage (user_message rt w userMessage); PostTyping true;
              PostAddMessage answer; PostTyping false])%list
    /\ (LLMService.session_ready svc = true ->
        promptable (currentPlan w) = true ->
        projectContext w <> None \/ scan <> None ->
        e = Error "Failed to generate content with Gemini").
Proof.
  intros Hblank Hmod Hplan Htext.
  assert (Hne : Str.is_empty userMessage = false).
  { destruct userMessage; [discriminate Hblank | reflexivity]. }
  unfold SidebarProvider.handleChatMessage. rewrite Hne, Hblank. cbn [orb].
  erewrite bind_ret; [| apply now_run]. cbv beta zeta.
  erewrite bind_ret; [| reflexivity].
  erewrite bind_ret; [| reflexivity].
  erewrite bind_ret; [| reflexivity].
  cbn [ticks draws conversationHistory currentPlan projectContext posted bump Nat.add].
  match goal with
  | |- context [bind _ _ ?m] => set (w1 := m)
  end.
  unfold bind at 1. unfold try_catch at 1.
  unfold bind at 1. unfold bind at 1. unfold SidebarProvider.read at 1.
  change (projectContext w1) with (projectContext w).
  assert (Hguarded : forall (w2 : Machine) (k : SidebarProvider.Reply -> M unit),
             currentPlan w2 = currentPlan w ->
             exists e,
               bind (SidebarProvider.generateResponse rt svc
                       (LLMService.Candidate finishReason (Some text)) userMessage
                       match mode_ with Some m => m | None => phase_mode end) k w2
               = Throw e w2
               /\ (LLMService.session_ready svc = true ->
                   promptable (currentPlan w) = true ->
                   e = Error "Failed to generate content with Gemini")).
  { intros w2 k Hsame.
    assert (Hplan2 : truthy (currentPlan w2) = true) by (rewrite Hsame; exact Hplan).
    destruct (modifyPlan_unparseable rt svc finishReason text userMessage w2 Htext Hplan2)
      as (e & He & Hmsg).
    exists e. split.
    - apply bind_throw.
      rewrite (generateResponse_modification rt svc _ userMessage _ w2 Hmod Hplan2).
      exact He.
    - rewrite Hsame in Hmsg. exact Hmsg. }
  destruct (projectContext w) as [c |] eqn:Hctx; [| destruct scan as [c |]].
  - unfold ret at 1.
    match goal with
    | |- context [bind (SidebarProvider.generateResponse _ _ _ _ _) ?k ?m] =>
        destruct (Hguarded m k eq_refl) as (e & He & Hmsg)
    end.
    rewrite He.
    exists e, {| msg_role := assistant; msg_content := "❌ Error: " ++ message e;
                 msg_timestamp := clock rt (S (ticks w)); msg_plan := VUndefined |}.
    eexists. split; [reflexivity |].
    cbn. split; [reflexivity |].
    split; [repeat split; reflexivity |].
    split; [rewrite <- app_assoc; reflexivity |].
    split; [rewrite <- !app_assoc; reflexivity |].
    intros Hready Hok _. exact (Hmsg Hready Hok).
  - cbn [SidebarProvider.analyzeWorkspace]. unfold bind at 1. unfold ret at 1.
    cbn [SidebarProvider.set_projectContext].
    match goal with
    | |- context [bind (SidebarProvider.generateResponse _ _ _ _ _) ?k ?m] =>
        destruct (Hguarded m k eq_refl) as (e & He & Hmsg)
    end.
    rewrite He.
    exists e, {| msg_role := assistant; msg_content := "❌ Error: " ++ message e;
                 msg_timestamp := clock rt (S (ticks w)); msg_plan := VUndefined |}.
    eexists. split; [reflexivity |].
    cbn. split; [reflexivity |].
    split; [repeat split; reflexivity |].
    split; [rewrite <- app_assoc; reflexivity |].
    split; [rewrite <- !app_assoc; reflexivity |].
    intros Hready Hok _. exact (Hmsg Hready Hok).
  - cbn [SidebarProvider.analyzeWorkspace]. unfold bind at 1. unfold throw at 1.
    exists (Error "Workspace not found. Open a folder or workspace before generating a plan."),
      {| msg_role := assistant;
         msg_content := "❌ Error: Workspace not found. Open a folder or workspace before generating a plan.";
         msg_timestamp := clock rt (S (ticks w)); msg_plan := VUndefined |}.
    eexists. split; [reflexivity |].
    cbn. split; [reflexivity |].
    split; [repeat split; reflexivity |].
    split; [rewrite <- app_assoc; reflexivity |].
    split; [rewrite <- !app_assoc; reflexivity |].
    intros _ _ [H | H]; contradiction.
Qed.

Lemma failed_modification_leaves_plan_witness :
  exists w',
    SidebarProvider.handleChatMessage Sample.rt Sample.gemini None
      (Sample.answers "I cannot help with that.") "Please update the plan" None
      Sample.with_plan = Ret tt w'
    /\ currentPlan w' = currentPlan Sample.with_plan
    /\ map msg_content (conversationHistory w')
       = ["Please update the plan"; "❌ Error: Failed to generate content with Gemini"].
Proof.
  assert (Hblank : Str.is_empty (Str.trim "Please update the plan") = false)
    by (vm_compute; reflexivity).
  assert (Hmod : SidebarProvider.isModification "Please update the plan" = true)
    by (vm_compute; reflexivity).
  assert (Htext : unparseable "I cannot help with that." = true)
    by (vm_compute; reflexivity).
  assert (Hplan0 : truthy (currentPlan Sample.with_plan) = true) by reflexivity.
  pose proof (failed_modification_leaves_plan Sample.rt Sample.gemini None (Some "STOP")
                "I cannot help with that." "Please update the plan" None Sample.with_plan
                Hblank Hmod Hplan0 Htext) as H.
  destruct H as (e & answer & w' & Hrun & Hplan & (_ & Hcontent & _) & Hhistory & _ & Hmessage).
  exists w'. split; [exact Hrun |]. split; [exact Hplan |].
  rewrite Hhistory.
  assert (He : e = Error "Failed to generate content with Gemini").
  { apply Hmessage; [reflexivity | reflexivity | left; discriminate]. }
  subst e. change (conversationHistory Sample.with_plan) with (@nil ChatMessage).
  cbn [app map msg_content user_message]. rewrite Hcontent. reflexivity.
Defined.

(** ** The prompt *)

Lemma buildPlanPrompt_run (rt : Runtime) (request : PlanRequest) (context : ProjectContext)
    (fs : list ScannedFile) (w : Machine) :
  PlanGenerator.buildPlanPrompt rt request context fs w
  = Ret (PlanGenerator.prompt_before request context fs ++ clock rt (ticks w)
         ++ PlanGenerator.prompt_after) (bump 1 0 w).
Proof. reflexivity. Qed.

Lemma between_equal_iff (before after a b : string) :
  before ++ a ++ after = before ++ b ++ after <-> a = b.
Proof.
  split; [| intros ->; reflexivity].
  intros H. apply append_inv_head in H. apply append_inv_tail in H. exact H.
Qed.

(** C8 (amended). The prompt is a function of the request, the context,
    the capped file list and the clock reading taken when it is built, and
    building it has no other effect than that reading: two invocations on
    the same inputs return the same prompt exactly when they read the same
    time, the reading being written into the prompt as [generatedAt]. *)
Theorem prompt_determined_by_inputs_and_clock (rt : Runtime) (request : PlanRequest)
    (context : ProjectContext) (fs : list ScannedFile) (w1 w2 : Machine) :
  exists p1 p2,
    PlanGenerator.buildPlanPrompt rt request context fs w1 = Ret p1 (bump 1 0 w1)
    /\ PlanGenerator.buildPlanPrompt rt request context fs w2 = Ret p2 (bump 1 0 w2)
    /\ (p1 = p2 <-> clock rt (ticks w1) = clock rt (ticks w2)).
Proof.
  do 2 eexists. split; [apply buildPlanPrompt_run |].
  split; [apply buildPlanPrompt_run |]. apply between_equal_iff.
Qed.

(** C8, as stated, fails: two invocations of the prompt builder on the same
    request and context, one after the other, return different prompts. *)
Lemma two_prompts_differ :
  exists p1 w1 p2 w2,
    PlanGenerator.buildPlanPrompt Sample.rt Sample.request Sample.four_files
      (files Sample.four_files) Sample.start = Ret p1 w1
    /\ PlanGenerator.buildPlanPrompt Sample.rt Sample.request Sample.four_files
         (files Sample.four_files) w1 = Ret p2 w2
    /\ p1 <> p2.
Proof.
  do 4 eexists. split; [apply buildPlanPrompt_run |].
  split; [apply buildPlanPrompt_run |].
  intros H. apply between_equal_iff in H. discriminate H.
Qed.

(** ** The Markdown export *)

Lemma gt_length (rt : Runtime) (n : nat) :
  gt rt (num_of_nat n) 0 = negb (n =? 0)%nat.
Proof. destruct n; reflexivity. Qed.

(** [throws_TypeError] closes a goal that says that a computation whose
    first step is known to throw a TypeError throws one. *)
Ltac throws_TypeError H :=
  rewrite (bind_throw _ _ _ _ _ H); eexists; split; reflexivity.

(** The lines of the references of a step. *)
Lemma reference_lines (rt : Runtime) (l : list value) (w : Machine) :
  if forallb printable l
  then mapM (fun ref => ref <- ToString rt ref ;; ret (VStr ("- " ++ ref))) l w
       = Ret (map VStr (map (fun ref => "- " ++ to_string rt ref) l)) w
  else exists e,
         mapM (fun ref => ref <- ToString rt ref ;; ret (VStr ("- " ++ ref))) l w
         = Throw e w
         /\ ename e = "TypeError".
Proof.
  induction l as [| r l IH]; [reflexivity |].
  cbn [forallb mapM map]. destruct (printable r) eqn:Hr; cbn [andb].
  - erewrite bind_ret;
      [| rewrite (bind_ret _ _ _ _ _ (ToString_run rt r w Hr)); reflexivity].
    destruct (forallb printable l).
    + rewrite (bind_ret _ _ _ _ _ IH). reflexivity.
    + destruct IH as (e & He & Hname). exists e. split; [| exact Hname].
      apply bind_throw. exact He.
  - exists unprintable. split; [| reflexivity].
    apply bind_throw. apply bind_throw. apply ToString_throw. exact Hr.
Qed.

(** The part of [step_markdown] that writes the references, before what
    follows it. *)
Lemma references_markdown (rt : Runtime) (B : Type) (md : string) (r : value)
    (k : string -> M B) (w : Machine) :
  nullish r = false ->
  let run := (count <- get r "length" ;;
              some <- greater rt count 0 ;;
              md <- (if (some : bool) then
                       lines <- array_map "step.references" r
                                  (fun ref => ref <- ToString rt ref ;; ret (VStr ("- " ++ ref))) ;;
                       lines <- array_join rt Str.LF (elements lines) ;;
                       ret (md ++ "References:" ++ Str.LF ++ lines ++ Str.LF ++ Str.LF)
                     else ret md) ;;
              k md) in
  if printable (field r "length")
     && (negb (gt rt (field r "length") 0)
         || match r with VArr l => forallb printable l | _ => false end)
  then run w = k (md ++ render_references rt r) w
  else exists e, run w = Throw e w /\ ename e = "TypeError".
Proof.
  intros Hr run. unfold run.
  rewrite (bind_ret _ _ _ _ _ (get_run r "length" w Hr)).
  destruct (printable (field r "length")) eqn:Hlen; cbn [andb].
  2: { throws_TypeError (greater_throw rt _ 0 w Hlen). }
  rewrite (bind_ret _ _ _ _ _ (greater_run rt _ 0 w Hlen)).
  destruct (gt rt (field r "length") 0) eqn:Hgt; cbn [negb orb].
  - destruct r as [| | b | n | t | l | o]; try discriminate Hr;
      try (eexists; split; reflexivity).
    pose proof (reference_lines rt l w) as Hlines.
    unfold array_map. destruct (forallb printable l).
    + erewrite bind_ret;
        [reflexivity
        | erewrite bind_ret; [| erewrite bind_ret; [reflexivity | exact Hlines]];
          cbn [elements];
          rewrite (bind_ret _ _ _ _ _ (array_join_run rt _ _ w (strings_joinable _)));
          rewrite join_strings; unfold ret;
          destruct l as [| x l]; [discriminate Hgt | reflexivity]].
    + destruct Hlines as (e & He & Hname). exists e. split; [| exact Hname].
      apply bind_throw. apply bind_throw. apply bind_throw. exact He.
  - assert (Hnone : render_references rt r = "").
    { destruct r as [| | | | | l |]; try reflexivity.
      destruct l; [reflexivity | discriminate Hgt]. }
    rewrite Hnone, append_nil_r. reflexivity.
Qed.

Lemma step_markdown_outcome (rt : Runtime) (md : string) (s : value) (w : Machine) :
  if exportable_step rt s
  then PlanGenerator.step_markdown rt md s w = Ret (md ++ render_step rt (View.step s)) w
  else exists e, PlanGenerator.step_markdown rt md s w = Throw e w /\ ename e = "TypeError".
Proof.
  unfold exportable_step, PlanGenerator.step_markdown.
  destruct (nullish s) eqn:Hs; cbn [negb andb].
  { destruct (get_nullish s "title" w Hs) as (e & He & Hname).
    exists e. split; [| exact Hname]. apply bind_throw. exact He. }
  rewrite (bind_ret _ _ _ _ _ (get_run s "title" w Hs)).
  destruct (printable (field s "title")) eqn:Htitle; cbn [andb].
  2: { throws_TypeError (ToString_throw rt _ w Htitle). }
  rewrite (bind_ret _ _ _ _ _ (ToString_run rt _ w Htitle)). cbv zeta.
  rewrite (bind_ret _ _ _ _ _ (get_run s "description" w Hs)).
  destruct (printable (field s "description")) eqn:Hdescription; cbn [andb].
  2: { throws_TypeError (ToString_throw rt _ w Hdescription). }
  rewrite (bind_ret _ _ _ _ _ (ToString_run rt _ w Hdescription)).
  rewrite (bind_ret _ _ _ _ _ (get_run s "references" w Hs)).
  destruct (nullish (field s "references")) eqn:Hrefs; cbn [negb andb].
  { destruct (get_nullish _ "length" w Hrefs) as (e & He & Hname).
    exists e. split; [| exact Hname]. apply bind_throw. exact He. }
  pose proof (references_markdown rt string
                ((md ++ "### " ++ to_string rt (field s "title") ++ Str.LF)
                 ++ to_string rt (field s "description") ++ Str.LF ++ Str.LF)
                (field s "references")
                (fun md =>
                   reasoning <- get s "reasoning" ;;
                   if truthy reasoning then
                     reasoning <- ToString rt reasoning ;;
                     ret (md ++ "Reasoning: " ++ reasoning ++ Str.LF ++ Str.LF)
                   else ret md)
                w Hrefs) as Hreferences.
  cbv zeta in Hreferences.
  destruct (printable (field (field s "references") "length")
            && (negb (gt rt (field (field s "references") "length") 0)
                || match field s "references" with
                   | VArr l => forallb printable l
                   | _ => false
                   end)); cbn [andb].
  2: { exact Hreferences. }
  rewrite Hreferences.
  rewrite (bind_ret _ _ _ _ _ (get_run s "reasoning" w Hs)).
  unfold render_step. cbn [View.step View.step_title View.step_description
                             View.step_references View.step_reasoning].
  destruct (truthy (field s "reasoning")); cbn [negb orb].
  - destruct (printable (field s "reasoning")) eqn:Hreasoning.
    + rewrite (bind_ret _ _ _ _ _ (ToString_run rt _ w Hreasoning)). unfold ret.
      rewrite !append_assoc. reflexivity.
    + throws_TypeError (ToString_throw rt _ w Hreasoning).
  - unfold ret. rewrite !append_assoc, ?append_nil_r. reflexivity.
Qed.

Lemma steps_markdown_outcome (rt : Runtime) (l : list value) :
  forall (md : string) (w : Machine),
  if forallb (exportable_step rt) l
  then foldM (PlanGenerator.step_markdown rt) md l w
       = Ret (md ++ Str.concat (map (render_step rt) (map View.step l))) w
  else exists e, foldM (PlanGenerator.step_markdown rt) md l w = Throw e w
                 /\ ename e = "TypeError".
Proof.
  induction l as [| s l IH]; intros md w.
  - simpl. rewrite append_nil_r. reflexivity.
  - cbn [forallb foldM].
    pose proof (step_markdown_outcome rt md s w) as Hs.
    destruct (exportable_step rt s); cbn [andb].
    + rewrite (bind_ret _ _ _ _ _ Hs).
      specialize (IH (md ++ render_step rt (View.step s)) w).
      destruct (forallb (exportable_step rt) l).
      * rewrite IH. cbn [map Str.concat fold_right]. rewrite append_assoc. reflexivity.
      * exact IH.
    + destruct Hs as (e & He & Hname). exists e. split; [| exact Hname].
      apply bind_throw. exact He.
Qed.

(** A string in the place of the steps is iterated character by character,
    and a character has no references. *)
Lemma chars_markdown_throw (rt : Runtime) (md : string) (c : ascii) (t : string)
    (w : Machine) :
  exists e, foldM (PlanGenerator.step_markdown rt) md (chars (String c t)) w = Throw e w
            /\ ename e = "TypeError".
Proof. eexists. split; reflexivity. Qed.

Lemma phase_markdown_outcome (rt : Runtime) (md : string) (p : value) (w : Machine) :
  if exportable_phase rt p
  then PlanGenerator.phase_markdown rt md p w = Ret (md ++ render_phase rt (View.phase p)) w
  else exists e, PlanGenerator.phase_markdown rt md p w = Throw e w /\ ename e = "TypeError".
Proof.
  unfold exportable_phase, PlanGenerator.phase_markdown.
  destruct (nullish p) eqn:Hp; cbn [negb andb].
  { destruct (get_nullish p "title" w Hp) as (e & He & Hname).
    exists e. split; [| exact Hname]. apply bind_throw. exact He. }
  rewrite (bind_ret _ _ _ _ _ (get_run p "title" w Hp)).
  destruct (printable (field p "title")) eqn:Htitle; cbn [andb].
  2: { throws_TypeError (ToString_throw rt _ w Htitle). }
  rewrite (bind_ret _ _ _ _ _ (ToString_run rt _ w Htitle)).
  rewrite (bind_ret _ _ _ _ _ (get_run p "summary" w Hp)).
  destruct (printable (field p "summary")) eqn:Hsummary; cbn [andb].
  2: { throws_TypeError (ToString_throw rt _ w Hsummary). }
  rewrite (bind_ret _ _ _ _ _ (ToString_run rt _ w Hsummary)). cbv zeta.
  rewrite (bind_ret _ _ _ _ _ (get_run p "steps" w Hp)).
  unfold render_phase. cbn [View.phase View.phase_title View.phase_summary
                              View.phase_steps].
  set (head := md ++ "## " ++ to_string rt (field p "title") ++ Str.LF
               ++ to_string rt (field p "summary") ++ Str.LF ++ Str.LF).
  assert (Hhead : forall tail, head ++ tail
                  = md ++ "## " ++ to_string rt (field p "title") ++ Str.LF
                    ++ to_string rt (field p "summary") ++ Str.LF ++ Str.LF ++ tail).
  { intros tail. unfold head. rewrite !append_assoc. reflexivity. }
  rewrite <- Hhead. clearbody head. clear Hhead.
  destruct (nullish (field p "steps")) eqn:Hsteps; cbn [negb andb].
  { destruct (get_nullish _ "length" w Hsteps) as (e & He & Hname).
    exists e. split; [| exact Hname]. apply bind_throw. exact He. }
  rewrite (bind_ret _ _ _ _ _ (get_run _ "length" w Hsteps)).
  destruct (printable (field (field p "steps") "length")) eqn:Hlength; cbn [andb].
  2: { throws_TypeError (greater_throw rt _ 0 w Hlength). }
  rewrite (bind_ret _ _ _ _ _ (greater_run rt _ 0 w Hlength)).
  destruct (gt rt (field (field p "steps") "length") 0) eqn:Hgt; cbn [negb orb].
  - destruct (field p "steps") as [| | b | n | t | l | o];
      try discriminate Hsteps; try (eexists; split; reflexivity).
    + destruct t as [| c t]; [discriminate Hgt |].
      cbn [for_of]. apply chars_markdown_throw.
    + cbn [for_of elements].
      pose proof (steps_markdown_outcome rt l head w) as H.
      destruct (forallb (exportable_step rt) l); [rewrite H; reflexivity | exact H].
  - assert (Hnone : Str.concat (map (render_step rt) (map View.step (elements (field p "steps")))) = "").
    { destruct (field p "steps") as [| | b | n | t | l | o]; try reflexivity.
      destruct l; [reflexivity | discriminate Hgt]. }
    rewrite Hnone, append_nil_r. reflexivity.
Qed.

Lemma phases_markdown_outcome (rt : Runtime) (l : list value) :
  forall (md : string) (w : Machine),
  if forallb (exportable_phase rt) l
  then foldM (PlanGenerator.phase_markdown rt) md l w
       = Ret (md ++ Str.concat (map (render_phase rt) (map View.phase l))) w
  else exists e, foldM (PlanGenerator.phase_markdown rt) md l w = Throw e w
                 /\ ename e = "TypeError".
Proof.
  induction l as [| p l IH]; intros md w.
  - simpl. rewrite append_nil_r. reflexivity.
  - cbn [forallb foldM].
    pose proof (phase_markdown_outcome rt md p w) as Hp.
    destruct (exportable_phase rt p); cbn [andb].
    + rewrite (bind_ret _ _ _ _ _ Hp).
      specialize (IH (md ++ render_phase rt (View.phase p)) w).
      destruct (forallb (exportable_phase rt) l).
      * rewrite IH. cbn [map Str.concat fold_right]. rewrite append_assoc. reflexivity.
      * exact IH.
    + destruct Hp as (e & He & Hname). exists e. split; [| exact Hname].
      apply bind_throw. exact He.
Qed.

(** The two outcomes of [toMarkdown]. *)
Lemma toMarkdown_cases (rt : Runtime) (plan : obj) (w : Machine) :
  if exportable rt plan
  then PlanGenerator.toMarkdown rt (VObj plan) w = Ret (render_plan rt plan) w
  else exists e, PlanGenerator.toMarkdown rt (VObj plan) w = Throw e w
                 /\ ename e = "TypeError".
Proof.
  unfold exportable, PlanGenerator.toMarkdown.
  rewrite (bind_ret _ _ _ _ _ (get_run (VObj plan) "task" w eq_refl)).
  destruct (printable (field (VObj plan) "task")) eqn:Htask; cbn [andb].
  2: { throws_TypeError (ToString_throw rt _ w Htask). }
  rewrite (bind_ret _ _ _ _ _ (ToString_run rt _ w Htask)). cbv zeta.
  rewrite (bind_ret _ _ _ _ _ (get_run (VObj plan) "summary" w eq_refl)).
  unfold render_plan, View.phases.
  set (head := "# Implementation Plan: " ++ to_string rt (field (VObj plan) "task")
               ++ Str.LF ++ Str.LF).
  assert (Hhead : forall tail, head ++ tail
                  = "# Implementation Plan: " ++ to_string rt (field (VObj plan) "task")
                    ++ Str.LF ++ Str.LF ++ tail).
  { intros tail. unfold head. rewrite !append_assoc. reflexivity. }
  rewrite <- Hhead. clearbody head. clear Hhead.
  assert (Hrest : forall md,
            if match field (VObj plan) "phases" with
               | VArr l => forallb (exportable_phase rt) l
               | VStr s => Str.is_empty s
               | _ => false
               end
            then (phases <- get (VObj plan) "phases" ;;
                  for_of "plan.phases" phases (PlanGenerator.phase_markdown rt) md) w
                 = Ret (md ++ Str.concat
                               (map (render_phase rt)
                                  (map View.phase
                                     (elements (field (VObj plan) "phases"))))) w
            else exists e,
                   (phases <- get (VObj plan) "phases" ;;
                    for_of "plan.phases" phases (PlanGenerator.phase_markdown rt) md) w
                   = Throw e w
                   /\ ename e = "TypeError").
  { intros md.
    rewrite (bind_ret _ _ _ _ _ (get_run (VObj plan) "phases" w eq_refl)).
    destruct (field (VObj plan) "phases") as [| | b | n | t | l | o];
      try (eexists; split; reflexivity).
    - destruct t as [| c t]; cbn [Str.is_empty].
      + cbn. rewrite append_nil_r. reflexivity.
      + eexists. split; reflexivity.
    - cbn [for_of elements]. apply phases_markdown_outcome. }
  destruct (truthy (field (VObj plan) "summary")); cbn [negb orb].
  - destruct (printable (field (VObj plan) "summary")) eqn:Hsummary.
    + erewrite bind_ret;
        [| rewrite (bind_ret _ _ _ _ _ (ToString_run rt _ w Hsummary)); reflexivity].
      specialize (Hrest (head ++ "## Overview" ++ Str.LF
                         ++ to_string rt (field (VObj plan) "summary") ++ Str.LF ++ Str.LF)).
      destruct (match field (VObj plan) "phases" with
                | VArr l => forallb (exportable_phase rt) l
                | VStr s => Str.is_empty s
                | _ => false
                end); [| exact Hrest].
      cbv beta. cbn [andb]. rewrite Hrest. rewrite !append_assoc. reflexivity.
    + exists unprintable. split; [| reflexivity].
      apply bind_throw. apply bind_throw. apply ToString_throw. exact Hsummary.
  - specialize (Hrest head).
    destruct (match field (VObj plan) "phases" with
              | VArr l => forallb (exportable_phase rt) l
              | VStr s => Str.is_empty s
              | _ => false
              end); [| exact Hrest].
    cbn [andb]. unfold ret at 1. unfold bind at 1. rewrite Hrest. reflexivity.
Qed.

(** C9 (amended). Every plan document that [generatePlan] returns has its
    raw text defined.  When the normalised plan had none, the raw text is
    the Markdown rendering that [toMarkdown] computes: a heading with the
    task, an overview section with the summary when there is one, one
    section per phase with its title and summary, and one sub-section per
    step, not numbered, with its title, its description, a references list
    when the references are not empty and a reasoning line when there is a
    reasoning; the mode is not part of it.  Otherwise the raw text is the
    one the plan came with. *)
Theorem rawPlan_is_always_defined (rt : Runtime) (svc : LLMService.t)
    (reply : LLMService.GeminiReply) (request : PlanRequest) (context : ProjectContext)
    (w : Machine) (doc : obj) (w' : Machine) :
  PlanGenerator.generatePlan rt svc reply request context w = Ret doc w' ->
  nullish (field (VObj doc) "rawPlan") = false
  /\ exists prompt response w0 plan w1,
       LLMService.generatePlan rt svc reply request context prompt (bump 1 0 w)
       = Ret response w0
       /\ PlanGenerator.normalisePlan rt response request context w0 = Ret plan w1
       /\ (nullish (field (VObj plan) "rawPlan") = false -> doc = plan)
       /\ (nullish (field (VObj plan) "rawPlan") = true ->
           exists md,
             PlanGenerator.toMarkdown rt (VObj plan) w1 = Ret md w'
             /\ doc = set_field "rawPlan" (VStr md) plan
             /\ (renderable plan = true -> md = render_plan rt plan)).
Proof.
  intros Hrun. unfold PlanGenerator.generatePlan in Hrun.
  rewrite (bind_ret _ _ _ _ _ (buildPlanPrompt_run rt request context _ w)) in Hrun.
  unfold bind at 1 in Hrun.
  destruct (LLMService.generatePlan rt svc reply request context _ (bump 1 0 w))
    as [response w0 | e w0] eqn:Hresponse; [| discriminate].
  unfold bind at 1 in Hrun.
  destruct (PlanGenerator.normalisePlan rt response request context w0)
    as [plan w1 | e w1] eqn:Hplan; [| discriminate].
  destruct (nullish (field (VObj plan) "rawPlan")) eqn:Hraw.
  - unfold bind at 1 in Hrun.
    destruct (PlanGenerator.toMarkdown rt (VObj plan) w1) as [md w2 | e w2] eqn:Hmd;
      [| discriminate].
    injection Hrun as <- <-. split.
    + simpl. rewrite lookup_set_same. reflexivity.
    + do 5 eexists. split; [exact Hresponse |]. split; [exact Hplan |].
      split; [intros H; rewrite Hraw in H; discriminate |].
      intros _. exists md. split; [exact Hmd |]. split; [reflexivity |].
      intros _. pose proof (toMarkdown_cases rt plan w1) as Hcases.
      destruct (exportable rt plan).
      * rewrite Hcases in Hmd. injection Hmd as <- _. reflexivity.
      * destruct Hcases as (e & He & _). rewrite He in Hmd. discriminate Hmd.
  - injection Hrun as <- <-. split; [exact Hraw |].
    do 5 eexists. split; [exact Hresponse |]. split; [exact Hplan |].
    split; [reflexivity |]. intros H. rewrite Hraw in H. discriminate.
Qed.

Lemma rawPlan_is_always_defined_witness :
  exists doc w',
    PlanGenerator.generatePlan Sample.rt Sample.gemini
      (Sample.answers Sample.stale_plan_text)
      Sample.request Sample.empty_workspace Sample.start = Ret doc w'
    /\ nullish (field (VObj doc) "rawPlan") = false.
Proof.
  destruct (PlanGenerator.generatePlan Sample.rt Sample.gemini
              (Sample.answers Sample.stale_plan_text)
              Sample.request Sample.empty_workspace Sample.start)
    as [doc w' | e w'] eqn:Hrun.
  - exists doc, w'. split; [reflexivity |].
    apply (rawPlan_is_always_defined Sample.rt Sample.gemini
             (Sample.answers Sample.stale_plan_text)
             Sample.request Sample.empty_workspace Sample.start doc w' Hrun).
  - vm_compute in Hrun. discriminate Hrun.
Defined.

(** C9, as stated, fails: the raw text computed for a plan that came
    without one carries the task and the summary, but neither the mode nor
    any numbering of the steps. *)
Lemma markdown_without_mode_or_numbers :
  exists doc w',
    PlanGenerator.generatePlan Sample.rt Sample.gemini
      (Sample.answers Sample.stale_plan_text)
      Sample.request Sample.empty_workspace Sample.start = Ret doc w'
    /\ field (VObj doc) "mode" = VStr "phase"
    /\ field (VObj doc) "rawPlan"
       = VStr "# Implementation Plan: Ship it

## Overview
A single stage.

## Build
Build it.

### Edit
Edit the file.

References:
- src/a.ts

Reasoning: It is needed.

"
    /\ Str.includes "phase" (to_string Sample.rt (field (VObj doc) "rawPlan")) = false
    /\ Str.includes "1." (to_string Sample.rt (field (VObj doc) "rawPlan")) = false.
Proof. run_concrete. repeat split; reflexivity. Qed.

(* ===================================================================== *)
(** * Further properties of the code *)
(* ===================================================================== *)

(** ** The fallback synthesis *)

Lemma fallback_slices_cover (fs : list ScannedFile) :
  (PlanGenerator.analysisFiles fs ++ PlanGenerator.implementationFiles fs
     ++ PlanGenerator.verificationFiles fs)%list = fs.
Proof.
  unfold PlanGenerator.implementationFiles, PlanGenerator.verificationFiles,
    PlanGenerator.analysisFiles.
  rewrite slice_0. apply three_slices.
Qed.

Lemma indexed_references (make : nat * ScannedFile -> value) (fs : list ScannedFile) :
  (forall i f, elements (field (make (i, f)) "references") = [VStr (path f)]) ->
  forall k,
  flat_map (fun s => elements (field s "references"))
           (map make (combine (seq k (List.length fs)) fs))
  = map (fun f => VStr (path f)) fs.
Proof.
  intros Hmake. induction fs as [| f fs IH]; intros k; [reflexivity |].
  simpl. rewrite Hmake. simpl. f_equal. apply IH.
Qed.


Lemma file_steps_length (prefix verb why : string) (describe : string -> string)
    (fs : list ScannedFile) :
  List.length (PlanGenerator.file_steps prefix verb describe why fs) = List.length fs.
Proof.
  unfold PlanGenerator.file_steps.
  rewrite length_map, length_combine, length_seq. apply Nat.min_id.
Qed.

Lemma single_phase_steps (fs : list ScannedFile) :
  exists steps,
    field (PlanGenerator.createSinglePhase fs) "steps" = VArr steps
    /\ List.length steps = List.length fs + 1
    /\ flat_map (fun s => elements (field s "references")) steps
       = (map (fun f => VStr (path f)) fs ++ [VStr "package.json"])%list.
Proof.
  eexists. split; [reflexivity |]. split.
  - rewrite length_app, length_map, length_combine, length_seq, Nat.min_id. reflexivity.
  - rewrite flat_map_app. f_equal.
    apply indexed_references. reflexivity.
Qed.


(** X2. The fallback plan has the three phases Analysis & Discovery,
    Implementation and Validation & Verification in the multi-phase mode and
    the one phase Implementation otherwise; it has one step per capped file,
    and two more steps in the multi-phase mode, one more otherwise. *)
Theorem fallback_step_counts (rt : Runtime) (request : PlanRequest)
    (context : ProjectContext) (w : Machine) :
  let capped := PlanGenerator.slice 0 10 (files context) in
  exists doc,
    PlanGenerator.createFallbackPlan rt request context w = Ret doc (bump 1 0 w)
    /\ View.titles doc
       = (if is_phase (mode request)
          then [VStr "Analysis & Discovery"; VStr "Implementation";
                VStr "Validation & Verification"]
          else [VStr "Implementation"])
    /\ View.step_counts doc
       = (if is_phase (mode request)
          then [List.length (PlanGenerator.analysisFiles capped);
                List.length (PlanGenerator.implementationFiles capped) + 1;
                List.length (PlanGenerator.verificationFiles capped) + 1]
          else [List.length capped + 1])
    /\ step_total doc
       = Nat.min (List.length (files context)) 10
         + (if is_phase (mode request) then 2 else 1).
Proof.
  intros capped.
  eexists. split; [apply createFallbackPlan_run |].
  unfold step_total, View.titles, View.step_counts, View.phases.
  change (field (VObj _) "phases") with (VArr (fallback_phases request context)).
  cbn [elements]. unfold fallback_phases. fold capped.
  assert (Hlen : List.length capped = Nat.min (List.length (files context)) 10).
  { unfold capped. rewrite slice_0, length_firstn. apply Nat.min_comm. }
  destruct (is_phase (mode request)).
  - assert (Hcounts :
      map (fun p => List.length (View.phase_steps p))
          (map View.phase (PlanGenerator.createPhasedPlan capped))
      = [List.length (PlanGenerator.analysisFiles capped);
         List.length (PlanGenerator.implementationFiles capped) + 1;
         List.length (PlanGenerator.verificationFiles capped) + 1]).
    { unfold PlanGenerator.createPhasedPlan.
      cbn [map View.phase View.phase_steps field lookup elements String.eqb Ascii.eqb
           Bool.eqb].
      rewrite !length_map, !length_app, !file_steps_length. reflexivity. }
    split; [reflexivity |]. split; [exact Hcounts |].
    rewrite Hcounts. cbn [list_sum fold_right].
    rewrite <- Hlen. rewrite <- (fallback_slices_cover capped) at 4.
    rewrite !length_app. lia.
  - destruct (single_phase_steps capped) as (steps & Hsteps & Hcount & _).
    cbn [map View.phase View.phase_steps]. rewrite Hsteps. cbn [elements].
    rewrite length_map, Hcount.
    split; [reflexivity |]. split; [reflexivity |].
    cbn [list_sum fold_right]. lia.
Qed.

(** ** The outcome of the normaliser *)

(** X3. [normalisePlan] returns a document exactly when the response does
    not parse to a plan, or parses to a plan whose phases are absent, empty
    or repairable, and the document then has at least one phase, each with
    an array of steps; in every other case it throws a TypeError. *)
Theorem normalisePlan_outcome (rt : Runtime) (response : LLMService.Response)
    (request : PlanRequest) (context : ProjectContext) (w : Machine) :
  if normalisable response
  then exists doc w' phases,
         PlanGenerator.normalisePlan rt response request context w = Ret doc w'
         /\ field (VObj doc) "phases" = VArr phases
         /\ phases <> []
         /\ Forall repaired_phase_shape phases
  else exists e w',
         PlanGenerator.normalisePlan rt response request context w = Throw e w'
         /\ ename e = "TypeError".
Proof.
  unfold normalisable.
  destruct (parsed_plan response) as [p |] eqn:Hparsed.
  - destruct (lacks_phases p) eqn:Hlack; cbn [orb].
    + destruct (normalisePlan_parsed rt response request context p w Hparsed)
        as (phases & k & Hrun & _ & _ & Hne & Hshape).
      { rewrite Hlack. apply fallback_repairable. }
      do 3 eexists. split; [exact Hrun |]. split; [reflexivity |]. split; assumption.
    + destruct (repairable (field (VObj p) "phases")) eqn:Hrep.
      * destruct (normalisePlan_parsed rt response request context p w Hparsed)
          as (phases & k & Hrun & _ & _ & Hne & Hshape).
        { rewrite Hlack. exact Hrep. }
        do 3 eexists. split; [exact Hrun |]. split; [reflexivity |]. split; assumption.
      * apply (normalisePlan_throws rt response request context p w Hparsed Hlack Hrep).
  - rewrite (normalisePlan_unparsed rt response request context w Hparsed).
    destruct (fallback_phases_shape request context) as [Hne Hshape].
    do 3 eexists. split; [reflexivity |]. split; [reflexivity |]. split; assumption.
Qed.

Lemma file_steps_well_formed (prefix verb why : string) (describe : string -> string)
    (fs : list ScannedFile) :
  forallb well_formed_step (PlanGenerator.file_steps prefix verb describe why fs) = true.
Proof.
  apply forallb_forall. intros s Hin. unfold PlanGenerator.file_steps in Hin.
  apply in_map_iff in Hin as ([i f] & <- & _). reflexivity.
Qed.

Lemma fallback_phases_well_formed (request : PlanRequest) (context : ProjectContext) :
  forallb well_formed_phase (fallback_phases request context) = true.
Proof.
  unfold fallback_phases. destruct (is_phase (mode request)).
  - unfold PlanGenerator.createPhasedPlan.
    cbn [forallb well_formed_phase is_string field lookup String.eqb Ascii.eqb Bool.eqb
         andb].
    rewrite !forallb_app, !file_steps_well_formed. reflexivity.
  - unfold PlanGenerator.createSinglePhase.
    cbn [forallb well_formed_phase is_string field lookup String.eqb Ascii.eqb Bool.eqb
         andb].
    rewrite forallb_app. rewrite andb_true_r. apply andb_true_iff. split; [| reflexivity].
    apply forallb_forall. intros s Hin.
    apply in_map_iff in Hin as ([i f] & <- & _). reflexivity.
Qed.

(** X4. A parsed plan without phases, or with an empty list of phases, gets
    the phases of the fallback plan, which repair leaves as they are,
    drawing no UUID; its own task and summary are kept when it has them. *)
Theorem empty_phases_take_fallback (rt : Runtime) (response : LLMService.Response)
    (request : PlanRequest) (context : ProjectContext) (p : obj) (w : Machine) :
  parsed_plan response = Some p ->
  lacks_phases p = true ->
  exists doc w',
    PlanGenerator.normalisePlan rt response request context w = Ret doc w'
    /\ View.phases doc = map View.phase (fallback_phases request context)
    /\ draws w' = draws w
    /\ field (VObj doc) "task" = or_else (field (VObj p) "task") (VStr (task request))
    /\ field (VObj doc) "summary"
       = or_else (field (VObj p) "summary") (VStr (summary context)).
Proof.
  intros Hparsed Hlack.
  destruct (normalisePlan_parsed rt response request context p w Hparsed)
    as (phases & k & Hrun & Hmap & _).
  { rewrite Hlack. apply fallback_repairable. }
  rewrite Hlack in Hrun, Hmap. cbn [elements] in Hmap.
  destruct (well_formed_phases_repair rt (fallback_phases request context)
              (bump (if truthy (field (VObj p) "generatedAt") then 0 else 1) 0
                    (bump 1 0 w))
              (fallback_phases_well_formed request context)) as (vs & Hvs & Hviews).
  rewrite Hvs in Hmap.
  assert (Hphases : vs = phases) by congruence.
  assert (Hw : draws (bump (if truthy (field (VObj p) "generatedAt") then 0 else 1) 0
                           (bump 1 0 w))
               = draws (bump (if truthy (field (VObj p) "generatedAt") then 0 else 1) k
                             (bump 1 0 w))) by congruence.
  do 2 eexists. split; [exact Hrun |].
  split; [| split; [| split; reflexivity]].
  - unfold View.phases. cbn [field lookup String.eqb Ascii.eqb Bool.eqb elements].
    rewrite <- Hphases. exact Hviews.
  - rewrite <- Hw. reflexivity.
Qed.

Lemma empty_phases_take_fallback_witness :
  exists doc w',
    PlanGenerator.normalisePlan Sample.rt (LLMService.Text Scenario.no_phase_text)
      Sample.request Sample.four_files Sample.start = Ret doc w'
    /\ View.phases doc = map View.phase (fallback_phases Sample.request Sample.four_files)
    /\ draws w' = draws Sample.start.
Proof.
  assert (Hparsed : parsed_plan (LLMService.Text Scenario.no_phase_text)
                    = Some [("phases", VArr [])]) by (vm_compute; reflexivity).
  destruct (empty_phases_take_fallback Sample.rt (LLMService.Text Scenario.no_phase_text)
              Sample.request Sample.four_files [("phases", VArr [])] Sample.start
              Hparsed eq_refl)
    as (doc & w' & Hrun & Hphases & Hdraws & _).
  exists doc, w'. split; [exact Hrun |]. split; assumption.
Defined.


(** ** What repair leaves behind *)

Lemma repaired_step_complete (rt : Runtime) (w : Machine) (s : value) :
  complete_step (repaired_step rt w s) = true.
Proof.
  unfold complete_step, repaired_step, coalesce.
  cbn [field lookup String.eqb Ascii.eqb Bool.eqb].
  destruct (nullish (field s "id")) eqn:E1, (nullish (field s "title")) eqn:E2,
    (nullish (field s "description")) eqn:E3, (nullish (field s "references")) eqn:E4;
    cbn [nullish negb andb]; rewrite ?E1, ?E2, ?E3, ?E4; reflexivity.
Qed.

Lemma repaired_step_fixed (rt : Runtime) (w : Machine) (s : value) :
  forall w2, PlanGenerator.ensureStepStructure rt (repaired_step rt w s) w2
             = Ret (repaired_step rt w s) w2.
Proof.
  intros w2. rewrite ensureStepStructure_run by reflexivity.
  unfold repaired_step, coalesce.
  cbn [field lookup String.eqb Ascii.eqb Bool.eqb].
  destruct (nullish (field s "id")) eqn:E1, (nullish (field s "title")) eqn:E2,
    (nullish (field s "description")) eqn:E3, (nullish (field s "references")) eqn:E4;
    cbn [nullish]; rewrite ?E1, ?E2, ?E3, ?E4; rewrite bump_0_0; reflexivity.
Qed.

Lemma mapM_fixed {A} (f : A -> M A) (l : list A) :
  Forall (fun v => forall w, f v w = Ret v w) l -> forall w, mapM f l w = Ret l w.
Proof.
  induction 1 as [| v l Hv _ IH]; intros w; [reflexivity |].
  simpl. rewrite (bind_ret _ _ _ _ _ (Hv w)). rewrite (bind_ret _ _ _ _ _ (IH w)).
  reflexivity.
Qed.

Lemma mapM_steps_repaired (rt : Runtime) (l : list value) :
  forall w, forallb (fun s => negb (nullish s)) l = true ->
  exists vs,
    mapM (PlanGenerator.ensureStepStructure rt) l w
    = Ret vs (bump 0 (List.length (filter (fun s => nullish (field s "id")) l)) w)
    /\ List.length vs = List.length l
    /\ forallb complete_step vs = true
    /\ Forall (fun v => forall w2, PlanGenerator.ensureStepStructure rt v w2 = Ret v w2) vs.
Proof.
  induction l as [| s l IH]; intros w Hall.
  - exists []. rewrite bump_0_0. repeat split; constructor.
  - simpl in Hall. apply andb_true_iff in Hall as [Hs Hl].
    apply negb_true_iff in Hs.
    cbn [mapM filter]. rewrite (bind_ret _ _ _ _ _ (ensureStepStructure_run rt s w Hs)).
    destruct (IH (bump 0 (if nullish (field s "id") then 1 else 0) w) Hl)
      as (vs & Hrun & Hlen & Hcomplete & Hfixed).
    rewrite (bind_ret _ _ _ _ _ Hrun). unfold ret.
    eexists. split.
    + rewrite bump_bump. f_equal. f_equal.
      destruct (nullish (field s "id")); simpl; lia.
    + split; [simpl; congruence |]. split.
      * cbn [forallb]. rewrite repaired_step_complete, Hcomplete. reflexivity.
      * constructor; [apply repaired_step_fixed | exact Hfixed].
Qed.

Lemma ensurePhaseStructure_repaired (rt : Runtime) (p : value) (w : Machine) :
  repairable_phase p = true ->
  exists v,
    PlanGenerator.ensurePhaseStructure rt p w = Ret v (bump 0 (missing_ids p) w)
    /\ complete_phase v = true
    /\ field v "id" = (if nullish (field p "id") then VStr (uuid rt (draws w))
                       else field p "id")
    /\ field v "title" = coalesce (field p "title") (VStr "Untitled Phase")
    /\ field v "summary" = coalesce (field p "summary") (VStr "")
    /\ List.length (elements (field v "steps"))
       = List.length (elements (coalesce (field p "steps") (VArr [])))
    /\ forall w2, PlanGenerator.ensurePhaseStructure rt v w2 = Ret v w2.
Proof.
  unfold repairable_phase, missing_ids. intros H. apply andb_true_iff in H as [Hp Hsteps].
  apply negb_true_iff in Hp.
  unfold PlanGenerator.ensurePhaseStructure at 1.
  rewrite (bind_ret _ _ _ _ _ (get_run p "id" w Hp)).
  set (w1 := bump 0 (if nullish (field p "id") then 1 else 0) w).
  set (id := if nullish (field p "id") then VStr (uuid rt (draws w)) else field p "id").
  assert (Hid : (if nullish (field p "id")
                 then u <- randomUUID rt ;; ret (VStr u) else ret (field p "id")) w
                = Ret id w1).
  { unfold w1, id. destruct (nullish (field p "id")).
    - reflexivity.
    - rewrite bump_0_0. reflexivity. }
  assert (Hidn : nullish id = false).
  { unfold id. destruct (nullish (field p "id")) eqn:E; [reflexivity | exact E]. }
  rewrite (bind_ret _ _ _ _ _ Hid).
  assert (Hp1 : forall k, get p k w1 = Ret (field p k) w1) by (intros; apply get_run; exact Hp).
  rewrite (bind_ret _ _ _ _ _ (Hp1 "title")).
  rewrite (bind_ret _ _ _ _ _ (Hp1 "summary")).
  rewrite (bind_ret _ _ _ _ _ (Hp1 "steps")).
  cbv beta.
  destruct (coalesce (field p "steps") (VArr [])) as [| | | | | l |] eqn:Hc; try discriminate.
  destruct (mapM_steps_repaired rt l w1 Hsteps) as (vs & Hrun & Hlen & Hcomplete & Hfixed).
  unfold array_map at 1.
  erewrite bind_ret; [| erewrite bind_ret; [reflexivity | exact Hrun]].
  unfold ret. unfold w1. rewrite bump_bump.
  rewrite (Nat.add_comm (List.length _)).
  eexists. split; [cbn [elements]; reflexivity |].
  assert (Htitle : nullish (coalesce (field p "title") (VStr "Untitled Phase")) = false).
  { unfold coalesce. destruct (nullish (field p "title")) eqn:E; [reflexivity | exact E]. }
  assert (Hsummary : nullish (coalesce (field p "summary") (VStr "")) = false).
  { unfold coalesce. destruct (nullish (field p "summary")) eqn:E; [reflexivity | exact E]. }
  split.
  { unfold complete_phase. cbn [field lookup String.eqb Ascii.eqb Bool.eqb].
    rewrite Hidn, Htitle, Hsummary, Hcomplete. reflexivity. }
  split; [reflexivity |]. split; [reflexivity |]. split; [reflexivity |].
  split; [cbn [field lookup String.eqb Ascii.eqb Bool.eqb elements]; exact Hlen |].
  intros w2. unfold PlanGenerator.ensurePhaseStructure.
  erewrite bind_ret; [| apply get_run; reflexivity].
  cbn [field lookup String.eqb Ascii.eqb Bool.eqb]. rewrite Hidn.
  unfold bind at 1. unfold ret at 1.
  erewrite bind_ret; [| apply get_run; reflexivity].
  erewrite bind_ret; [| apply get_run; reflexivity].
  erewrite bind_ret; [| apply get_run; reflexivity].
  cbn [field lookup String.eqb Ascii.eqb Bool.eqb].
  unfold coalesce at 1. cbn [nullish]. unfold array_map.
  erewrite bind_ret; [| erewrite bind_ret; [reflexivity | apply mapM_fixed; exact Hfixed]].
  unfold ret. f_equal.
  unfold coalesce in Htitle, Hsummary |- *.
  destruct (nullish (field p "title")) eqn:E2, (nullish (field p "summary")) eqn:E3;
    cbn [nullish]; rewrite ?E2, ?E3; reflexivity.
Qed.

(** X5. [ensurePhaseStructure] draws one UUID for each identifier that the
    phase and its steps lack, and no other; in what it returns no
    identifier, title, summary, description or list of references is
    [null] or [undefined], the title defaulting to ['Untitled Phase'], and
    the steps are as many as before. *)
Theorem repair_fills_missing_fields (rt : Runtime) (p : value) (w : Machine) :
  repairable_phase p = true ->
  exists v,
    PlanGenerator.ensurePhaseStructure rt p w = Ret v (bump 0 (missing_ids p) w)
    /\ complete_phase v = true
    /\ field v "id" = (if nullish (field p "id") then VStr (uuid rt (draws w))
                       else field p "id")
    /\ field v "title" = coalesce (field p "title") (VStr "Untitled Phase")
    /\ field v "summary" = coalesce (field p "summary") (VStr "")
    /\ List.length (elements (field v "steps"))
       = List.length (elements (coalesce (field p "steps") (VArr []))).
Proof.
  intros Hp.
  destruct (ensurePhaseStructure_repaired rt p w Hp)
    as (v & Hrun & Hcomplete & Hid & Htitle & Hsummary & Hlen & _).
  exists v. repeat split; assumption.
Qed.

Lemma repair_fills_missing_fields_witness :
  exists v,
    PlanGenerator.ensurePhaseStructure Sample.rt Scenario.bare_phase Sample.start
    = Ret v (bump 0 2 Sample.start)
    /\ complete_phase v = true
    /\ field v "id" = VStr (uuid Sample.rt 0).
Proof.
  destruct (repair_fills_missing_fields Sample.rt Scenario.bare_phase Sample.start eq_refl)
    as (v & Hrun & Hcomplete & Hid & _).
  exists v. split; [exact Hrun |]. split; [exact Hcomplete | exact Hid].
Defined.

(** X6. [ensurePhaseStructure] is idempotent: a phase that it returned is
    returned as it is when repaired again, and no UUID is drawn. *)
Theorem repair_is_idempotent (rt : Runtime) (p : value) (w : Machine) :
  repairable_phase p = true ->
  exists v w',
    PlanGenerator.ensurePhaseStructure rt p w = Ret v w'
    /\ forall w2, PlanGenerator.ensurePhaseStructure rt v w2 = Ret v w2.
Proof.
  intros Hp.
  destruct (ensurePhaseStructure_repaired rt p w Hp) as (v & Hrun & H).
  exists v. eexists. split; [exact Hrun |]. apply H.
Qed.

Lemma repair_is_idempotent_witness :
  exists v w',
    PlanGenerator.ensurePhaseStructure Sample.rt Scenario.bare_phase Sample.start = Ret v w'
    /\ forall w2, PlanGenerator.ensurePhaseStructure Sample.rt v w2 = Ret v w2.
Proof.
  apply (repair_is_idempotent Sample.rt Scenario.bare_phase Sample.start). reflexivity.
Defined.

(** ** [JSON.parse] of what [JSON.stringify] writes *)

Lemma read_string_quoted_char (c : ascii) (t : string) :
  Json.read_string (Json.quote_body (String c "") ++ t)
  = match Json.read_string t with
    | Some (x, r) => Some (String c x, r)
    | None => None
    end.
Proof.
  destruct c as [[] [] [] [] [] [] [] []]; reflexivity.
Qed.

Lemma quote_body_cons (c : ascii) (s : string) :
  Json.quote_body (String c s) = Json.quote_body (String c "") ++ Json.quote_body s.
Proof.
  cbn [Json.quote_body]. rewrite append_nil_r. reflexivity.
Qed.

Lemma read_string_quote_body (s rest : string) :
  Json.read_string (Json.quote_body s ++ String "034"%char rest) = Some (s, rest).
Proof.
  induction s as [| c s IH]; [reflexivity |].
  rewrite quote_body_cons, append_assoc, read_string_quoted_char, IH. reflexivity.
Qed.

Lemma read_value_string (f : nat) (s t v rest : string) :
  Json.skip_ws s = String "034"%char t ->
  Json.read_string t = Some (v, rest) ->
  Json.read_value (S f) s = Some (VStr v, rest).
Proof.
  intros Hs Ht. simpl. rewrite Hs. simpl. rewrite Ht. reflexivity.
Qed.

Lemma read_value_object (f : nat) (s r t : string) :
  Json.skip_ws s = String "{"%char r ->
  Json.skip_ws r = String "034"%char t ->
  Json.read_value (S f) s = Json.read_members f r [].
Proof.
  intros Hs Hr. simpl. rewrite Hs. simpl. rewrite Hr. reflexivity.
Qed.

Lemma read_members_more (f : nat) (s rk k r1 r2 r3 r4 : string) (v : value) (acc : obj) :
  Json.skip_ws s = String "034"%char rk ->
  Json.read_string rk = Some (k, r1) ->
  Json.skip_ws r1 = String ":"%char r2 ->
  Json.read_value f r2 = Some (v, r3) ->
  Json.skip_ws r3 = String ","%char r4 ->
  Json.read_members (S f) s acc = Json.read_members f r4 (set_field k v acc).
Proof.
  intros Hs Hk H1 Hv H3. simpl. rewrite Hs. simpl. rewrite Hk, H1. simpl.
  rewrite Hv, H3. reflexivity.
Qed.

Lemma read_members_last (f : nat) (s rk k r1 r2 r3 r4 : string) (v : value) (acc : obj) :
  Json.skip_ws s = String "034"%char rk ->
  Json.read_string rk = Some (k, r1) ->
  Json.skip_ws r1 = String ":"%char r2 ->
  Json.read_value f r2 = Some (v, r3) ->
  Json.skip_ws r3 = String "}"%char r4 ->
  Json.read_members (S f) s acc = Some (VObj (set_field k v acc), r4).
Proof.
  intros Hs Hk H1 Hv H3. simpl. rewrite Hs. simpl. rewrite Hk, H1. simpl.
  rewrite Hv, H3. reflexivity.
Qed.

(** The text that [JSON.stringify(o, null, 2)] writes for an object of
    three strings reads back as that object. *)
Lemma pretty_strings_parse (rt : Runtime) (k1 v1 k2 v2 k3 v3 : string) :
  Json.parse (Json.stringify_pretty rt
                (VObj [(k1, VStr v1); (k2, VStr v2); (k3, VStr v3)]))
  = Some (VObj (set_field k3 (VStr v3) (set_field k2 (VStr v2) [(k1, VStr v1)]))).
Proof.
  unfold Json.stringify_pretty.
  cbn [Json.serialize flat_map map fst snd app Json.wrap Str.is_empty Str.join].
  unfold Json.quote, Str.quoted.
  rewrite ?append_assoc.
  cbn [append Str.LF Str.DQ].
  unfold Json.parse.
  match goal with
  | |- context [Json.read_value ?fuel ?text] =>
      assert (Hfuel : exists n, fuel = S (S (S (S (S n)))));
      [ exists (2 * String.length text - 3); cbn [append String.length]; lia
      | destruct Hfuel as (n & ->) ]
  end.
  erewrite read_value_object; [| reflexivity | reflexivity].
  erewrite read_members_more;
    [| reflexivity | apply read_string_quote_body | reflexivity
     | eapply read_value_string; [reflexivity | apply read_string_quote_body]
     | reflexivity ].
  erewrite read_members_more;
    [| reflexivity | apply read_string_quote_body | reflexivity
     | eapply read_value_string; [reflexivity | apply read_string_quote_body]
     | reflexivity ].
  erewrite read_members_last;
    [| reflexivity | apply read_string_quote_body | reflexivity
     | eapply read_value_string; [reflexivity | apply read_string_quote_body]
     | reflexivity ].
  reflexivity.
Qed.

(** X7. The raw text that the heuristic plan carries is JSON: it reads back
    as the note, the mode and the summary of the project context, whatever
    characters the summary holds. *)
Theorem heuristic_rawPlan_reads_back (rt : Runtime) (request : PlanRequest)
    (context : ProjectContext) (w : Machine) :
  exists p raw,
    LLMService.heuristicPlan rt request context w = Ret p (bump 1 0 w)
    /\ field (VObj p) "rawPlan" = VStr raw
    /\ Json.parse raw
       = Some (VObj [ ("note", VStr "Fallback plan generated due to missing or failed LLM response");
                      ("mode", VStr (mode_text (mode request)));
                      ("contextSummary", VStr (summary context)) ]).
Proof.
  do 2 eexists. split; [reflexivity |]. split; [reflexivity |].
  rewrite pretty_strings_parse. reflexivity.
Qed.

(** ** The Gemini adapter *)

Lemma recover_json_outcome (text : string) (w : Machine) :
  match LLMService.recover_json text w with
  | Ret s w' => w' = w /\ exists v, Json.parse s = Some v
  | Throw e w' => w' = w
  end.
Proof.
  unfold LLMService.recover_json, try_catch, bind, JSON_parse, ret, throw.
  destruct (Json.parse text) as [v |] eqn:Htext.
  - split; [reflexivity | eauto].
  - destruct (Str.match_braces text) as [m |]; [| reflexivity].
    destruct (Json.parse m) as [v |] eqn:Hm.
    + split; [reflexivity | eauto].
    + reflexivity.
Qed.

Lemma structured_text_outcome (reply : LLMService.GeminiReply) (w : Machine) :
  match LLMService.structured_text reply w with
  | Ret s w' => w' = w /\ exists v, Json.parse s = Some v
  | Throw e w' => w' = w
  end.
Proof.
  unfold LLMService.structured_text.
  destruct reply as [reason | | finishReason [t |]]; try reflexivity.
  - destruct (LLMService.blocked finishReason); [reflexivity |].
    destruct (Str.is_empty (Str.trim t)); [reflexivity |].
    apply recover_json_outcome.
  - destruct (LLMService.blocked finishReason); reflexivity.
Qed.

Lemma sendMessage_cases (svc : LLMService.t) (reply : LLMService.GeminiReply)
    (prompt : string) (w : Machine) :
  match LLMService.sendMessage svc reply prompt w with
  | Ret s w' => w' = w /\ exists v, Json.parse s = Some v
  | Throw e w' =>
      w' = w
      /\ (e = Error "Gemini chat session not initialized. Check API key and provider configuration."
          \/ e = Error "Failed to generate content with Gemini")
  end.
Proof.
  unfold LLMService.sendMessage.
  destruct (LLMService.session_ready svc); cbn [negb].
  - unfold try_catch.
    pose proof (structured_text_outcome reply w) as H.
    destruct (LLMService.structured_text reply w) as [s w' | e w'].
    + exact H.
    + subst w'. split; [reflexivity | right; reflexivity].
  - split; [reflexivity | left; reflexivity].
Qed.

(** X8. [sendMessage] leaves the fields of the sidebar provider as they
    were; the text it returns is one that [JSON.parse] accepts, and it
    throws one of two errors only. *)
Theorem sendMessage_outcome (svc : LLMService.t) (reply : LLMService.GeminiReply)
    (prompt : string) (w : Machine) :
  match LLMService.sendMessage svc reply prompt w with
  | Ret s w' => same_session w w' /\ exists v, Json.parse s = Some v
  | Throw e w' =>
      same_session w w'
      /\ (e = Error "Gemini chat session not initialized. Check API key and provider configuration."
          \/ e = Error "Failed to generate content with Gemini")
  end.
Proof.
  pose proof (sendMessage_cases svc reply prompt w) as H.
  destruct (LLMService.sendMessage svc reply prompt w) as [s w' | e w'];
    destruct H as [-> H]; (split; [apply same_session_refl | exact H]).
Qed.

(** ** Prose around the JSON *)

Lemma index_of_after (c : ascii) (pre rest : string) :
  Str.index_of (String c "") pre = None ->
  Str.index_of (String c "") (pre ++ String c rest) = Some (String.length pre).
Proof.
  induction pre as [| a pre IH]; intros Hnone.
  - simpl. rewrite Ascii.eqb_refl. reflexivity.
  - apply index_of_tail in Hnone as [Hhead Htail].
    cbn [append Str.index_of String.length].
    replace (Str.starts_with (String c "") (String a (pre ++ String c rest)))
      with (Str.starts_with (String c "") (String a pre)) by reflexivity.
    rewrite Hhead, (IH Htail). reflexivity.
Qed.

Lemma drop_append (a b : string) : Str.drop (String.length a) (a ++ b) = b.
Proof. induction a as [| c a IH]; [destruct b; reflexivity | exact IH]. Qed.

Lemma last_index_of_before (c : ascii) (a post : string) :
  Str.last_index_of c post = None ->
  Str.last_index_of c (a ++ String c post) = Some (String.length a).
Proof.
  intros Hpost. induction a as [| x a IH].
  - simpl. rewrite Hpost, Ascii.eqb_refl. reflexivity.
  - cbn [append Str.last_index_of String.length]. rewrite IH. reflexivity.
Qed.

Lemma match_braces_span (pre inner post : string) :
  Str.index_of "{" pre = None ->
  Str.last_index_of "}"%char post = None ->
  Str.match_braces (pre ++ "{" ++ inner ++ "}" ++ post) = Some ("{" ++ inner ++ "}").
Proof.
  intros Hpre Hpost. unfold Str.match_braces.
  change ("{" ++ inner ++ "}" ++ post) with (String "{" (inner ++ String "}" post)).
  rewrite (index_of_after "{" pre _ Hpre), drop_append.
  change (String "{" (inner ++ String "}" post)) with (String "{" inner ++ String "}" post).
  rewrite (last_index_of_before "}" (String "{" inner) post Hpost).
  replace (String "{" inner ++ String "}" post)
    with ((String "{" inner ++ "}") ++ post) by (rewrite append_assoc; reflexivity).
  replace (S (String.length (String "{" inner)))
    with (String.length (String "{" inner ++ "}"))
    by (rewrite length_append; simpl; lia).
  rewrite take_append. reflexivity.
Qed.

Lemma brace_span_returned (svc : LLMService.t) (finishReason : option string)
    (t pre inner post prompt : string) (w : Machine) :
  LLMService.session_ready svc = true ->
  LLMService.blocked finishReason = false ->
  Str.trim t = pre ++ "{" ++ inner ++ "}" ++ post ->
  Str.includes "```" (Str.trim t) = false ->
  Str.index_of "{" pre = None ->
  Str.last_index_of "}"%char post = None ->
  Json.parse (Str.trim t) = None ->
  Json.parse ("{" ++ inner ++ "}") <> None ->
  LLMService.sendMessage svc (LLMService.Candidate finishReason (Some t)) prompt w
  = Ret ("{" ++ inner ++ "}") w.
Proof.
  intros Hready Hblocked Htrim Hfence Hpre Hpost Hwhole Hspan.
  unfold LLMService.sendMessage, try_catch, LLMService.structured_text.
  rewrite Hready, Hblocked. cbn [negb].
  assert (Hne : Str.is_empty (Str.trim t) = false).
  { rewrite Htrim. destruct pre; reflexivity. }
  rewrite Hne.
  assert (Hstrip : LLMService.strip_fences (Str.trim t) = Str.trim t).
  { unfold LLMService.strip_fences.
    assert (Hjson : Str.includes "```json" (Str.trim t) = false).
    { unfold Str.includes.
      assert (Hnone : Str.index_of ("```" ++ "json") (Str.trim t) = None).
      { apply index_of_longer_none; [discriminate |].
        apply includes_false. exact Hfence. }
      change ("```" ++ "json") with "```json" in Hnone.
      rewrite Hnone. reflexivity. }
    rewrite Hjson, Hfence. reflexivity. }
  rewrite Hstrip.
  unfold LLMService.recover_json, try_catch, bind, JSON_parse, ret, throw.
  rewrite Hwhole. rewrite Htrim, (match_braces_span pre inner post Hpre Hpost).
  destruct (Json.parse ("{" ++ inner ++ "}")); [reflexivity | contradiction].
Qed.

(** X9. Prose around a JSON object is dropped: when the response, with the
    white space around it trimmed, is not JSON as a whole and holds no code
    fence, [sendMessage] returns the span from the first opening brace to
    the last closing brace, provided that span parses; the fields of the
    sidebar provider are left as they were. *)
Theorem prose_around_json_is_dropped (svc : LLMService.t) (finishReason : option string)
    (t pre inner post prompt : string) (w : Machine) :
  LLMService.session_ready svc = true ->
  LLMService.blocked finishReason = false ->
  Str.trim t = pre ++ "{" ++ inner ++ "}" ++ post ->
  Str.includes "```" (Str.trim t) = false ->
  Str.index_of "{" pre = None ->
  Str.last_index_of "}"%char post = None ->
  Json.parse (Str.trim t) = None ->
  Json.parse ("{" ++ inner ++ "}") <> None ->
  exists w',
    LLMService.sendMessage svc (LLMService.Candidate finishReason (Some t)) prompt w
    = Ret ("{" ++ inner ++ "}") w'
    /\ same_session w w'.
Proof.
  intros Hready Hblocked Htrim Hfence Hpre Hpost Hwhole Hspan.
  exists w. split; [| apply same_session_refl].
  apply (brace_span_returned svc finishReason t pre inner post prompt w); assumption.
Qed.

Lemma prose_around_json_is_dropped_witness :
  exists w',
    LLMService.sendMessage Sample.gemini (Sample.answers Scenario.prose_text) "prompt"
      Sample.start
    = Ret "{}" w'
    /\ same_session Sample.start w'.
Proof.
  apply (prose_around_json_is_dropped Sample.gemini (Some "STOP") Scenario.prose_text
           "Here is the plan: " "" " Enjoy." "prompt" Sample.start).
  - reflexivity.
  - reflexivity.
  - vm_compute. reflexivity.
  - vm_compute. reflexivity.
  - vm_compute. reflexivity.
  - vm_compute. reflexivity.
  - vm_compute. reflexivity.
  - vm_compute. discriminate.
Defined.

(** ** [cleanJson] *)

(** X10. [cleanJson] drops the seven characters of an opening [```json]
    marker and the last three characters of the trimmed text, whatever
    ASCII characters these are. *)
Theorem cleanJson_drops_three (text body tail : string) :
  Str.trim text = "```json" ++ body ++ tail ->
  String.length tail = 3 ->
  all_chars ascii_char tail = true ->
  LLMService.cleanJson text = body.
Proof.
  intros Htrim Htail _. unfold LLMService.cleanJson. rewrite Htrim.
  change (Str.starts_with "```json" ("```json" ++ body ++ tail)) with true.
  cbv iota. unfold Str.substring.
  assert (Hlen : String.length ("```json" ++ body ++ tail) = 7 + String.length body + 3).
  { rewrite !length_append, Htail. simpl. lia. }
  rewrite Hlen.
  replace (7 + String.length body + 3 - 3) with (7 + String.length body) by lia.
  rewrite (Nat.min_l 7) by lia.
  rewrite (Nat.min_l (7 + String.length body)) by lia.
  rewrite Nat.min_l by lia. rewrite Nat.max_r by lia.
  replace (7 + String.length body - 7) with (String.length body) by lia.
  change (Str.drop 7 ("```json" ++ body ++ tail)) with (body ++ tail).
  apply take_append.
Qed.

Lemma cleanJson_drops_three_witness : LLMService.cleanJson Scenario.fenced_note = "{}".
Proof.
  apply (cleanJson_drops_three Scenario.fenced_note "{}" "```").
  - vm_compute. reflexivity.
  - reflexivity.
  - reflexivity.
Defined.

(** ** The task in the prompt *)

Lemma read_escaped (task_ rest : string) :
  all_chars plain_char task_ = true ->
  Json.read_string (Str.escape_quotes task_ ++ Str.DQ ++ rest) = Some (task_, rest).
Proof.
  induction task_ as [| c s IH]; intros Hplain; [reflexivity |].
  cbn [all_chars] in Hplain. apply andb_true_iff in Hplain as [Hc Hs].
  unfold plain_char in Hc. apply andb_true_iff in Hc as [Hbs Hctl].
  apply negb_true_iff in Hbs, Hctl.
  cbn [Str.escape_quotes].
  destruct (Ascii.eqb c "034"%char) eqn:Hq.
  - apply Ascii.eqb_eq in Hq. subst c.
    cbn [append Str.BS Str.DQ Json.read_string Ascii.eqb Bool.eqb].
    change (match Json.simple_escape "034"%char with
            | Some x => match Json.read_string (Str.escape_quotes s ++ Str.DQ ++ rest) with
                        | Some (t, rest0) => Some (String x t, rest0)
                        | None => None
                        end
            | None => None
            end = Some (String "034"%char s, rest)).
    rewrite (IH Hs). reflexivity.
  - cbn [append Json.read_string]. rewrite Hq, Hbs, Hctl, (IH Hs). reflexivity.
Qed.

(** X11. In the prompt that [buildPlanPrompt] returns, the JSON template
    opens with the member [task]; the string literal written for it, the
    double quotes of the task escaped, reads back as the task when the task
    holds no backslash and no control character, and the member [mode]
    follows it. *)
Theorem escaped_task_reads_back (rt : Runtime) (request : PlanRequest)
    (context : ProjectContext) (fs : list ScannedFile) (w : Machine) :
  all_chars plain_char (task request) = true ->
  exists head literal rest w',
    PlanGenerator.buildPlanPrompt rt request context fs w
    = Ret (head ++ Str.LF ++ "{" ++ Str.LF ++ "    " ++ Str.quoted "task" ++ ": "
           ++ Str.DQ ++ literal) w'
    /\ Json.read_string literal
       = Some (task request,
               "," ++ Str.LF ++ "    " ++ Str.quoted "mode" ++ ": "
               ++ Str.quoted (mode_text (mode request)) ++ "," ++ rest).
Proof.
  intros Hplain.
  set (after_mode :=
         Str.LF ++ "    " ++ Str.quoted "summary" ++ ": "
         ++ Str.quoted "Brief overview of the approach (2-3 sentences)" ++ ","
         ++ Str.LF ++ "    " ++ Str.quoted "generatedAt" ++ ": " ++ Str.DQ
         ++ clock rt (ticks w) ++ PlanGenerator.prompt_after).
  set (tail := "," ++ Str.LF ++ "    " ++ Str.quoted "mode" ++ ": "
               ++ Str.quoted (mode_text (mode request)) ++ "," ++ after_mode).
  exists (Str.join Str.LF [
      "You are Traycer, an expert software planning assistant. Generate a detailed implementation plan for the following task.";
      "";
      "Task: " ++ task request;
      "";
      "Project Context:";
      summary context;
      "";
      "Technology Stack:";
      Str.join ", " (techStack context);
      "";
      "Relevant Files:";
      Str.join Str.LF (map (fun f => "- " ++ path f ++ " (" ++ language f ++ ")") fs);
      "";
      "CRITICAL: You must respond with ONLY valid JSON. No explanations, no markdown, no code blocks.";
      "";
      "Generate a plan using this exact JSON structure:" ]).
  exists (Str.escape_quotes (task request) ++ Str.DQ ++ tail), after_mode, (bump 1 0 w).
  split; [| apply read_escaped; exact Hplain].
  rewrite buildPlanPrompt_run. f_equal.
  unfold PlanGenerator.prompt_before, tail, after_mode, Str.quoted.
  cbn [Str.join]. cbv zeta.
  rewrite !append_assoc. reflexivity.
Qed.

Lemma escaped_task_reads_back_witness :
  exists head literal rest w',
    PlanGenerator.buildPlanPrompt Sample.rt
      {| task := Scenario.quoting_task; mode := plan_mode; hints := None |}
      Sample.empty_workspace [] Sample.start
    = Ret (head ++ Str.LF ++ "{" ++ Str.LF ++ "    " ++ Str.quoted "task" ++ ": "
           ++ Str.DQ ++ literal) w'
    /\ Json.read_string literal
       = Some (Scenario.quoting_task,
               "," ++ Str.LF ++ "    " ++ Str.quoted "mode" ++ ": "
               ++ Str.quoted "plan" ++ "," ++ rest).
Proof.
  apply (escaped_task_reads_back Sample.rt
           {| task := Scenario.quoting_task; mode := plan_mode; hints := None |}
           Sample.empty_workspace [] Sample.start).
  vm_compute. reflexivity.
Defined.

(** ** The conversational answers *)

Lemma sendConversationalMessage_cases (svc : LLMService.t)
    (reply : LLMService.GeminiReply) (prompt : string) (w : Machine) :
  match LLMService.sendConversationalMessage svc reply prompt w with
  | Ret s w' =>
      w' = w
      /\ Str.is_empty s = false
      /\ exists finishReason t,
           reply = LLMService.Candidate finishReason (Some t)
           /\ LLMService.blocked finishReason = false
           /\ s = Str.trim t
  | Throw e w' =>
      w' = w
      /\ (e = Error "Gemini chat session not initialized. Check API key and provider configuration."
          \/ e = Error "Failed to generate conversational response with Gemini")
  end.
Proof.
  unfold LLMService.sendConversationalMessage.
  destruct (LLMService.session_ready svc); cbn [negb];
    [| split; [reflexivity | left; reflexivity]].
  unfold try_catch, LLMService.conversational_text.
  destruct reply as [reason | | finishReason [t |]];
    try (split; [reflexivity | right; reflexivity]).
  - destruct (LLMService.blocked finishReason) eqn:Hblocked;
      [split; [reflexivity | right; reflexivity] |].
    destruct (Str.is_empty (Str.trim t)) eqn:Hempty;
      [split; [reflexivity | right; reflexivity] |].
    split; [reflexivity |]. split; [exact Hempty |].
    exists finishReason, t. repeat split. exact Hblocked.
  - destruct (LLMService.blocked finishReason); split; try reflexivity; right; reflexivity.
Qed.

(** X12. [sendConversationalMessage] leaves the fields of the sidebar
    provider as they were; what it returns is the text of the first
    candidate with the white space around it trimmed, and is never empty;
    and it throws one of two errors only. *)
Theorem sendConversationalMessage_outcome (svc : LLMService.t)
    (reply : LLMService.GeminiReply) (prompt : string) (w : Machine) :
  match LLMService.sendConversationalMessage svc reply prompt w with
  | Ret s w' =>
      same_session w w'
      /\ Str.is_empty s = false
      /\ exists finishReason t,
           reply = LLMService.Candidate finishReason (Some t)
           /\ LLMService.blocked finishReason = false
           /\ s = Str.trim t
  | Throw e w' =>
      same_session w w'
      /\ (e = Error "Gemini chat session not initialized. Check API key and provider configuration."
          \/ e = Error "Failed to generate conversational response with Gemini")
  end.
Proof.
  pose proof (sendConversationalMessage_cases svc reply prompt w) as H.
  destruct (LLMService.sendConversationalMessage svc reply prompt w) as [s w' | e w'];
    destruct H as [-> H]; (split; [apply same_session_refl | exact H]).
Qed.

(** ** The outcome of the Markdown export *)

(** X13. [toMarkdown] returns the rendering of the plan, section by
    section, when the plan is exportable: every value that a template
    literal, a comparison or a [join] converts has a primitive value, and
    whatever a loop runs over can be iterated.  When the plan is not
    exportable it throws a TypeError.  In both cases the machine is left as
    it was. *)
Theorem toMarkdown_outcome (rt : Runtime) (plan : obj) (w : Machine) :
  if exportable rt plan
  then PlanGenerator.toMarkdown rt (VObj plan) w = Ret (render_plan rt plan) w
  else exists e, PlanGenerator.toMarkdown rt (VObj plan) w = Throw e w
                 /\ ename e = "TypeError".
Proof. apply toMarkdown_cases. Qed.

(** ** The document that [generatePlan] returns *)

Lemma normalisePlan_returns_shape (rt : Runtime) (response : LLMService.Response)
    (request : PlanRequest) (context : ProjectContext) (w : Machine) (doc : obj)
    (w' : Machine) :
  PlanGenerator.normalisePlan rt response request context w = Ret doc w' ->
  exists phases,
    field (VObj doc) "phases" = VArr phases
    /\ phases <> []
    /\ Forall repaired_phase_shape phases.
Proof.
  intros Hrun.
  destruct (parsed_plan response) as [p |] eqn:Hparsed.
  - assert (Hok : repairable (if lacks_phases p then VArr (fallback_phases request context)
                              else field (VObj p) "phases") = true
                  \/ (lacks_phases p = false
                      /\ repairable (field (VObj p) "phases") = false)).
    { destruct (lacks_phases p).
      - left. apply fallback_repairable.
      - destruct (repairable (field (VObj p) "phases")); [left | right; split]; reflexivity. }
    destruct Hok as [Hrep | [Hlack Hrep]].
    + destruct (normalisePlan_parsed rt response request context p w Hparsed Hrep)
        as (phases & k & Hrun' & _ & _ & Hne & Hshape).
      rewrite Hrun' in Hrun. injection Hrun as <- _.
      exists phases. split; [reflexivity |]. split; assumption.
    + destruct (normalisePlan_throws rt response request context p w Hparsed Hlack Hrep)
        as (e & w1 & Hthrow & _).
      rewrite Hthrow in Hrun. discriminate.
  - rewrite (normalisePlan_unparsed rt response request context w Hparsed) in Hrun.
    injection Hrun as <- _.
    destruct (fallback_phases_shape request context) as [Hne Hshape].
    eexists. split; [reflexivity |]. split; assumption.
Qed.

Lemma generatePlan_returns_shape (rt : Runtime) (svc : LLMService.t)
    (reply : LLMService.GeminiReply) (request : PlanRequest) (context : ProjectContext)
    (w : Machine) (doc : obj) (w' : Machine) :
  PlanGenerator.generatePlan rt svc reply request context w = Ret doc w' ->
  exists phases,
    field (VObj doc) "phases" = VArr phases
    /\ phases <> []
    /\ Forall repaired_phase_shape phases.
Proof.
  intros Hrun. unfold PlanGenerator.generatePlan in Hrun.
  rewrite (bind_ret _ _ _ _ _ (buildPlanPrompt_run rt request context _ w)) in Hrun.
  unfold bind at 1 in Hrun.
  destruct (LLMService.generatePlan rt svc reply request context _ (bump 1 0 w))
    as [response w0 | e w0]; [| discriminate].
  unfold bind at 1 in Hrun.
  destruct (PlanGenerator.normalisePlan rt response request context w0)
    as [plan w1 | e w1] eqn:Hplan; [| discriminate].
  destruct (normalisePlan_returns_shape rt response request context w0 plan w1 Hplan)
    as (phases & Hphases & Hne & Hshape).
  exists phases. split; [| split; assumption].
  destruct (nullish (field (VObj plan) "rawPlan")).
  - unfold bind at 1 in Hrun.
    destruct (PlanGenerator.toMarkdown rt (VObj plan) w1) as [md w2 | e w2]; [| discriminate].
    injection Hrun as <- _.
    cbn [field] in Hphases |- *. rewrite lookup_set_other by discriminate. exact Hphases.
  - injection Hrun as <- _. exact Hphases.
Qed.

(** X14. Whatever [generatePlan] returns has at least one phase, and each
    of its phases is an object whose [steps] is an array of steps that have
    a [references] property. *)
Theorem generatePlan_output_shape (rt : Runtime) (svc : LLMService.t)
    (reply : LLMService.GeminiReply) (request : PlanRequest) (context : ProjectContext)
    (w : Machine) (doc : obj) (w' : Machine) :
  PlanGenerator.generatePlan rt svc reply request context w = Ret doc w' ->
  exists phases,
    field (VObj doc) "phases" = VArr phases
    /\ phases <> []
    /\ Forall repaired_phase_shape phases.
Proof. apply generatePlan_returns_shape. Qed.

Lemma generatePlan_output_shape_witness :
  exists doc w' phases,
    PlanGenerator.generatePlan Sample.rt Sample.gemini
      (Sample.answers Sample.stale_plan_text)
      Sample.request Sample.empty_workspace Sample.start = Ret doc w'
    /\ field (VObj doc) "phases" = VArr phases
    /\ phases <> []
    /\ Forall repaired_phase_shape phases.
Proof.
  destruct (PlanGenerator.generatePlan Sample.rt Sample.gemini
              (Sample.answers Sample.stale_plan_text)
              Sample.request Sample.empty_workspace Sample.start)
    as [doc w' | e w'] eqn:Hrun.
  - destruct (generatePlan_output_shape Sample.rt Sample.gemini
                (Sample.answers Sample.stale_plan_text)
                Sample.request Sample.empty_workspace Sample.start doc w' Hrun)
      as (phases & H).
    exists doc, w', phases. split; [reflexivity | exact H].
  - vm_compute in Hrun. discriminate Hrun.
Defined.

(** ** The providers that are not implemented *)

Lemma string_printable (v : value) : is_string v = true -> printable v = true.
Proof. destruct v; try discriminate. reflexivity. Qed.

Lemma optional_string_printable (v : value) :
  optional_string v = true -> printable v = true.
Proof. destruct v; try discriminate; reflexivity. Qed.

Lemma strings_printable (l : list value) :
  forallb is_string l = true -> forallb printable l = true.
Proof.
  intros H. apply forallb_forall. intros v Hin.
  rewrite forallb_forall in H. apply string_printable, H, Hin.
Qed.

Lemma well_formed_exportable_step (rt : Runtime) (s : value) :
  well_formed_step s = true -> exportable_step rt s = true.
Proof.
  intros H. destruct s as [| | | | | | o]; try discriminate.
  unfold well_formed_step in H. unfold exportable_step.
  apply andb_true_iff in H as [H _]. apply andb_true_iff in H as [H Hreasoning].
  apply andb_true_iff in H as [H Hreferences]. apply andb_true_iff in H as [H Hdescription].
  apply andb_true_iff in H as [_ Htitle].
  rewrite (string_printable _ Htitle), (string_printable _ Hdescription),
    (optional_string_printable _ Hreasoning).
  destruct (field (VObj o) "references") as [| | | | | l |]; try discriminate.
  rewrite (strings_printable l Hreferences).
  cbn [nullish negb andb]. rewrite !orb_true_r. reflexivity.
Qed.

Lemma well_formed_exportable (rt : Runtime) (l : list value) :
  forallb well_formed_phase l = true -> forallb (exportable_phase rt) l = true.
Proof.
  intros H. apply forallb_forall. intros p Hin.
  rewrite forallb_forall in H. specialize (H p Hin).
  destruct p as [| | | | | | o]; try discriminate.
  unfold well_formed_phase in H. unfold exportable_phase.
  apply andb_true_iff in H as [H Hsteps]. apply andb_true_iff in H as [H Hsummary].
  apply andb_true_iff in H as [_ Htitle].
  rewrite (string_printable _ Htitle), (string_printable _ Hsummary).
  destruct (field (VObj o) "steps") as [| | | | | steps |]; try discriminate.
  assert (Hexportable : forallb (exportable_step rt) steps = true).
  { apply forallb_forall. intros s Hs. rewrite forallb_forall in Hsteps.
    apply well_formed_exportable_step, Hsteps, Hs. }
  rewrite Hexportable. cbn [nullish negb andb]. rewrite orb_true_r. reflexivity.
Qed.

(** The run of [generatePlan] with a provider that answers with a
    placeholder. *)
Lemma placeholder_run (rt : Runtime) (svc : LLMService.t)
    (reply : LLMService.GeminiReply) (request : PlanRequest) (context : ProjectContext)
    (w : Machine) :
  LLMService.no_key (apiKey (LLMService.config svc)) = false ->
  provider (LLMService.config svc) = "openai"
  \/ provider (LLMService.config svc) = "anthropic" ->
  let plan := [ ("task", VStr (task request));
                ("mode", VStr (mode_text (mode request)));
                ("summary", VStr (summary context));
                ("generatedAt", VStr (clock rt (S (ticks w))));
                ("phases", VArr (fallback_phases request context)) ] in
  PlanGenerator.generatePlan rt svc reply request context w
  = Ret (set_field "rawPlan" (VStr (render_plan rt plan)) plan) (bump 2 0 w).
Proof.
  intros Hkey Hprovider plan.
  unfold PlanGenerator.generatePlan.
  rewrite (bind_ret _ _ _ _ _ (buildPlanPrompt_run rt request context _ w)).
  assert (Hresponse : exists text,
             LLMService.generatePlan rt svc reply request context
               (PlanGenerator.prompt_before request context
                  (PlanGenerator.slice 0 10 (files context))
                ++ clock rt (ticks w) ++ PlanGenerator.prompt_after) (bump 1 0 w)
             = Ret (LLMService.Text text) (bump 1 0 w)
             /\ parsed_plan (LLMService.Text text) = None).
  { unfold LLMService.generatePlan. rewrite Hkey.
    destruct Hprovider as [-> | ->]; eexists; (split; [reflexivity |]);
      vm_compute; reflexivity. }
  destruct Hresponse as (text & Hresponse & Hparsed).
  rewrite (bind_ret _ _ _ _ _ Hresponse).
  rewrite (bind_ret _ _ _ _ _
             (normalisePlan_unparsed rt (LLMService.Text text) request context
                (bump 1 0 w) Hparsed)).
  change (nullish (field (VObj _) "rawPlan")) with true. cbv iota.
  assert (Hmd : PlanGenerator.toMarkdown rt (VObj plan) (bump 1 0 (bump 1 0 w))
                = Ret (render_plan rt plan) (bump 1 0 (bump 1 0 w))).
  { pose proof (toMarkdown_cases rt plan (bump 1 0 (bump 1 0 w))) as Hcases.
    assert (Hexportable : exportable rt plan = true).
    { unfold exportable.
      change (field (VObj plan) "phases") with (VArr (fallback_phases request context)).
      change (field (VObj plan) "task") with (VStr (task request)).
      change (field (VObj plan) "summary") with (VStr (summary context)).
      cbv beta iota.
      rewrite (well_formed_exportable rt _ (fallback_phases_well_formed request context)).
      cbn [printable andb]. rewrite orb_true_r. reflexivity. }
    rewrite Hexportable in Hcases. exact Hcases. }
  unfold plan in Hmd |- *. cbn [ticks bump] in Hmd |- *.
  rewrite (bind_ret _ _ _ _ _ Hmd). unfold ret. rewrite bump_bump. reflexivity.
Qed.

(** X15. With an API key and the provider [openai] or [anthropic], which
    answer with a placeholder, [generatePlan] returns the normaliser's
    fallback plan, rendered as Markdown in [rawPlan]; the model's reply is
    not consulted.  The generation time is a reading of the clock taken
    during the call, and the call leaves the fields of the sidebar provider
    as they were. *)
Theorem placeholder_providers_fall_back (rt : Runtime) (svc : LLMService.t)
    (reply : LLMService.GeminiReply) (request : PlanRequest) (context : ProjectContext)
    (w : Machine) :
  LLMService.no_key (apiKey (LLMService.config svc)) = false ->
  provider (LLMService.config svc) = "openai"
  \/ provider (LLMService.config svc) = "anthropic" ->
  exists doc w' k,
    PlanGenerator.generatePlan rt svc reply request context w = Ret doc w'
    /\ same_session w w'
    /\ View.phases doc = map View.phase (fallback_phases request context)
    /\ field (VObj doc) "task" = VStr (task request)
    /\ field (VObj doc) "mode" = VStr (mode_text (mode request))
    /\ field (VObj doc) "summary" = VStr (summary context)
    /\ ticks w <= k < ticks w'
    /\ field (VObj doc) "generatedAt" = VStr (clock rt k)
    /\ field (VObj doc) "rawPlan" = VStr (render_plan rt doc).
Proof.
  intros Hkey Hprovider.
  pose proof (placeholder_run rt svc reply request context w Hkey Hprovider) as Hrun.
  cbv zeta in Hrun.
  eexists. exists (bump 2 0 w), (S (ticks w)).
  split; [exact Hrun |].
  split; [repeat split |].
  repeat split; try reflexivity; cbn [ticks bump]; lia.
Qed.

Lemma placeholder_providers_fall_back_witness :
  exists doc w',
    PlanGenerator.generatePlan Sample.rt Scenario.openai LLMService.NoCandidates
      Sample.request Sample.four_files Sample.start = Ret doc w'
    /\ View.phases doc = map View.phase (fallback_phases Sample.request Sample.four_files)
    /\ field (VObj doc) "rawPlan" = VStr (render_plan Sample.rt doc).
Proof.
  destruct (placeholder_providers_fall_back Sample.rt Scenario.openai LLMService.NoCandidates
              Sample.request Sample.four_files Sample.start eq_refl (or_introl eq_refl))
    as (doc & w' & k & Hrun & _ & Hphases & _ & _ & _ & _ & _ & Hraw).
  exists doc, w'. split; [exact Hrun |]. split; assumption.
Defined.

(** ** The conversation window *)

(** X16. Only the six most recent messages of the conversation enter the
    prompts of [modifyPlan] and [handleGeneralQuery]. *)
Theorem conversation_window (older recent : list ChatMessage) :
  6 <= List.length recent ->
  SidebarProvider.conversationContext (older ++ recent)
  = SidebarProvider.conversationContext recent.
Proof.
  intros Hlen. unfold SidebarProvider.conversationContext, SidebarProvider.last_n.
  do 2 f_equal. rewrite length_app, skipn_app.
  rewrite skipn_all2 by lia. cbn [app]. f_equal. lia.
Qed.

Lemma conversation_window_witness :
  SidebarProvider.conversationContext
    (Scenario.said user "zero" :: Scenario.six_messages)
  = SidebarProvider.conversationContext Scenario.six_messages.
Proof.
  apply (conversation_window [Scenario.said user "zero"] Scenario.six_messages).
  apply le_n.
Defined.

(** ** A general question *)

(** X17. [handleGeneralQuery] leaves the fields of the sidebar provider,
    the current plan among them, as they were, whether it returns or throws;
    what it returns carries no plan, and its text is the text that
    [sendConversationalMessage] returned for the prompt. *)
Theorem general_query_leaves_machine (rt : Runtime) (svc : LLMService.t)
    (reply : LLMService.GeminiReply) (userMessage : string) (w : Machine) :
  match SidebarProvider.handleGeneralQuery rt svc reply userMessage w with
  | Ret r w' =>
      same_session w w'
      /\ SidebarProvider.reply_plan r = VUndefined
      /\ exists prompt w0,
           SidebarProvider.generalPrompt rt userMessage w = Ret prompt w0
           /\ LLMService.sendConversationalMessage svc reply prompt w0
              = Ret (SidebarProvider.reply_text r) w'
  | Throw e w' => same_session w w'
  end.
Proof.
  pose proof (keeps_handleGeneralQuery same_session same_session_refl same_session_trans
                rt svc reply userMessage w) as Hkeeps.
  destruct (SidebarProvider.handleGeneralQuery rt svc reply userMessage w)
    as [r w' | e w'] eqn:Hrun; [| exact Hkeeps].
  split; [exact Hkeeps |].
  unfold SidebarProvider.handleGeneralQuery in Hrun.
  apply bind_ret_inv in Hrun as (prompt & w0 & Hprompt & Hrun).
  apply bind_ret_inv in Hrun as (responseText & w1 & Hsend & Hrun).
  injection Hrun as <- <-.
  split; [reflexivity |]. exists prompt, w0. split; [exact Hprompt | exact Hsend].
Qed.

(** ** A new plan *)

Lemma gt_one (rt : Runtime) (n : nat) : gt rt (num_of_nat n) 1 = (1 <? n)%nat.
Proof.
  unfold gt, num_of_nat. cbn [to_number number_gt Z.leb Z.compare].
  unfold pow10. rewrite Z.pow_0_r, Z.mul_1_r.
  destruct (Nat.ltb_spec 1 n), (Z.ltb_spec 1 (Z.of_nat n)); try reflexivity; lia.
Qed.

(** Counts add up exactly as long as the sum is a double. *)
Lemma add_counts (rt : Runtime) (a b : nat) :
  (Z.of_nat (a + b) <= 2 ^ 53)%Z ->
  add rt (num_of_nat a) (num_of_nat b) = num_of_nat (a + b).
Proof.
  intros Hbound.
  unfold add, num_of_nat. cbn [to_primitive_is_string orb to_number number_add].
  cbv zeta. cbn [Z.min Z.compare Z.sub Z.add Z.opp].
  unfold nearest_double, pow10, pow2. rewrite Z.pow_0_r, !Z.mul_1_r.
  cbn [Z.leb Z.compare].
  destruct (Z.eqb_spec (Z.of_nat a + Z.of_nat b) 0) as [Hzero | Hpositive].
  - do 2 f_equal. lia.
  - destruct (Z.leb_spec (Z.abs (Z.of_nat a + Z.of_nat b)) (2 ^ 53)); [| lia].
    do 2 f_equal. lia.
Qed.

Lemma mapM_get (k : string) (l : list value) (w : Machine) :
  Forall (fun p => nullish p = false) l ->
  mapM (fun p => get p k) l w = Ret (map (fun p => field p k) l) w.
Proof.
  induction 1 as [| p l Hp _ IH]; [reflexivity |].
  cbn [mapM map]. rewrite (bind_ret _ _ _ _ _ (get_run p k w Hp)).
  rewrite (bind_ret _ _ _ _ _ IH). reflexivity.
Qed.

Lemma phases_line_run (rt : Runtime) (name : string) (plan : obj) (phases : list value)
    (w : Machine) :
  field (VObj plan) "phases" = VArr phases ->
  Forall (fun p => nullish p = false) phases ->
  joinable (View.titles plan) = true ->
  SidebarProvider.phases_line rt name (VObj plan) w = Ret (phases_report rt plan) w.
Proof.
  intros Hphases Hall Htitles. unfold SidebarProvider.phases_line, phases_report.
  rewrite (bind_ret _ _ _ _ _ (get_run (VObj plan) "phases" w eq_refl)).
  unfold View.titles, View.phases in Htitles |- *. rewrite Hphases in Htitles |- *.
  rewrite (bind_ret _ _ _ _ _ (get_run (VArr phases) "length" w eq_refl)).
  cbn [field String.eqb Ascii.eqb Bool.eqb elements] in Htitles |- *.
  rewrite (bind_ret _ _ _ _ _ (ToString_run rt (num_of_nat (List.length phases)) w eq_refl)).
  rewrite (bind_ret _ _ _ _ _ (greater_run rt (num_of_nat (List.length phases)) 1 w eq_refl)).
  cbn [array_map].
  erewrite bind_ret; [| erewrite bind_ret; [reflexivity | apply mapM_get; exact Hall]].
  cbn [elements]. rewrite map_map in Htitles.
  rewrite (bind_ret _ _ _ _ _ (array_join_run rt _ _ w Htitles)).
  unfold ret. rewrite gt_one, length_map, map_map. reflexivity.
Qed.

Lemma steps_total_from (rt : Runtime) (l : list value) :
  forall (a : nat) (w : Machine),
  Forall repaired_phase_shape l ->
  (Z.of_nat (a + list_sum (map (fun p => List.length (View.phase_steps p))
                             (map View.phase l))) <= 2 ^ 53)%Z ->
  foldM (fun acc p => steps <- get p "steps" ;; n <- get steps "length" ;;
                      plus rt acc n) (num_of_nat a) l w
  = Ret (num_of_nat (a + list_sum (map (fun p => List.length (View.phase_steps p))
                                       (map View.phase l)))) w.
Proof.
  induction l as [| p l IH]; intros a w Hall Hbound.
  - cbn. rewrite Nat.add_0_r. reflexivity.
  - inversion Hall as [| ? ? (Hp & steps & Hsteps & _) Hl]; subst.
    cbn [map list_sum fold_right View.phase View.phase_steps] in Hbound |- *.
    rewrite Hsteps in Hbound |- *. cbn [elements] in Hbound |- *.
    rewrite length_map in Hbound |- *.
    cbn [foldM].
    erewrite bind_ret.
    2: { rewrite (bind_ret _ _ _ _ _ (get_run p "steps" w Hp)). rewrite Hsteps.
         rewrite (bind_ret _ _ _ _ _ (get_run (VArr steps) "length" w eq_refl)).
         cbn [field String.eqb Ascii.eqb Bool.eqb]. unfold plus. cbn [printable andb].
         unfold ret. rewrite add_counts by lia. reflexivity. }
    rewrite (IH _ w Hl) by (unfold list_sum; lia).
    unfold list_sum. rewrite Nat.add_assoc. reflexivity.
Qed.

Lemma steps_total_run (rt : Runtime) (name : string) (plan : obj) (phases : list value)
    (w : Machine) :
  field (VObj plan) "phases" = VArr phases ->
  Forall repaired_phase_shape phases ->
  (Z.of_nat (list_sum (View.step_counts plan)) <= 2 ^ 53)%Z ->
  SidebarProvider.steps_total rt name (VObj plan) w
  = Ret (to_string rt (num_of_nat (list_sum (View.step_counts plan)))) w.
Proof.
  intros Hphases Hall Hbound. unfold SidebarProvider.steps_total.
  rewrite (bind_ret _ _ _ _ _ (get_run (VObj plan) "phases" w eq_refl)).
  unfold View.step_counts, View.phases in Hbound |- *. rewrite Hphases in Hbound |- *.
  cbn [array_reduce elements] in Hbound |- *.
  change (VNum (Dec 0 0)) with (num_of_nat 0).
  rewrite (bind_ret _ _ _ _ _ (steps_total_from rt phases 0 w Hall Hbound)).
  apply ToString_run. reflexivity.
Qed.

(** X18. When the generator returns a plan whose summary and phase titles
    have a primitive value and which has no more than 2^53 steps,
    [generateNewPlan] puts it in the current plan slot and answers with it,
    and the text of the answer reports the number of phases, their titles,
    the total number of steps and the summary of that plan. *)
Theorem new_plan_becomes_current (rt : Runtime) (svc : LLMService.t)
    (reply : LLMService.GeminiReply) (userMessage : string) (preferredMode : PlanMode)
    (context : ProjectContext) (w : Machine) (doc : obj) (w1 : Machine) :
  projectContext w = Some context ->
  PlanGenerator.generatePlan rt svc reply
    {| task := userMessage; mode := detected_mode userMessage preferredMode;
       hints := None |} context w = Ret doc w1 ->
  joinable (View.titles doc) = true ->
  printable (field (VObj doc) "summary") = true ->
  (Z.of_nat (list_sum (View.step_counts doc)) <= 2 ^ 53)%Z ->
  SidebarProvider.generateNewPlan rt svc reply userMessage preferredMode w
  = Ret {| SidebarProvider.reply_text :=
             new_plan_text rt (detected_mode userMessage preferredMode) doc;
           SidebarProvider.reply_plan := VObj doc |}
        (holding (VObj doc) w1).
Proof.
  intros Hcontext Hplan Htitles Hsummary Hbound.
  destruct (generatePlan_returns_shape rt svc reply _ context w doc w1 Hplan)
    as (phases & Hphases & _ & Hshape).
  assert (Hobjects : Forall (fun p => nullish p = false) phases).
  { eapply Forall_impl; [| exact Hshape]. intros p [Hp _]. exact Hp. }
  unfold SidebarProvider.generateNewPlan. cbv zeta.
  unfold bind at 1. unfold SidebarProvider.read at 1. rewrite Hcontext.
  unfold detected_mode in Hplan.
  rewrite (bind_ret _ _ _ _ _ Hplan).
  unfold bind at 1. cbn [SidebarProvider.set_currentPlan].
  fold (holding (VObj doc) w1).
  rewrite (bind_ret _ _ _ _ _
             (phases_line_run rt "plan" doc phases _ Hphases Hobjects Htitles)).
  rewrite (bind_ret _ _ _ _ _
             (steps_total_run rt "plan" doc phases _ Hphases Hshape Hbound)).
  rewrite (bind_ret _ _ _ _ _ (get_run (VObj doc) "summary" _ eq_refl)).
  rewrite (bind_ret _ _ _ _ _ (ToString_run rt _ _ Hsummary)).
  unfold ret, new_plan_text, detected_mode. rewrite ?append_assoc. reflexivity.
Qed.

Lemma new_plan_becomes_current_witness :
  exists doc w1,
    SidebarProvider.generateNewPlan Sample.rt Sample.mock LLMService.NoCandidates
      "Add a login form" phase_mode Scenario.analysed
    = Ret {| SidebarProvider.reply_text :=
               new_plan_text Sample.rt (detected_mode "Add a login form" phase_mode) doc;
             SidebarProvider.reply_plan := VObj doc |}
          (holding (VObj doc) w1).
Proof.
  destruct (PlanGenerator.generatePlan Sample.rt Sample.mock LLMService.NoCandidates
              {| task := "Add a login form";
                 mode := detected_mode "Add a login form" phase_mode;
                 hints := None |} Sample.empty_workspace Scenario.analysed)
    as [doc w1 | e w1] eqn:Hrun.
  - exists doc, w1.
    vm_compute in Hrun. injection Hrun as <- <-.
    apply (new_plan_becomes_current Sample.rt Sample.mock LLMService.NoCandidates
             "Add a login form" phase_mode Sample.empty_workspace Scenario.analysed).
    + reflexivity.
    + vm_compute. reflexivity.
    + vm_compute. reflexivity.
    + vm_compute. reflexivity.
    + vm_compute. discriminate.
  - vm_compute in Hrun. discriminate Hrun.
Defined.

(** ** A modification whose answer is JSON *)

(** X19. [modifyPlan] stores the parsed answer of the backend in the current
    plan slot before it reads anything of it: when the prompt can be written
    from the current plan and [sendMessage] returns, the slot holds the
    parsed answer, whether [modifyPlan] then returns or throws on it. *)
Theorem modification_overwrites_before_validation (rt : Runtime) (svc : LLMService.t)
    (reply : LLMService.GeminiReply) (userMessage text : string) (w : Machine) :
  promptable (currentPlan w) = true ->
  (forall prompt, exists w1, LLMService.sendMessage svc reply prompt w = Ret text w1) ->
  exists v,
    Json.parse text = Some v
    /\ match SidebarProvider.modifyPlan rt svc reply userMessage w with
       | Ret r w' => currentPlan w' = v /\ SidebarProvider.reply_plan r = v
       | Throw e w' => currentPlan w' = v
       end.
Proof.
  intros Hprompt Hsend.
  assert (Hnn : nullish (currentPlan w) = false).
  { unfold promptable in Hprompt. destruct (currentPlan w); try discriminate; reflexivity. }
  destruct (modificationPrompt_run rt userMessage w Hnn Hprompt) as (prompt & Hwritten).
  destruct (Hsend prompt) as (w1 & Hsent).
  assert (Hjson : exists v, Json.parse text = Some v).
  { pose proof (sendMessage_cases svc reply prompt w) as H. rewrite Hsent in H. apply H. }
  destruct Hjson as (v & Hjson). exists v. split; [exact Hjson |].
  unfold SidebarProvider.modifyPlan.
  rewrite (bind_ret _ _ _ _ _ Hwritten).
  rewrite (bind_ret _ _ _ _ _ Hsent).
  unfold JSON_parse. rewrite Hjson.
  unfold bind at 1. unfold ret at 1.
  unfold bind at 1. cbn [SidebarProvider.set_currentPlan]. fold (holding v w1).
  match goal with
  | |- match ?run (holding v w1) with _ => _ end =>
      pose proof (keeps_report eq (@eq_refl Machine) (@eq_trans Machine) rt "updatedPlan" v
                    (fun line total summary' =>
                       "I've updated the plan based on your feedback. Here's what changed:"
                       ++ Str.LF ++ Str.LF ++ line
                       ++ "📝 **" ++ total ++ " Steps** total" ++ Str.LF ++ Str.LF
                       ++ summary' ++ Str.LF ++ Str.LF
                       ++ "Let me know if you need any other adjustments!")
                    (holding v w1)) as Hkeeps;
      destruct (run (holding v w1)) as [r w' | e w'] eqn:Hrun
  end.
  - subst w'. split; [reflexivity |].
    apply bind_ret_inv in Hrun as (line & w2 & _ & Hrun).
    apply bind_ret_inv in Hrun as (total & w3 & _ & Hrun).
    apply bind_ret_inv in Hrun as (summary' & w4 & _ & Hrun).
    apply bind_ret_inv in Hrun as (shown & w5 & _ & Hrun).
    injection Hrun as <- _. reflexivity.
  - subst w'. reflexivity.
Qed.

Lemma modification_overwrites_before_validation_witness :
  exists v,
    Json.parse "{}" = Some v
    /\ match SidebarProvider.modifyPlan Sample.rt Sample.gemini (Sample.answers "{}")
               "Please update the plan" Sample.with_plan with
       | Ret r w' => currentPlan w' = v /\ SidebarProvider.reply_plan r = v
       | Throw e w' => currentPlan w' = v
       end.
Proof.
  apply (modification_overwrites_before_validation Sample.rt Sample.gemini
           (Sample.answers "{}") "Please update the plan" "{}" Sample.with_plan).
  - reflexivity.
  - intros prompt. eexists. vm_compute. reflexivity.
Defined.

(** ** Every message is answered *)

Lemma keeps_chat_set_currentPlan (v : value) :
  keeps same_chat (SidebarProvider.set_currentPlan v).
Proof. intros w. split; reflexivity. Qed.

Lemma keeps_chat_set_projectContext (c : option ProjectContext) :
  keeps same_chat (SidebarProvider.set_projectContext c).
Proof. intros w. split; reflexivity. Qed.

Lemma keeps_chat_generateResponse (rt : Runtime) (svc : LLMService.t)
    (reply : LLMService.GeminiReply) (userMessage : string) (preferredMode : PlanMode) :
  keeps same_chat (SidebarProvider.generateResponse rt svc reply userMessage preferredMode).
Proof.
  assert (Hbind : forall A B (m : M A) (k : A -> M B),
             keeps same_chat m -> (forall a, keeps same_chat (k a)) ->
             keeps same_chat (bind m k)).
  { intros. apply keeps_bind; [exact same_chat_trans | assumption | assumption]. }
  assert (Hread : forall A (f : Machine -> A), keeps same_chat (SidebarProvider.read f)).
  { intros. apply keeps_read. exact same_chat_refl. }
  unfold SidebarProvider.generateResponse.
  apply Hbind; [apply Hread | intros current]. cbv zeta.
  destruct (SidebarProvider.isModification userMessage && truthy current);
    [| destruct (SidebarProvider.mentions_creation userMessage || negb (truthy current))].
  - unfold SidebarProvider.modifyPlan.
    apply Hbind; [| intros prompt].
    { apply keeps_modificationPrompt; [exact same_chat_refl | exact same_chat_trans]. }
    apply Hbind; [| intros llmResponse].
    { apply keeps_sendMessage; [exact same_chat_refl | exact same_chat_trans]. }
    apply Hbind; [| intros updatedPlan].
    { apply keeps_JSON_parse. exact same_chat_refl. }
    apply Hbind; [apply keeps_chat_set_currentPlan | intros _].
    apply (keeps_report same_chat same_chat_refl same_chat_trans rt "updatedPlan" updatedPlan
             (fun line total summary' =>
                "I've updated the plan based on your feedback. Here's what changed:"
                ++ Str.LF ++ Str.LF ++ line
                ++ "📝 **" ++ total ++ " Steps** total" ++ Str.LF ++ Str.LF
                ++ summary' ++ Str.LF ++ Str.LF
                ++ "Let me know if you need any other adjustments!")).
  - unfold SidebarProvider.generateNewPlan. cbv zeta.
    apply Hbind; [apply Hread | intros [context |]].
    + apply Hbind; [| intros plan].
      { apply keeps_generatePlan;
          [exact same_chat_refl | exact same_chat_trans | exact same_chat_bump]. }
      apply Hbind; [apply keeps_chat_set_currentPlan | intros _].
      match goal with
      | |- context [is_phase ?m] =>
          apply (keeps_report same_chat same_chat_refl same_chat_trans rt "plan" (VObj plan)
                   (fun line total summary_ =>
                      "I've created " ++ (if is_phase m then "a detailed multi-phase" else "a")
                      ++ " implementation plan for your request. The plan includes:"
                      ++ Str.LF ++ Str.LF ++ line
                      ++ "📝 **" ++ total ++ " Steps** across all phases"
                      ++ Str.LF ++ Str.LF
                      ++ summary_ ++ Str.LF ++ Str.LF
                      ++ "You can ask me to modify specific parts, add more details, or regenerate the plan with different requirements."))
      end.
    + apply keeps_throw. exact same_chat_refl.
  - apply keeps_handleGeneralQuery; [exact same_chat_refl | exact same_chat_trans].
Qed.

(** X20. [handleChatMessage] never throws.  A blank message changes nothing;
    any other message is recorded and answered by exactly one assistant
    message, a reply or an error, the conversation growing by these two
    messages; and the typing indicator, switched on after the user's
    message is posted, is switched off at the end. *)
Theorem chat_message_always_answered (rt : Runtime) (svc : LLMService.t)
    (scan : option ProjectContext) (reply : LLMService.GeminiReply)
    (userMessage : string) (mode_ : option PlanMode) (w : Machine) :
  exists w',
    SidebarProvider.handleChatMessage rt svc scan reply userMessage mode_ w = Ret tt w'
    /\ if Str.is_empty (Str.trim userMessage) then w' = w
       else exists answer,
              msg_role answer = assistant
              /\ conversationHistory w'
                 = (conversationHistory w ++ [user_message rt w userMessage; answer])%list
              /\ posted w'
                 = (posted w
                    ++ [PostAddMessage (user_message rt w userMessage); PostTyping true;
                        PostAddMessage answer; PostTyping false])%list.
Proof.
  unfold SidebarProvider.handleChatMessage.
  destruct (Str.is_empty (Str.trim userMessage)) eqn:Hblank.
  { rewrite orb_true_r. exists w. split; reflexivity. }
  assert (Hne : Str.is_empty userMessage = false).
  { destruct userMessage; [discriminate Hblank | reflexivity]. }
  rewrite Hne. cbn [orb].
  erewrite bind_ret; [| apply now_run]. cbv beta zeta.
  erewrite bind_ret; [| reflexivity].
  erewrite bind_ret; [| reflexivity].
  erewrite bind_ret; [| reflexivity].
  cbn [ticks draws conversationHistory currentPlan projectContext posted bump Nat.add].
  fold (user_message rt w userMessage).
  match goal with
  | |- context [bind _ _ ?m] => set (w1 := m)
  end.
  assert (Hchat1 : conversationHistory w1
                   = (conversationHistory w ++ [user_message rt w userMessage])%list
                   /\ posted w1
                      = (posted w ++ [PostAddMessage (user_message rt w userMessage);
                                      PostTyping true])%list).
  { unfold w1. cbn. rewrite <- app_assoc. split; reflexivity. }
  clearbody w1. destruct Hchat1 as [Hhistory1 Hposted1].
  set (planMode := match mode_ with Some m => m | None => phase_mode end).
  assert (Hanswered : forall (w2 : Machine),
             same_chat w1 w2 ->
             forall (content : string) (plan : value),
             exists w3,
               (stamp' <- now rt ;;
                SidebarProvider.push_history
                  {| msg_role := assistant; msg_content := content;
                     msg_timestamp := stamp'; msg_plan := plan |} ;;;
                SidebarProvider.post
                  (PostAddMessage {| msg_role := assistant; msg_content := content;
                                     msg_timestamp := stamp'; msg_plan := plan |})) w2
               = Ret tt w3
               /\ exists answer,
                    msg_role answer = assistant
                    /\ conversationHistory w3
                       = (conversationHistory w
                          ++ [user_message rt w userMessage; answer])%list
                    /\ (posted w3 ++ [PostTyping false])%list
                       = (posted w
                          ++ [PostAddMessage (user_message rt w userMessage);
                              PostTyping true; PostAddMessage answer;
                              PostTyping false])%list).
  { intros w2 [Hh Hp] content plan. eexists. split; [reflexivity |].
    exists {| msg_role := assistant; msg_content := content;
              msg_timestamp := clock rt (ticks w2); msg_plan := plan |}.
    split; [reflexivity |].
    cbn [ticks draws conversationHistory currentPlan projectContext posted bump Nat.add].
    rewrite Hh, Hp, Hhistory1, Hposted1, <- !app_assoc. split; reflexivity. }
  assert (Hfinish : forall (run : M unit) (w3 : Machine),
             run w1 = Ret tt w3 ->
             (exists answer,
                 msg_role answer = assistant
                 /\ conversationHistory w3
                    = (conversationHistory w ++ [user_message rt w userMessage; answer])%list
                 /\ (posted w3 ++ [PostTyping false])%list
                    = (posted w
                       ++ [PostAddMessage (user_message rt w userMessage);
                           PostTyping true; PostAddMessage answer;
                           PostTyping false])%list) ->
             exists w',
               bind run (fun _ => SidebarProvider.post (PostTyping false)) w1 = Ret tt w'
               /\ exists answer,
                    msg_role answer = assistant
                    /\ conversationHistory w'
                       = (conversationHistory w
                          ++ [user_message rt w userMessage; answer])%list
                    /\ posted w'
                       = (posted w
                          ++ [PostAddMessage (user_message rt w userMessage);
                              PostTyping true; PostAddMessage answer;
                              PostTyping false])%list).
  { intros run w3 Hrun (answer & Hrole & Hh & Hp).
    rewrite (bind_ret _ _ _ _ _ Hrun). eexists. split; [reflexivity |].
    exists answer. split; [exact Hrole |]. split; [exact Hh | exact Hp]. }
  match goal with
  | |- exists w', bind ?run _ w1 = _ /\ _ =>
      assert (Hrun : exists w3,
                 run w1 = Ret tt w3
                 /\ exists answer,
                      msg_role answer = assistant
                      /\ conversationHistory w3
                         = (conversationHistory w
                            ++ [user_message rt w userMessage; answer])%list
                      /\ (posted w3 ++ [PostTyping false])%list
                         = (posted w
                            ++ [PostAddMessage (user_message rt w userMessage);
                                PostTyping true; PostAddMessage answer;
                                PostTyping false])%list)
  end.
  { unfold try_catch.
    unfold bind at 1. unfold SidebarProvider.read at 1.
    assert (Hcontext : keeps same_chat
                         (match projectContext w1 with
                          | None => c <- SidebarProvider.analyzeWorkspace scan ;;
                                    SidebarProvider.set_projectContext (Some c)
                          | Some _ => ret tt
                          end)).
    { destruct (projectContext w1).
      - apply keeps_ret. exact same_chat_refl.
      - apply keeps_bind; [exact same_chat_trans | | intro].
        + destruct scan; [apply keeps_ret | apply keeps_throw]; exact same_chat_refl.
        + apply keeps_chat_set_projectContext. }
    specialize (Hcontext w1). unfold bind at 1.
    match goal with
    | |- context [match ?step w1 with _ => _ end] =>
        change (match step w1 with
                | Ret _ w' => same_chat w1 w'
                | Throw _ w' => same_chat w1 w'
                end) in Hcontext;
        destruct (step w1) as [[] w2 | e w2]
    end.
    - pose proof (keeps_chat_generateResponse rt svc reply userMessage planMode w2)
        as Hresponse.
      unfold bind at 1.
      destruct (SidebarProvider.generateResponse rt svc reply userMessage planMode w2)
        as [response w3 | e w3].
      + apply (Hanswered w3). eapply same_chat_trans; eassumption.
      + apply (Hanswered w3). eapply same_chat_trans; eassumption.
    - apply (Hanswered w2). exact Hcontext. }
  destruct Hrun as (w3 & Hrun & Hanswer).
  exact (Hfinish _ w3 Hrun Hanswer).
Qed.

(** ** The language of a file *)

Lemma split_fuel_nonempty (fuel : nat) (sep s : string) : Str.split_fuel fuel sep s <> [].
Proof.
  destruct fuel; cbn [Str.split_fuel]; [discriminate |].
  destruct (Str.index_of sep s); discriminate.
Qed.

Lemma last_cons {A} (x : A) (l : list A) (d : A) : l <> [] -> last (x :: l) d = last l d.
Proof. destruct l; [contradiction | reflexivity]. Qed.

Lemma split_last_piece (ext : string) :
  Str.index_of "." ext = None ->
  forall (stem : string) (fuel : nat),
  String.length stem < fuel ->
  last (Str.split_fuel fuel "." (stem ++ String "."%char ext)) "" = ext.
Proof.
  intros Hext. induction stem as [| a stem IH]; intros fuel Hlt.
  - destruct fuel as [| f]; [inversion Hlt |].
    cbn [append Str.split_fuel Str.index_of Str.starts_with Ascii.eqb Bool.eqb andb].
    cbn [Str.take Nat.add String.length Str.drop].
    rewrite (split_fuel_none f "." ext Hext). reflexivity.
  - destruct fuel as [| f]; [inversion Hlt |].
    cbn [String.length] in Hlt.
    cbn [append Str.split_fuel Str.index_of].
    destruct (Str.starts_with "." (String a (stem ++ String "."%char ext))) eqn:Hhead.
    + cbn [Str.take Nat.add String.length Str.drop].
      rewrite last_cons by apply split_fuel_nonempty.
      apply IH. lia.
    + specialize (IH (S f) ltac:(lia)). cbn [Str.split_fuel] in IH.
      destruct (Str.index_of "." (stem ++ String "."%char ext)) as [i |];
        cbn [option_map].
      * rewrite last_cons in IH by apply split_fuel_nonempty.
        rewrite last_cons by apply split_fuel_nonempty.
        cbn [Nat.add Str.drop String.length] in IH |- *. exact IH.
      * cbn [last] in IH. apply (f_equal String.length) in IH.
        rewrite length_append in IH. cbn [String.length] in IH. lia.
Qed.

(** *** The lower case of a text *)

Lemma starts_with_bytes2 (x y a b : ascii) (r : string) :
  Str.starts_with (Str.bytes2 x y) (String a (String b r))
  = String.eqb (Str.bytes2 a b) (Str.bytes2 x y).
Proof.
  cbn. rewrite (Ascii.eqb_sym x a), (Ascii.eqb_sym y b).
  destruct (Ascii.eqb a x), (Ascii.eqb b y); reflexivity.
Qed.

Lemma starts_with_bytes3 (x y z a b c : ascii) (r : string) :
  Str.starts_with (Str.bytes3 x y z) (String a (String b (String c r)))
  = String.eqb (Str.bytes3 a b c) (Str.bytes3 x y z).
Proof.
  cbn. rewrite (Ascii.eqb_sym x a), (Ascii.eqb_sym y b), (Ascii.eqb_sym z c).
  destruct (Ascii.eqb a x), (Ascii.eqb b y), (Ascii.eqb c z); reflexivity.
Qed.

(** What [toLowerCase] does at the head of a text. *)
Lemma toLowerCase_step (a : ascii) (r : string) :
  (exists r', String a r = Str.capital_I_dot ++ r'
              /\ Str.toLowerCase (String a r)
                 = String "i" (Str.combining_dot ++ Str.toLowerCase r'))
  \/ (exists r', String a r = Str.kelvin_sign ++ r'
                 /\ Str.toLowerCase (String a r) = String "k" (Str.toLowerCase r'))
  \/ (Str.toLowerCase (String a r) = String (Str.lower_char a) (Str.toLowerCase r)
      /\ Str.starts_with Str.capital_I_dot (String a r) = false
      /\ Str.starts_with Str.kelvin_sign (String a r) = false).
Proof.
  destruct r as [| b [| c r3]].
  - right. right. split; [reflexivity |].
    cbn. rewrite !andb_false_r. split; reflexivity.
  - cbn [Str.toLowerCase].
    destruct (String.eqb (Str.bytes2 a b) Str.capital_I_dot) eqn:Hdot.
    + apply String.eqb_eq in Hdot. injection Hdot as -> ->.
      left. exists "". split; reflexivity.
    + right. right. split; [reflexivity |]. split.
      * unfold Str.capital_I_dot in Hdot |- *. rewrite starts_with_bytes2. exact Hdot.
      * cbn. rewrite !andb_false_r. reflexivity.
  - cbn [Str.toLowerCase].
    destruct (String.eqb (Str.bytes2 a b) Str.capital_I_dot) eqn:Hdot.
    + apply String.eqb_eq in Hdot. injection Hdot as -> ->.
      left. exists (String c r3). split; reflexivity.
    + destruct (String.eqb (Str.bytes3 a b c) Str.kelvin_sign) eqn:Hkelvin.
      * apply String.eqb_eq in Hkelvin. injection Hkelvin as -> -> ->.
        right. left. exists r3. split; reflexivity.
      * right. right. split; [reflexivity |]. split.
        -- unfold Str.capital_I_dot in Hdot |- *. rewrite starts_with_bytes2. exact Hdot.
        -- unfold Str.kelvin_sign in Hkelvin |- *. rewrite starts_with_bytes3.
           exact Hkelvin.
Qed.

(** Induction on a text, one character that [toLowerCase] reads at a
    time. *)
Lemma toLowerCase_ind (P : string -> Prop) :
  P "" ->
  (forall r, P r -> P (Str.capital_I_dot ++ r)) ->
  (forall r, P r -> P (Str.kelvin_sign ++ r)) ->
  (forall a r,
     Str.toLowerCase (String a r) = String (Str.lower_char a) (Str.toLowerCase r) ->
     Str.starts_with Str.capital_I_dot (String a r) = false ->
     Str.starts_with Str.kelvin_sign (String a r) = false ->
     P r -> P (String a r)) ->
  forall s, P s.
Proof.
  intros Hempty Hdot Hkelvin Hplain s.
  remember (String.length s) as n eqn:Hn.
  revert s Hn. induction n as [n IH] using lt_wf_ind. intros s Hn.
  destruct s as [| a r]; [exact Hempty |].
  destruct (toLowerCase_step a r) as [(r' & H & _) | [(r' & H & _) | (H1 & H2 & H3)]].
  - injection H as -> ->. apply (Hdot r'). apply (IH (String.length r')); [| reflexivity].
    rewrite Hn. cbn. lia.
  - injection H as -> ->. apply (Hkelvin r'). apply (IH (String.length r')); [| reflexivity].
    rewrite Hn. cbn. lia.
  - apply (Hplain a r H1 H2 H3). apply (IH (String.length r)); [| reflexivity].
    rewrite Hn. cbn. lia.
Qed.

Lemma toLowerCase_plain (a : ascii) (r : string) :
  a <> "196"%char -> a <> "226"%char ->
  Str.toLowerCase (String a r) = String (Str.lower_char a) (Str.toLowerCase r).
Proof.
  intros Hdot Hkelvin.
  destruct (toLowerCase_step a r) as [(r' & H & _) | [(r' & H & _) | (H & _)]].
  - injection H as H _. contradiction.
  - injection H as H _. contradiction.
  - exact H.
Qed.

Lemma lower_char_high (a x : ascii) :
  128 <= nat_of_ascii x -> Str.lower_char a = x -> a = x.
Proof.
  intros Hx. unfold Str.lower_char.
  destruct ((65 <=? nat_of_ascii a) && (nat_of_ascii a <=? 90))%nat eqn:Hupper;
    [| intros H; exact H].
  apply andb_true_iff in Hupper as [Hlo Hhi]. apply Nat.leb_le in Hlo, Hhi.
  intros H. apply (f_equal nat_of_ascii) in H.
  rewrite nat_ascii_embedding in H by lia. lia.
Qed.

Lemma lower_char_twice (a : ascii) :
  Str.lower_char (Str.lower_char a) = Str.lower_char a.
Proof.
  unfold Str.lower_char at 1.
  destruct ((65 <=? nat_of_ascii (Str.lower_char a))
            && (nat_of_ascii (Str.lower_char a) <=? 90))%nat eqn:Hupper; [| reflexivity].
  exfalso. apply andb_true_iff in Hupper as [Hlo Hhi].
  apply Nat.leb_le in Hlo, Hhi. unfold Str.lower_char in Hlo, Hhi.
  destruct ((65 <=? nat_of_ascii a) && (nat_of_ascii a <=? 90))%nat eqn:Ha.
  - apply andb_true_iff in Ha as [H1 H2]. apply Nat.leb_le in H1, H2.
    rewrite nat_ascii_embedding in Hhi by lia. lia.
  - apply andb_false_iff in Ha as [Ha | Ha]; apply Nat.leb_gt in Ha; lia.
Qed.

(** A byte outside ASCII at the head of the lower case was at the head of
    the text. *)
Lemma toLowerCase_head (x : ascii) (r rest : string) :
  128 <= nat_of_ascii x ->
  Str.toLowerCase r = String x rest ->
  exists r', r = String x r'.
Proof.
  intros Hx H. destruct r as [| a r]; [discriminate H |].
  destruct (toLowerCase_step a r) as [(r' & _ & E) | [(r' & _ & E) | (E & _)]];
    rewrite E in H; injection H as H _.
  - subst x. cbn in Hx. lia.
  - subst x. cbn in Hx. lia.
  - apply (lower_char_high a x Hx) in H. subst a. exists r. reflexivity.
Qed.

Lemma toLowerCase_idempotent (s : string) :
  Str.toLowerCase (Str.toLowerCase s) = Str.toLowerCase s.
Proof.
  induction s as [| r IH | r IH | a r Heq Hdot Hkelvin IH] using toLowerCase_ind.
  - reflexivity.
  - change (Str.toLowerCase (Str.capital_I_dot ++ r))
      with (String "i" (String "204" (String "135" (Str.toLowerCase r)))).
    rewrite !toLowerCase_plain by discriminate. rewrite IH. reflexivity.
  - change (Str.toLowerCase (Str.kelvin_sign ++ r)) with (String "k" (Str.toLowerCase r)).
    rewrite toLowerCase_plain by discriminate. rewrite IH. reflexivity.
  - rewrite Heq.
    destruct (toLowerCase_step (Str.lower_char a) (Str.toLowerCase r))
      as [(r' & H & _) | [(r' & H & _) | (E & _)]].
    + exfalso. injection H as Ha Hr.
      apply (lower_char_high a "196") in Ha; [| cbn; lia]. subst a.
      destruct (toLowerCase_head "176" r _ ltac:(cbn; lia) Hr) as (r1 & ->).
      discriminate Hdot.
    + exfalso. injection H as Ha Hr.
      apply (lower_char_high a "226") in Ha; [| cbn; lia]. subst a.
      destruct (toLowerCase_head "132" r _ ltac:(cbn; lia) Hr) as (r1 & ->).
      rewrite toLowerCase_plain in Hr by discriminate.
      injection Hr as Hr.
      destruct (toLowerCase_head "170" r1 _ ltac:(cbn; lia) Hr) as (r2 & ->).
      discriminate Hkelvin.
    + rewrite E, IH, lower_char_twice. reflexivity.
Qed.

Lemma toLowerCase_no_dot (s : string) :
  Str.index_of "." s = None -> Str.index_of "." (Str.toLowerCase s) = None.
Proof.
  induction s as [| r IH | r IH | c s Heq _ _ IH] using toLowerCase_ind; intros H.
  - reflexivity.
  - apply (index_of_suffix_none "." Str.capital_I_dot r) in H.
    change (Str.toLowerCase (Str.capital_I_dot ++ r))
      with (String "i" (String "204" (String "135" (Str.toLowerCase r)))).
    repeat (apply index_of_cons_none; [reflexivity |]). exact (IH H).
  - apply (index_of_suffix_none "." Str.kelvin_sign r) in H.
    change (Str.toLowerCase (Str.kelvin_sign ++ r)) with (String "k" (Str.toLowerCase r)).
    apply index_of_cons_none; [reflexivity |]. exact (IH H).
  - apply index_of_tail in H as [Hhead Htail].
    rewrite Heq. apply index_of_cons_none; [| exact (IH Htail)].
    cbn [Str.starts_with] in Hhead |- *. rewrite andb_true_r in Hhead |- *.
    unfold Str.lower_char.
    destruct ((65 <=? nat_of_ascii c) && (nat_of_ascii c <=? 90))%nat eqn:Hupper;
      [| exact Hhead].
    apply andb_true_iff in Hupper as [Hlo Hhi].
    apply Nat.leb_le in Hlo, Hhi.
    destruct (Ascii.eqb_spec "." (ascii_of_nat (nat_of_ascii c + 32))) as [Heq' |];
      [| reflexivity].
    apply (f_equal nat_of_ascii) in Heq'. rewrite nat_ascii_embedding in Heq' by lia.
    cbn in Heq'. lia.
Qed.

(** X21. [detectLanguage] looks at the text after the last dot of the path
    only, whatever the case of its letters; a path that holds no dot is
    taken whole as if it were an extension. *)
Theorem detectLanguage_reads_extension (stem ext : string) :
  Str.index_of "." ext = None ->
  FileScanner.detectLanguage (stem ++ "." ++ ext)
  = FileScanner.language_of (Str.toLowerCase ext)
  /\ FileScanner.detectLanguage ext = FileScanner.language_of (Str.toLowerCase ext)
  /\ FileScanner.detectLanguage (stem ++ "." ++ Str.toLowerCase ext)
     = FileScanner.detectLanguage (stem ++ "." ++ ext).
Proof.
  intros Hext.
  assert (Hlast : forall e, Str.index_of "." e = None ->
                  FileScanner.extension (stem ++ "." ++ e) = Str.toLowerCase e).
  { intros e He. unfold FileScanner.extension, Str.split.
    change (stem ++ "." ++ e) with (stem ++ String "."%char e).
    rewrite (split_last_piece e He); [reflexivity |].
    rewrite length_append. cbn [String.length]. lia. }
  pose proof (toLowerCase_idempotent ext) as Hidem.
  unfold FileScanner.detectLanguage.
  rewrite (Hlast ext Hext), (Hlast _ (toLowerCase_no_dot ext Hext)), Hidem.
  split; [reflexivity |]. split; [| reflexivity].
  unfold FileScanner.extension, Str.split.
  rewrite (split_fuel_none _ "." ext Hext). reflexivity.
Qed.

Lemma detectLanguage_reads_extension_witness :
  FileScanner.detectLanguage ("src/App.test" ++ "." ++ "TSX")
  = FileScanner.language_of (Str.toLowerCase "TSX")
  /\ FileScanner.detectLanguage "TSX" = FileScanner.language_of (Str.toLowerCase "TSX")
  /\ FileScanner.detectLanguage ("src/App.test" ++ "." ++ Str.toLowerCase "TSX")
     = FileScanner.detectLanguage ("src/App.test" ++ "." ++ "TSX").
Proof.
  apply (detectLanguage_reads_extension "src/App.test" "TSX"). reflexivity.
Defined.

Lemma language_of_range (extension : string) :
  FileScanner.language_of extension = "unknown"
  \/ In (FileScanner.language_of extension) known_languages.
Proof.
  unfold FileScanner.language_of, known_languages.
  repeat match goal with
         | |- context [if ?b then _ else _] => destruct b
         end; cbn [In]; tauto.
Qed.


(** ** The technology stack *)

Lemma count_of_increment (k lang : string) (m : list (string * nat)) :
  count_of k (CodebaseAnalyzer.increment lang m)
  = count_of k m + (if String.eqb k lang then 1 else 0).
Proof.
  induction m as [| [k' n] m IH].
  - cbn. destruct (String.eqb k lang); reflexivity.
  - cbn [CodebaseAnalyzer.increment count_of].
    destruct (String.eqb_spec lang k') as [-> | Hlang].
    + cbn [count_of]. destruct (String.eqb k k'); lia.
    + cbn [count_of]. destruct (String.eqb_spec k k') as [-> | Hk].
      * destruct (String.eqb_spec k' lang); [congruence | lia].
      * exact IH.
Qed.

Lemma keys_increment (lang : string) (m : list (string * nat)) :
  map fst (CodebaseAnalyzer.increment lang m)
  = if in_dec string_dec lang (map fst m) then map fst m else (map fst m ++ [lang])%list.
Proof.
  induction m as [| [k' n] m IH]; [reflexivity |].
  cbn [CodebaseAnalyzer.increment map fst].
  destruct (String.eqb_spec lang k') as [-> | Hlang].
  - cbn [map fst]. destruct (in_dec string_dec k' (k' :: map fst m)) as [_ | Hnot];
      [reflexivity | exfalso; apply Hnot; left; reflexivity].
  - cbn [map fst]. rewrite IH.
    destruct (in_dec string_dec lang (map fst m)) as [Hin | Hnotin],
      (in_dec string_dec lang (k' :: map fst m)) as [Hin' | Hnotin'];
      try reflexivity.
    + exfalso. apply Hnotin'. right. exact Hin.
    + exfalso. destruct Hin' as [Heq | Hin']; [congruence | contradiction].
Qed.

Lemma keys_increment_NoDup (lang : string) (m : list (string * nat)) :
  NoDup (map fst m) -> NoDup (map fst (CodebaseAnalyzer.increment lang m)).
Proof.
  intros H. rewrite keys_increment.
  destruct (in_dec string_dec lang (map fst m)) as [Hin | Hnotin]; [exact H |].
  apply NoDup_app; [exact H | repeat constructor; intros [] | ].
  intros x Hx [<- | []]. contradiction.
Qed.

Lemma keys_increment_In (k lang : string) (m : list (string * nat)) :
  In k (map fst (CodebaseAnalyzer.increment lang m)) <-> k = lang \/ In k (map fst m).
Proof.
  rewrite keys_increment.
  destruct (in_dec string_dec lang (map fst m)) as [Hin | Hnotin].
  - split; [tauto |]. intros [-> | H]; assumption.
  - rewrite in_app_iff. cbn [In]. split; [intros [H | [H | []]]; auto | intros [H | H]; auto].
Qed.

Lemma count_of_absent (k : string) (m : list (string * nat)) :
  ~ In k (map fst m) -> count_of k m = 0.
Proof.
  induction m as [| [k' n] m IH]; intros H; [reflexivity |].
  cbn [count_of]. destruct (String.eqb_spec k k') as [-> | Hk].
  - exfalso. apply H. left. reflexivity.
  - apply IH. intros Hin. apply H. right. exact Hin.
Qed.

Lemma count_of_In (k : string) (n : nat) (m : list (string * nat)) :
  NoDup (map fst m) -> In (k, n) m -> count_of k m = n.
Proof.
  induction m as [| [k' n'] m IH]; intros Hnd Hin; [contradiction |].
  inversion Hnd as [| ? ? Hnotin Hnd']; subst.
  cbn [count_of]. destruct Hin as [Heq | Hin].
  - injection Heq as -> ->. rewrite String.eqb_refl. reflexivity.
  - destruct (String.eqb_spec k k') as [-> | Hk].
    + exfalso. apply Hnotin. apply (in_map fst) in Hin. exact Hin.
    + apply IH; assumption.
Qed.

(** The [Map] that the loop of [detectTechStack] builds: its keys are
    distinct, they are the languages of the files other than ['unknown'],
    and each is mapped to the number of files of that language. *)
Lemma count_languages_from (files : list ScannedFile) :
  forall m,
  let m' := fold_left (fun languages file =>
                         if String.eqb (language file) "unknown" then languages
                         else CodebaseAnalyzer.increment (language file) languages)
                      files m in
  (NoDup (map fst m) -> NoDup (map fst m'))
  /\ (forall k, In k (map fst m')
                <-> In k (map fst m) \/ (k <> "unknown" /\ In k (map language files)))
  /\ (forall k, count_of k m'
                = count_of k m + (if String.eqb k "unknown" then 0 else occurrences k files)).
Proof.
  induction files as [| f files IH]; intros m.
  - cbn. split; [tauto |]. split.
    + intros k. tauto.
    + intros k. destruct (String.eqb k "unknown"); lia.
  - cbn [fold_left].
    destruct (String.eqb_spec (language f) "unknown") as [Hunknown | Hknown].
    + destruct (IH m) as (Hnd & Hkeys & Hcount). cbv zeta in *.
      split; [exact Hnd |]. split.
      * intros k. rewrite Hkeys. cbn [map In]. split.
        -- intros [H | [H1 H2]]; auto.
        -- intros [H | [H1 [H2 | H2]]]; auto. congruence.
      * intros k. rewrite Hcount. unfold occurrences. cbn [map count_occ].
        destruct (String.eqb_spec k "unknown") as [-> | Hk]; [reflexivity |].
        destruct (string_dec (language f) k); [congruence | reflexivity].
    + destruct (IH (CodebaseAnalyzer.increment (language f) m)) as (Hnd & Hkeys & Hcount).
      cbv zeta in *.
      split; [intros H; apply Hnd, keys_increment_NoDup, H |]. split.
      * intros k. rewrite Hkeys, keys_increment_In. cbn [map In]. split.
        -- intros [[-> | H] | [H1 H2]]; auto.
        -- intros [H | [H1 [H2 | H2]]]; auto.
      * intros k. rewrite Hcount, count_of_increment. unfold occurrences.
        cbn [map count_occ].
        destruct (String.eqb_spec k "unknown") as [-> | Hk].
        -- destruct (String.eqb_spec "unknown" (language f)); [congruence | lia].
        -- destruct (String.eqb_spec k (language f)) as [Heq | Hne];
             destruct (string_dec (language f) k); try congruence; lia.
Qed.

Lemma insert_entry_perm (a : string * nat) (l : list (string * nat)) :
  Permutation (CodebaseAnalyzer.insert_entry a l) (a :: l).
Proof.
  induction l as [| b l IH]; [reflexivity |].
  cbn [CodebaseAnalyzer.insert_entry]. destruct (snd a <? snd b)%nat; [| reflexivity].
  rewrite IH. apply perm_swap.
Qed.

Lemma sort_entries_perm (l : list (string * nat)) :
  Permutation (CodebaseAnalyzer.sort_entries l) l.
Proof.
  induction l as [| a l IH]; [reflexivity |].
  cbn [CodebaseAnalyzer.sort_entries fold_right].
  rewrite insert_entry_perm. apply perm_skip. exact IH.
Qed.

Lemma insert_entry_sorted (a : string * nat) (l : list (string * nat)) :
  StronglySorted (fun x y => snd y <= snd x) l ->
  StronglySorted (fun x y => snd y <= snd x) (CodebaseAnalyzer.insert_entry a l).
Proof.
  induction 1 as [| b l Hl IH Hb]; [repeat constructor |].
  cbn [CodebaseAnalyzer.insert_entry].
  destruct (Nat.ltb_spec (snd a) (snd b)) as [Hlt | Hge].
  - constructor; [exact IH |].
    apply (Permutation_Forall (Permutation_sym (insert_entry_perm a l))).
    constructor; [lia | exact Hb].
  - constructor; [constructor; assumption |].
    constructor; [exact Hge |].
    eapply Forall_impl; [| exact Hb]. cbv beta. intros c Hc. lia.
Qed.

Lemma sort_entries_sorted (l : list (string * nat)) :
  StronglySorted (fun x y => snd y <= snd x) (CodebaseAnalyzer.sort_entries l).
Proof.
  induction l as [| a l IH]; [constructor |].
  cbn [CodebaseAnalyzer.sort_entries fold_right]. apply insert_entry_sorted. exact IH.
Qed.

Lemma sorted_app {A} (R : A -> A -> Prop) (l1 l2 : list A) :
  StronglySorted R (l1 ++ l2) ->
  StronglySorted R l1 /\ Forall (fun x => Forall (R x) l2) l1.
Proof.
  induction l1 as [| x l1 IH]; intros H; [split; constructor |].
  cbn [app] in H. inversion H as [| ? ? Hs Hx]; subst.
  destruct (IH Hs) as [Hs1 Hcross]. apply Forall_app in Hx as [Hx1 Hx2].
  split; constructor; assumption.
Qed.

Lemma NoDup_firstn {A} (n : nat) (l : list A) : NoDup l -> NoDup (firstn n l).
Proof.
  intros H. rewrite <- (firstn_skipn n l) in H. apply NoDup_app_remove_r in H. exact H.
Qed.

Lemma sorted_keys (occ : string -> nat) (l : list (string * nat)) :
  StronglySorted (fun x y => snd y <= snd x) l ->
  Forall (fun e => snd e = occ (fst e)) l ->
  StronglySorted (fun a b => occ b <= occ a) (map fst l).
Proof.
  induction 1 as [| x l Hs IH Hx]; intros Hall; [constructor |].
  inversion Hall as [| ? ? Hhead Htail]; subst.
  cbn [map]. constructor; [apply IH; exact Htail |].
  apply Forall_map. rewrite Forall_forall in Hx, Htail |- *.
  intros y Hy. rewrite <- (Htail y Hy), <- Hhead. apply Hx. exact Hy.
Qed.

Lemma detectTechStack_ranked (files : list ScannedFile) :
  let stack := CodebaseAnalyzer.detectTechStack files in
  List.length stack <= 5
  /\ NoDup stack
  /\ (forall lang, In lang stack -> lang <> "unknown" /\ 0 < occurrences lang files)
  /\ StronglySorted (fun a b => occurrences b files <= occurrences a files) stack
  /\ (forall lang, lang <> "unknown" -> 0 < occurrences lang files -> ~ In lang stack ->
      List.length stack = 5
      /\ forall a, In a stack -> occurrences lang files <= occurrences a files).
Proof.
  unfold CodebaseAnalyzer.detectTechStack. rewrite slice_0.
  set (m := CodebaseAnalyzer.count_languages files).
  set (s := CodebaseAnalyzer.sort_entries m).
  destruct (count_languages_from files []) as (Hnd & Hkeys & Hcount).
  cbv zeta in Hnd, Hkeys, Hcount. fold (CodebaseAnalyzer.count_languages files) in *.
  fold m in Hnd, Hkeys, Hcount.
  specialize (Hnd (NoDup_nil _)).
  assert (Hperm : Permutation s m) by apply sort_entries_perm.
  assert (Hentry : forall e, In e s ->
                   fst e <> "unknown"
                   /\ snd e = occurrences (fst e) files
                   /\ 0 < occurrences (fst e) files).
  { intros [k n] Hin. apply (Permutation_in _ Hperm) in Hin. cbn [fst snd].
    assert (Hkey : In k (map fst m)) by (apply (in_map fst) in Hin; exact Hin).
    apply Hkeys in Hkey as [[] | [Hk Hlang]].
    split; [exact Hk |].
    assert (Hn : n = occurrences k files).
    { rewrite <- (count_of_In k n m Hnd Hin), Hcount. cbn [count_of].
      destruct (String.eqb_spec k "unknown"); [contradiction | reflexivity]. }
    split; [exact Hn |].
    unfold occurrences. apply count_occ_In. exact Hlang. }
  assert (Hsorted : StronglySorted (fun x y => snd y <= snd x) s)
    by apply sort_entries_sorted.
  rewrite <- (firstn_skipn 5 s) in Hsorted.
  apply sorted_app in Hsorted as [Htop Hcross].
  assert (Hsub : forall e, In e (firstn 5 s) -> In e s).
  { intros e He. rewrite <- (firstn_skipn 5 s). apply in_or_app. left. exact He. }
  cbv zeta. split; [rewrite length_map; apply firstn_le_length |].
  split.
  { rewrite <- firstn_map. apply NoDup_firstn.
    apply (Permutation_NoDup (Permutation_sym (Permutation_map fst Hperm))). exact Hnd. }
  split.
  { intros lang Hin. apply in_map_iff in Hin as (e & <- & He).
    destruct (Hentry e (Hsub e He)) as (H1 & _ & H3). split; assumption. }
  split.
  { apply sorted_keys; [exact Htop |].
    apply Forall_forall. intros e He. apply (Hentry e (Hsub e He)). }
  intros lang Hknown Hpos Hout.
  assert (Hkey : In lang (map fst m)).
  { apply Hkeys. right. split; [exact Hknown |].
    unfold occurrences in Hpos. apply (count_occ_In string_dec). exact Hpos. }
  apply in_map_iff in Hkey as ([k n] & Hk & Hin). cbn [fst] in Hk. subst k.
  apply (Permutation_in _ (Permutation_sym Hperm)) in Hin.
  rewrite <- (firstn_skipn 5 s) in Hin. apply in_app_or in Hin as [Hin | Hin].
  { exfalso. apply Hout. apply in_map_iff. exists (lang, n). split; [reflexivity | exact Hin]. }
  assert (Hlong : 5 < List.length s).
  { destruct (Nat.le_gt_cases (List.length s) 5) as [Hle | Hgt]; [| exact Hgt].
    rewrite skipn_all2 in Hin by exact Hle. contradiction. }
  split; [rewrite length_map, length_firstn; lia |].
  intros a Ha. apply in_map_iff in Ha as (e & <- & He).
  rewrite Forall_forall in Hcross. specialize (Hcross e He).
  rewrite Forall_forall in Hcross. specialize (Hcross (lang, n) Hin). cbn [snd] in Hcross.
  destruct (Hentry e (Hsub e He)) as (_ & He2 & _).
  assert (Hn : In (lang, n) s).
  { rewrite <- (firstn_skipn 5 s). apply in_or_app. right. exact Hin. }
  destruct (Hentry (lang, n) Hn) as (_ & Hn2 & _). cbn [fst snd] in Hn2. lia.
Qed.

(** X22. [detectTechStack] returns the languages of the scanned files,
    ['unknown'] left out, each once, by decreasing number of files, and at
    most five of them: a language that is left out has no more files than
    any of the five that are kept. *)
Theorem detectTechStack_top_five (files : list ScannedFile) :
  let stack := CodebaseAnalyzer.detectTechStack files in
  List.length stack <= 5
  /\ NoDup stack
  /\ (forall lang, In lang stack -> lang <> "unknown" /\ 0 < occurrences lang files)
  /\ StronglySorted (fun a b => occurrences b files <= occurrences a files) stack
  /\ (forall lang, lang <> "unknown" -> 0 < occurrences lang files -> ~ In lang stack ->
      List.length stack = 5
      /\ forall a, In a stack -> occurrences lang files <= occurrences a files).
Proof. apply detectTechStack_ranked. Qed.

(** ** The analysis of a workspace *)

(** The loop of [scanWorkspace] stops at the first entry for which
    [fs.stat] rejects, and keeps the entries that are files otherwise. *)
Lemma scan_entries (uris : list FileScanner.Entry) :
  forall (files : list ScannedFile) (w : Machine),
  foldM FileScanner.scan_entry files uris w
  = match stat_failure uris with
    | Some error => Throw error w
    | None =>
        Ret (files ++ map (fun uri => {| path := FileScanner.relativePath uri;
                                         language := FileScanner.detectLanguage
                                                       (FileScanner.fsPath uri);
                                         size := byte_size uri |})
                        (filter is_file uris))%list w
    end.
Proof.
  induction uris as [| uri uris IH]; intros files w.
  - cbn. rewrite app_nil_r. reflexivity.
  - cbn [foldM stat_failure filter]. unfold FileScanner.scan_entry at 1.
    unfold is_file at 1, byte_size.
    destruct (FileScanner.stat uri) as [error | isFile byteSize] eqn:Hstat;
      [reflexivity |].
    destruct isFile.
    + unfold bind at 1. unfold ret at 1. rewrite IH.
      destruct (stat_failure uris); [reflexivity |].
      cbn [map]. rewrite Hstat, <- app_assoc. reflexivity.
    + unfold bind at 1. unfold ret at 1. apply IH.
Qed.

(** X23. Without a folder [analyzeWorkspace] throws.  With a folder open,
    it throws what [findFiles] rejects with, or what [fs.stat] rejects with
    for the first entry it rejects; otherwise it returns a context that
    holds the path of the folder and, for each entry found that is a file,
    in the order found, its relative path, its size and the language of its
    path on disk, and whose technology stack holds at most five of the
    eleven language names that the scanner knows.  The fields of the
    sidebar provider are left as they were. *)
Theorem analyzeWorkspace_context (root : option string) (found : FileScanner.FindResult)
    (w : Machine) :
  match root, found with
  | None, _ =>
      CodebaseAnalyzer.analyzeWorkspace root found w
      = Throw (Error "Workspace not found. Open a folder or workspace before generating a plan.") w
  | Some _, FileScanner.FindFailed error =>
      exists w', CodebaseAnalyzer.analyzeWorkspace root found w = Throw error w'
                 /\ same_session w w'
  | Some fsPath_, FileScanner.Found uris =>
      match stat_failure uris with
      | Some error =>
          exists w', CodebaseAnalyzer.analyzeWorkspace root found w = Throw error w'
                     /\ same_session w w'
      | None =>
          exists context w',
            CodebaseAnalyzer.analyzeWorkspace root found w = Ret context w'
            /\ same_session w w'
            /\ rootPath context = fsPath_
            /\ map path (files context)
               = map FileScanner.relativePath (filter is_file uris)
            /\ map size (files context) = map byte_size (filter is_file uris)
            /\ map language (files context)
               = map (fun uri => FileScanner.detectLanguage (FileScanner.fsPath uri))
                   (filter is_file uris)
            /\ List.length (techStack context) <= 5
            /\ (forall lang, In lang (techStack context) -> In lang known_languages)
      end
  end.
Proof.
  destruct root as [fsPath_ |]; [| reflexivity].
  destruct found as [error | uris].
  { exists w. split; [reflexivity | apply same_session_refl]. }
  assert (Hscan : CodebaseAnalyzer.analyzeWorkspace (Some fsPath_) (FileScanner.Found uris) w
                  = match foldM FileScanner.scan_entry [] uris w with
                    | Ret files_ w' =>
                        Ret {| rootPath := fsPath_; files := files_;
                               techStack := CodebaseAnalyzer.detectTechStack files_;
                               summary := CodebaseAnalyzer.buildSummary files_
                                            (CodebaseAnalyzer.detectTechStack files_) |} w'
                    | Throw e w' => Throw e w'
                    end) by reflexivity.
  rewrite Hscan, scan_entries. clear Hscan.
  destruct (stat_failure uris) as [error |].
  { exists w. split; [reflexivity | apply same_session_refl]. }
  cbn [app].
  eexists. exists w. split; [reflexivity |]. split; [apply same_session_refl |].
  cbn [rootPath files techStack]. rewrite !map_map. cbn [path size language].
  do 4 (split; [reflexivity |]).
  match goal with
  | |- context [CodebaseAnalyzer.detectTechStack ?scanned] =>
      destruct (detectTechStack_ranked scanned) as (Hlen & _ & Hin & _)
  end.
  split; [exact Hlen |].
  intros lang Hlang. destruct (Hin lang Hlang) as [Hknown Hpos].
  unfold occurrences in Hpos. apply (count_occ_In string_dec) in Hpos.
  rewrite map_map in Hpos. cbn [language] in Hpos.
  apply in_map_iff in Hpos as (uri & Huri & _). subst lang.
  unfold FileScanner.detectLanguage in Hknown |- *.
  destruct (language_of_range (FileScanner.extension (FileScanner.fsPath uri)))
    as [Hunknown | Hrange]; [contradiction | exact Hrange].
Qed.

(** ** The average file size *)

Lemma totalSize_from (files : list ScannedFile) :
  forall acc,
  fold_left (fun sum file => (sum + size file)%Z) files acc
  = (acc + fold_right Z.add 0 (map size files))%Z.
Proof.
  induction files as [| f files IH]; intros acc; cbn [fold_left fold_right map]; [lia |].
  rewrite IH. lia.
Qed.

Lemma averageFileSize_bounds (files : list ScannedFile) (lo hi : Z) :
  Forall (fun f => lo <= size f <= hi)%Z files ->
  let n := Z.of_nat (List.length files) in
  let total := fold_right Z.add 0%Z (map size files) in
  let average := CodebaseAnalyzer.averageFileSize files in
  (files = [] -> average = 0%Z)
  /\ (files <> [] ->
      ((2 * average - 1) * n <= 2 * total < (2 * average + 1) * n
       /\ lo <= average <= hi)%Z).
Proof.
  intros Hbounds n total average. split; [intros ->; reflexivity |].
  intros Hne.
  assert (Hn : (0 < n)%Z).
  { unfold n. destruct files; [contradiction | cbn [List.length]; lia]. }
  assert (Htotal : (lo * n <= total <= hi * n)%Z).
  { unfold total, n. clear Hne Hn average n total.
    induction Hbounds as [| f files Hf _ IH]; cbn [fold_right List.length map]; [lia |].
    rewrite Nat2Z.inj_succ. nia. }
  unfold average, CodebaseAnalyzer.averageFileSize.
  assert (Hpos : (0 <? List.length files)%nat = true).
  { apply Nat.ltb_lt. destruct files; [contradiction | cbn; lia]. }
  rewrite Hpos. unfold CodebaseAnalyzer.round_div, CodebaseAnalyzer.totalSize.
  rewrite totalSize_from, Z.add_0_l. fold n. fold total.
  pose proof (Z.div_mod (2 * total + n) (2 * n) ltac:(lia)) as Hdiv.
  pose proof (Z.mod_pos_bound (2 * total + n) (2 * n) ltac:(lia)) as Hmod.
  split; [nia |]. split.
  - apply Z.div_le_lower_bound; [lia | nia].
  - apply Z.lt_succ_r. apply Z.div_lt_upper_bound; [lia | nia].
Qed.

(** X24. For files of sizes that are not negative, whose total and number
    add up to less than 2^52, the average that [buildSummary] writes in its
    text is the mean of the sizes rounded to the nearest integer, a half
    going up; it lies between any two bounds of the sizes; and it is [0],
    not a division by zero, when there is no file. *)
Theorem averageFileSize_is_rounded_mean (files : list ScannedFile) (stack : list string)
    (lo hi : Z) :
  (0 <= lo)%Z ->
  Forall (fun f => lo <= size f <= hi)%Z files ->
  let n := Z.of_nat (List.length files) in
  let total := fold_right Z.add 0%Z (map size files) in
  (total + n < 2 ^ 52)%Z ->
  exists average,
    CodebaseAnalyzer.buildSummary files stack
    = "Located " ++ Str.of_nat (List.length files) ++ " tracked files (avg "
      ++ Str.of_Z average ++ " bytes) across "
      ++ (if (0 <? List.length stack)%nat then Str.join ", " stack else "unknown") ++ "."
    /\ (files = [] -> average = 0%Z)
    /\ (files <> [] ->
        ((2 * average - 1) * n <= 2 * total < (2 * average + 1) * n
         /\ lo <= average <= hi)%Z).
Proof.
  intros _ Hbounds n total _.
  exists (CodebaseAnalyzer.averageFileSize files). split; [reflexivity |].
  apply (averageFileSize_bounds files lo hi Hbounds).
Qed.

Lemma averageFileSize_is_rounded_mean_witness :
  exists average,
    CodebaseAnalyzer.buildSummary (files Sample.four_files) ["TypeScript"]
    = "Located 4 tracked files (avg " ++ Str.of_Z average ++ " bytes) across TypeScript."
    /\ (10 <= average <= 40)%Z.
Proof.
  destruct (averageFileSize_is_rounded_mean (files Sample.four_files) ["TypeScript"] 10 40)
    as (average & Htext & _ & Hmean).
  - lia.
  - repeat constructor; simpl; lia.
  - vm_compute. reflexivity.
  - exists average. split; [exact Htext |]. apply Hmean. discriminate.
Defined.

(** ** The escaping of the raw Markdown *)

Lemma all_chars_append (test : ascii -> bool) (a b : string) :
  all_chars test (a ++ b) = all_chars test a && all_chars test b.
Proof.
  induction a as [| c a IH]; [reflexivity |].
  cbn [append all_chars]. rewrite IH, andb_assoc. reflexivity.
Qed.

Lemma escape_char_safe (c : ascii) :
  all_chars (fun x => negb (markup_char x)) (PlanView.escape_char c) = true.
Proof.
  unfold PlanView.escape_char.
  destruct (Ascii.eqb c "&") eqn:H1; [reflexivity |].
  destruct (Ascii.eqb c "<") eqn:H2; [reflexivity |].
  destruct (Ascii.eqb c ">") eqn:H3; [reflexivity |].
  destruct (Ascii.eqb c "034") eqn:H4; [reflexivity |].
  destruct (Ascii.eqb c "'") eqn:H5; [reflexivity |].
  cbn [all_chars]. unfold markup_char. rewrite H2, H3, H4, H5. reflexivity.
Qed.

(** X25. What [escapeHtml] returns holds no angle bracket, no double quote
    and no apostrophe: the raw Markdown cannot open or close a tag or an
    attribute of the page it is put in. *)
Theorem escapeHtml_leaves_no_markup (text : string) :
  all_chars (fun c => negb (markup_char c)) (PlanView.escapeHtml text) = true.
Proof.
  induction text as [| c text IH]; [reflexivity |].
  cbn [PlanView.escapeHtml]. rewrite all_chars_append, escape_char_safe, IH. reflexivity.
Qed.

Lemma escape_char_prefix_free (c1 c2 : ascii) (x y : string) :
  PlanView.escape_char c1 ++ x = PlanView.escape_char c2 ++ y -> c1 = c2 /\ x = y.
Proof.
  unfold PlanView.escape_char.
  destruct (Ascii.eqb_spec c1 "&"); [| destruct (Ascii.eqb_spec c1 "<");
    [| destruct (Ascii.eqb_spec c1 ">"); [| destruct (Ascii.eqb_spec c1 "034");
      [| destruct (Ascii.eqb_spec c1 "'")]]]];
  (destruct (Ascii.eqb_spec c2 "&"); [| destruct (Ascii.eqb_spec c2 "<");
    [| destruct (Ascii.eqb_spec c2 ">"); [| destruct (Ascii.eqb_spec c2 "034");
      [| destruct (Ascii.eqb_spec c2 "'")]]]]);
  cbn [append]; intros H; injection H; intros; subst;
    try discriminate; try contradiction; try (split; congruence).
Qed.

(** X26. [escapeHtml] loses nothing: two texts that it escapes to the same
    text are the same text. *)
Theorem escapeHtml_is_injective (a b : string) :
  PlanView.escapeHtml a = PlanView.escapeHtml b -> a = b.
Proof.
  revert b. induction a as [| c a IH]; intros [| d b] H.
  - reflexivity.
  - exfalso. cbn [PlanView.escapeHtml] in H. unfold PlanView.escape_char in H.
    repeat match type of H with
           | context [if ?t then _ else _] => destruct t
           end; discriminate H.
  - exfalso. cbn [PlanView.escapeHtml] in H. unfold PlanView.escape_char in H.
    repeat match type of H with
           | context [if ?t then _ else _] => destruct t
           end; discriminate H.
  - cbn [PlanView.escapeHtml] in H. apply escape_char_prefix_free in H as [-> H].
    rewrite (IH b H). reflexivity.
Qed.

Lemma escapeHtml_is_injective_witness : "a<b" = "a<b".
Proof.
  apply (escapeHtml_is_injective "a<b" "a<b"). reflexivity.
Defined.

(** ** Without a provider *)

Lemma strings_are_strings (l : list string) : forallb is_string (map VStr l) = true.
Proof. induction l as [| x l IH]; [reflexivity | exact IH]. Qed.

Lemma heuristicPlan_well_formed (rt : Runtime) (request : PlanRequest)
    (context : ProjectContext) (w : Machine) :
  exists p phases,
    LLMService.heuristicPlan rt request context w = Ret p (bump 1 0 w)
    /\ heuristic_shape p
    /\ field (VObj p) "task" = VStr (task request)
    /\ field (VObj p) "mode" = VStr (mode_text (mode request))
    /\ field (VObj p) "phases" = VArr phases
    /\ lacks_phases p = false
    /\ forallb well_formed_phase phases = true
    /\ field (VObj p) "rawPlan"
       = VStr (Json.stringify_pretty rt
                 (VObj [ ("note", VStr "Fallback plan generated due to missing or failed LLM response");
                         ("mode", VStr (mode_text (mode request)));
                         ("contextSummary", VStr (summary context)) ])).
Proof.
  do 2 eexists. split; [reflexivity |]. split.
  { do 2 eexists. split; [reflexivity |]. repeat split; reflexivity. }
  split; [reflexivity |]. split; [reflexivity |]. split; [reflexivity |].
  split; [reflexivity |]. split; [| reflexivity].
  cbn [forallb well_formed_phase well_formed_step is_string optional_string field lookup
       String.eqb Ascii.eqb Bool.eqb andb strings].
  rewrite strings_are_strings. reflexivity.
Qed.

(** X27. Without an API key, or with the provider ['mock'], [generatePlan]
    returns the adapter's heuristic plan whatever the files of the
    workspace: one phase, two steps, and a [rawPlan] that is the adapter's
    JSON note, not a Markdown rendering. *)
Theorem offline_plan_is_heuristic (rt : Runtime) (svc : LLMService.t)
    (reply : LLMService.GeminiReply) (request : PlanRequest) (context : ProjectContext)
    (w : Machine) :
  LLMService.no_key (apiKey (LLMService.config svc)) = true
  \/ provider (LLMService.config svc) = "mock" ->
  exists doc w',
    PlanGenerator.generatePlan rt svc reply request context w = Ret doc w'
    /\ heuristic_shape doc
    /\ field (VObj doc) "task" = VStr (task request)
    /\ field (VObj doc) "mode" = VStr (mode_text (mode request))
    /\ exists raw,
         field (VObj doc) "rawPlan" = VStr raw
         /\ Json.parse raw
            = Some (VObj [ ("note", VStr "Fallback plan generated due to missing or failed LLM response");
                           ("mode", VStr (mode_text (mode request)));
                           ("contextSummary", VStr (summary context)) ]).
Proof.
  intros Hoffline.
  assert (Hadapter : forall prompt w0,
             LLMService.generatePlan rt svc reply request context prompt w0
             = match LLMService.heuristicPlan rt request context w0 with
               | Ret p w' => Ret (LLMService.Structured p) w'
               | Throw e w' => Throw e w'
               end).
  { intros prompt w0. destruct Hoffline as [Hkey | Hmock].
    - unfold LLMService.generatePlan. rewrite Hkey. reflexivity.
    - apply mock_generatePlan. exact Hmock. }
  destruct (heuristicPlan_well_formed rt request context (bump 1 0 w))
    as (p & phases & Hp & Hshape & Htask & Hmode & Hphases & Hlack & Hwf & Hraw).
  unfold PlanGenerator.generatePlan.
  rewrite (bind_ret _ _ _ _ _ (buildPlanPrompt_run rt request context _ w)).
  erewrite bind_ret; [| rewrite Hadapter, Hp; reflexivity].
  destruct (normalisePlan_parsed rt (LLMService.Structured p) request context p
              (bump 1 0 (bump 1 0 w)) eq_refl)
    as (repaired & k & Hrun & Hmap & _).
  { rewrite Hlack, Hphases. cbn [repairable].
    apply well_formed_phase_repairable. exact Hwf. }
  rewrite Hlack in Hrun, Hmap. rewrite Hphases in Hmap. cbn [elements] in Hmap.
  destruct (well_formed_phases_repair rt phases
              (bump (if truthy (field (VObj p) "generatedAt") then 0 else 1) 0
                    (bump 1 0 (bump 1 0 w))) Hwf) as (vs & Hvs & Hviews).
  rewrite Hvs in Hmap. assert (Hsame : vs = repaired) by congruence. subst vs.
  rewrite Hraw, Htask, Hmode in Hrun.
  assert (Htask' : or_else (VStr (task request)) (VStr (task request)) = VStr (task request)).
  { unfold or_else. destruct (truthy (VStr (task request))); reflexivity. }
  assert (Hmode' : or_else (VStr (mode_text (mode request))) (VStr (mode_text (mode request)))
                   = VStr (mode_text (mode request))).
  { unfold or_else. destruct (truthy (VStr (mode_text (mode request)))); reflexivity. }
  rewrite Htask', Hmode' in Hrun.
  rewrite (bind_ret _ _ _ _ _ Hrun).
  cbn [field lookup String.eqb Ascii.eqb Bool.eqb nullish].
  unfold ret. do 2 eexists. split; [reflexivity |].
  split.
  { destruct Hshape as (s1 & s2 & Hview & Hsteps). exists s1, s2.
    split; [| exact Hsteps].
    unfold View.phases in Hview |- *. rewrite Hphases in Hview.
    cbn [field lookup String.eqb Ascii.eqb Bool.eqb elements] in Hview |- *.
    rewrite Hviews. exact Hview. }
  split; [reflexivity |]. split; [reflexivity |].
  eexists. split; [reflexivity |]. apply pretty_strings_parse.
Qed.

Lemma offline_plan_is_heuristic_witness :
  exists doc w',
    PlanGenerator.generatePlan Sample.rt Sample.mock LLMService.NoCandidates
      Sample.request Sample.four_files Sample.start = Ret doc w'
    /\ heuristic_shape doc.
Proof.
  destruct (offline_plan_is_heuristic Sample.rt Sample.mock LLMService.NoCandidates
              Sample.request Sample.four_files Sample.start (or_intror eq_refl))
    as (doc & w' & Hrun & Hshape & _).
  exists doc, w'. split; assumption.
Defined.

(** ** After [clearChat] *)

(** X28. [clearChat] forgets the conversation, the plan and the project
    context: the next message is the first of the history and is handled as
    a request for a new plan, whatever its wording; with no folder open it
    is answered by the error of the workspace analyser, and no plan is
    stored. *)
Theorem cleared_chat_starts_over (rt : Runtime) (svc : LLMService.t)
    (reply : LLMService.GeminiReply) (userMessage : string) (mode_ : option PlanMode)
    (w : Machine) :
  Str.is_empty (Str.trim userMessage) = false ->
  SidebarProvider.clearChat w = Ret tt (cleared w)
  /\ (forall preferredMode,
        SidebarProvider.generateResponse rt svc reply userMessage preferredMode (cleared w)
        = SidebarProvider.generateNewPlan rt svc reply userMessage preferredMode (cleared w))
  /\ exists w',
       SidebarProvider.handleChatMessage rt svc None reply userMessage mode_ (cleared w)
       = Ret tt w'
       /\ currentPlan w' = VUndefined
       /\ projectContext w' = None
       /\ map msg_content (conversationHistory w')
          = [userMessage;
             "❌ Error: Workspace not found. Open a folder or workspace before generating a plan."].
Proof.
  intros Hblank. split; [reflexivity |]. split.
  { intros preferredMode. unfold SidebarProvider.generateResponse.
    unfold bind at 1. cbn [SidebarProvider.read cleared currentPlan truthy negb].
    rewrite andb_false_r, orb_true_r. reflexivity. }
  assert (Hne : Str.is_empty userMessage = false).
  { destruct userMessage; [discriminate Hblank | reflexivity]. }
  unfold SidebarProvider.handleChatMessage. rewrite Hne, Hblank. cbn [orb].
  erewrite bind_ret; [| apply now_run]. cbv beta zeta.
  erewrite bind_ret; [| reflexivity].
  erewrite bind_ret; [| reflexivity].
  erewrite bind_ret; [| reflexivity].
  cbn [ticks draws conversationHistory currentPlan projectContext posted bump Nat.add
       cleared].
  unfold bind at 1. unfold try_catch at 1.
  unfold bind at 1. unfold bind at 1. unfold SidebarProvider.read at 1.
  cbn [projectContext SidebarProvider.analyzeWorkspace].
  unfold bind at 1. unfold throw at 1.
  eexists. split; [reflexivity |].
  cbn. repeat split; reflexivity.
Qed.

Lemma cleared_chat_starts_over_witness :
  exists w',
    SidebarProvider.handleChatMessage Sample.rt Sample.gemini None
      (Sample.answers "{}") "Please update the plan" None (cleared Sample.with_plan)
    = Ret tt w'
    /\ currentPlan w' = VUndefined
    /\ map msg_content (conversationHistory w')
       = ["Please update the plan";
          "❌ Error: Workspace not found. Open a folder or workspace before generating a plan."].
Proof.
  assert (Hblank : Str.is_empty (Str.trim "Please update the plan") = false)
    by (vm_compute; reflexivity).
  destruct (cleared_chat_starts_over Sample.rt Sample.gemini (Sample.answers "{}")
              "Please update the plan" None Sample.with_plan Hblank)
    as (_ & _ & w' & Hrun & Hplan & _ & Hhistory).
  exists w'. split; [exact Hrun |]. split; assumption.
Defined.

(** ** The age of a message *)

(** X29. For a message between one minute and one hour old, [formatTimestamp]
    shows the whole number of minutes elapsed, from 1 to 59, in the singular
    below two minutes; a message less than a minute old, or dated in the
    future, is shown as just sent. *)
Theorem formatTimestamp_minutes (d : Z) (localTime : string) :
  (d < 3600000)%Z ->
  if (d <? 60000)%Z
  then SidebarScript.formatTimestamp (Some d) localTime = "Just now"
  else exists m,
         (1 <= m <= 59 /\ m * 60000 <= d < (m + 1) * 60000)%Z
         /\ SidebarScript.formatTimestamp (Some d) localTime
            = Str.of_Z m ++ " min" ++ (if (d <? 120000)%Z then "" else "s") ++ " ago".
Proof.
  intros Hhour. unfold SidebarScript.formatTimestamp.
  destruct (Z.ltb_spec d 60000) as [Hlt | Hge]; [reflexivity |].
  destruct (Z.ltb_spec d 3600000) as [_ | Habs]; [| lia].
  pose proof (Z.div_mod d 60000 ltac:(lia)) as Hdiv.
  pose proof (Z.mod_pos_bound d 60000 ltac:(lia)) as Hmod.
  exists (d / 60000)%Z. split; [lia |].
  cbv zeta. do 2 f_equal.
  destruct (Z.ltb_spec 1 (d / 60000)), (Z.ltb_spec d 120000); try reflexivity; lia.
Qed.

Lemma formatTimestamp_minutes_witness :
  exists m,
    (1 <= m <= 59 /\ m * 60000 <= 125000 < (m + 1) * 60000)%Z
    /\ SidebarScript.formatTimestamp (Some 125000%Z) "10:00"
       = Str.of_Z m ++ " min" ++ "s" ++ " ago".
Proof.
  apply (formatTimestamp_minutes 125000 "10:00"). lia.
Defined.
